(** * Hand-motion analysis core: clinical scoring, event extraction,
      thresholding, filters and biomarkers

    A shallow embedding of the analysis service
    (Web-Service/analysis-service/protocol_system.py and data_handling.py).

    Numbers.  Python floats are modelled as exact rationals ([Q]) extended
    with one not-a-number value ([pyfloat]); rounding is not modelled,
    except for the mean confidence of an event, which is a parameter of
    the event code and is computed in binary64 where its rounding
    matters.  The spectral code, which needs square roots and
    trigonometry, is modelled over the real numbers ([R]) with the same
    not-a-number extension.  Calls into numpy and scipy whose result no
    property below depends on are section variables. *)

From Stdlib Require Import List String Ascii Bool Arith ZArith QArith Qabs.
From Stdlib Require Import Lia Lqa Reals Lra.
From Stdlib Require Import Sorted.
From Stdlib Require PrimFloat FloatOps SpecFloat Uint63.
Import ListNotations.

Local Open Scope string_scope.
Local Open Scope list_scope.
Local Open Scope Q_scope.

(** ** Python values *)

(** A Python float: a number or NaN. *)
Inductive pyfloat : Type :=
  | NaN : pyfloat
  | Num : Q -> pyfloat.

Definition np_isnan (v : pyfloat) : bool :=
  match v with NaN => true | Num _ => false end.

(** Comparisons of a float with a number; every comparison with NaN is False. *)
Definition py_le (v : pyfloat) (c : Q) : bool :=
  match v with NaN => false | Num q => Qle_bool q c end.

Definition py_ge (v : pyfloat) (c : Q) : bool :=
  match v with NaN => false | Num q => Qle_bool c q end.

Definition np_abs (v : pyfloat) : pyfloat :=
  match v with NaN => NaN | Num q => Num (Qabs q) end.

(** A number as a Python object: a [float] (numpy's [float64] is one
    too), or a number of another type, such as [numpy.float32] or [int],
    for which [isinstance(value, float)] is False. *)
Inductive pynumber : Type :=
  | PyFloat : pyfloat -> pynumber
  | OtherNumber : pyfloat -> pynumber.

Definition isinstance_float (x : pynumber) : bool :=
  match x with PyFloat _ => true | OtherNumber _ => false end.

Definition number_value (x : pynumber) : pyfloat :=
  match x with PyFloat v => v | OtherNumber v => v end.

Definition Qlt_bool (a b : Q) : bool := negb (Qle_bool b a).

(** Sum of a list of rationals ([np.sum]). *)
Definition Qsum (l : list Q) : Q := fold_right Qplus 0 l.

(** Outcome of a call that may raise. *)
Inductive result (A : Type) : Type :=
  | Ok : A -> result A
  | Raise : string -> result A.
Arguments Ok {A} _.
Arguments Raise {A} _.

Definition bind {A B : Type} (m : result A) (k : A -> result B) : result B :=
  match m with Ok a => k a | Raise e => Raise e end.

Notation "x <- m ;; k" := (bind m (fun x => k))
  (at level 61, m at next level, right associativity).

(** ** Strings: [str.lower], [in] and [str.replace] on one character *)

Definition lower_ascii (c : ascii) : ascii :=
  let n := nat_of_ascii c in
  if (65 <=? n)%nat && (n <=? 90)%nat then ascii_of_nat (n + 32) else c.

Fixpoint lower (s : string) : string :=
  match s with
  | EmptyString => EmptyString
  | String c s' => String (lower_ascii c) (lower s')
  end.

(** [contains sub s] is Python's [sub in s]. *)
Fixpoint contains (sub s : string) : bool :=
  prefix sub s ||
  match s with
  | EmptyString => false
  | String _ s' => contains sub s'
  end.

Fixpoint replace_char (old new : ascii) (s : string) : string :=
  match s with
  | EmptyString => EmptyString
  | String c s' =>
      String (if Ascii.eqb c old then new else c) (replace_char old new s')
  end.

(** A Python dict read by key, as an association list in insertion order. *)
Fixpoint dict_get {V : Type} (d : list (string * V)) (k : string) : option V :=
  match d with
  | [] => None
  | (k', v) :: d' => if String.eqb k k' then Some v else dict_get d' k
  end.

(** ** Clinical scoring (CLINICAL_SCORING section of protocol_system.py) *)

Inductive SeverityLevel : Type := NORMAL | MILD | MODERATE | SEVERE.

(** [SeverityLevel.value] *)
Definition severity_value (s : SeverityLevel) : Z :=
  match s with NORMAL => 0 | MILD => 1 | MODERATE => 2 | SEVERE => 3 end.

Record ReferenceRange : Type := mkReferenceRange {
  normal_min : Q;
  normal_max : Q;
  mild_threshold : Q;
  moderate_threshold : Q;
  severe_threshold : Q;
  unit : string;
  higher_is_worse : bool
}.

(** [ReferenceRange.classify] *)
Definition classify (self : ReferenceRange) (value : pyfloat) : SeverityLevel :=
  if np_isnan value then NORMAL
  else if higher_is_worse self then
    if py_le value (normal_max self) then NORMAL
    else if py_le value (mild_threshold self) then MILD
    else if py_le value (moderate_threshold self) then MODERATE
    else SEVERE
  else
    if py_ge value (normal_min self) then NORMAL
    else if py_ge value (mild_threshold self) then MILD
    else if py_ge value (moderate_threshold self) then MODERATE
    else SEVERE.

(** [ReferenceRange.get_percentile_score] *)
Definition get_percentile_score (self : ReferenceRange) (value : pyfloat) : Q :=
  match value with
  | NaN => 100
  | Num v =>
      if higher_is_worse self then
        if Qle_bool v (normal_max self) then 100
        else if Qle_bool (severe_threshold self) v then 0
        else
          let range_span := severe_threshold self - normal_max self in
          100 * (1 - (v - normal_max self) / range_span)
      else
        if Qle_bool (normal_min self) v then 100
        else if Qle_bool v (severe_threshold self) then 0
        else
          let range_span := normal_min self - severe_threshold self in
          100 * (v - severe_threshold self) / range_span
  end.

Definition rr (nmin nmax mild moderate severe : Q) (u : string) (hw : bool)
  : ReferenceRange :=
  mkReferenceRange nmin nmax mild moderate severe u hw.

(** [CLINICAL_REFERENCE_RANGES] *)
Definition CLINICAL_REFERENCE_RANGES : list (string * ReferenceRange) :=
  [ ("sparc", rr (-(5#2)) (-(3#2)) (-3) (-4) (-5) "" false);
    ("ldljv", rr (-6) (-4) (-(13#2)) (-(15#2)) (-9) "" false);
    ("ldlja", rr (-6) (-4) (-(13#2)) (-(15#2)) (-9) "" false);
    ("normalized_jerk", rr 0 50 100 200 400 "1/s²" true);
    ("tremor_frequency", rr 0 3 5 7 10 "Hz" true);
    ("tremor_amplitude", rr 0 (5#1000) (15#1000) (3#100) (5#100) "normalized" true);
    ("tremor_severity", rr 0 (1#10) (3#10) (1#2) (8#10) "" true);
    ("q_factor", rr 0 2 5 10 20 "" true);
    ("amplitude_decrement", rr (8#10) (12#10) (6#10) (4#10) (2#10) "ratio" false);
    ("velocity_reduction", rr (8#10) (12#10) (6#10) (4#10) (2#10) "ratio" false);
    ("slowness_score", rr 0 (1#2) 1 2 4 "s/cycle" true);
    ("hesitation_index", rr 0 (2#10) (1#2) 1 2 "s" true);
    ("performance_degradation_rate",
       rr (-(1#10)) (1#10) (-(3#10)) (-(1#2)) (-(7#10)) "/normalized_time" false);
    ("velocity_decay",
       rr (-(1#10)) (1#10) (-(3#10)) (-(1#2)) (-(7#10)) "/normalized_time" false);
    ("rest_pause_frequency", rr 0 (2#10) (1#2) 1 2 "pauses/s" true);
    ("amplitude_asymmetry", rr (-(1#10)) (1#10) (2#10) (4#10) (6#10) "" true);
    ("velocity_asymmetry", rr (-(1#10)) (1#10) (2#10) (4#10) (6#10) "" true);
    ("coordination_lag", rr (-(5#100)) (5#100) (1#10) (2#10) (4#10) "s" true);
    ("rom_index_finger", rr (8#10) (15#10) (6#10) (4#10) (2#10) "normalized" false);
    ("rom_thumb", rr (6#10) (12#10) (4#10) (3#10) (15#100) "normalized" false) ].

Record ScoredBiomarker : Type := mkScoredBiomarker {
  sb_name : string;
  sb_value : pyfloat;
  sb_unit : string;
  sb_severity : SeverityLevel;
  sb_percentile_score : Q;
  sb_interpretation : string
}.

(** [np.average(scores, weights=weights)]: raises when the weights sum to
    zero. *)
Definition np_average (scores weights : list Q) : result Q :=
  let scl := Qsum weights in
  if Qeq_bool scl 0
  then Raise "ZeroDivisionError"
  else Ok (Qsum (map (fun sw => fst sw * snd sw) (combine scores weights)) / scl).

(** The weight [compute_domain_score] gives to one scored biomarker. *)
Definition domain_weight (sb : ScoredBiomarker) : Q :=
  1 + (3 - inject_Z (severity_value (sb_severity sb))) * (1#2).

Section SeverityScorer.

(** [SeverityScorer._interpret_biomarker] builds the interpretation text
    (templates and float formatting); no score depends on it. *)
Variable _interpret_biomarker :
  string -> pyfloat -> SeverityLevel -> ReferenceRange -> string.

(** [self.reference_ranges] *)
Variable reference_ranges : list (string * ReferenceRange).

(** [SeverityScorer.score_biomarker] *)
Definition score_biomarker (name : string) (value : pyfloat) : ScoredBiomarker :=
  match dict_get reference_ranges name with
  | None =>
      mkScoredBiomarker name value "" NORMAL 75
        ("No reference range available for " ++ name)
  | Some ref =>
      let value :=
        if contains "asymmetry" (lower name) || contains "lag" (lower name)
        then np_abs value else value in
      let severity := classify ref value in
      let percentile_score := get_percentile_score ref value in
      let interpretation := _interpret_biomarker name value severity ref in
      mkScoredBiomarker name value (unit ref) severity percentile_score
        interpretation
  end.

(** [SeverityScorer.score_biomarkers]: the dict maps a name to a number
    or to Python's None ([option pynumber]); an entry is left out when it
    is None or when it is a float and NaN. *)
Fixpoint score_biomarkers (biomarkers : list (string * option pynumber))
  : list ScoredBiomarker :=
  match biomarkers with
  | [] => []
  | (name, value) :: rest =>
      match value with
      | Some v =>
          if negb (isinstance_float v && np_isnan (number_value v))
          then score_biomarker name (number_value v) :: score_biomarkers rest
          else score_biomarkers rest
      | None => score_biomarkers rest
      end
  end.

(** [SeverityScorer.compute_domain_score] *)
Definition compute_domain_score (scored_biomarkers : list ScoredBiomarker)
    (domain_biomarkers : list string) : result Q :=
  let relevant :=
    filter (fun sb => existsb (String.eqb (sb_name sb)) domain_biomarkers)
           scored_biomarkers in
  match relevant with
  | [] => Ok 100
  | _ =>
      let weights := map domain_weight relevant in
      let scores := map sb_percentile_score relevant in
      np_average scores weights
  end.

(** [SeverityScorer.classify_severity] *)
Definition classify_severity (score : pyfloat) : SeverityLevel :=
  if py_ge score 85 then NORMAL
  else if py_ge score 65 then MILD
  else if py_ge score 40 then MODERATE
  else SEVERE.

(** [ClinicalInterpreter.DOMAINS] *)
Definition DOMAINS : list (string * list string) :=
  [ ("smoothness", ["sparc"; "ldljv"; "ldlja"; "normalized_jerk"]);
    ("tremor", ["tremor_frequency"; "tremor_amplitude"; "tremor_severity"; "q_factor"]);
    ("bradykinesia",
       ["amplitude_decrement"; "velocity_reduction"; "slowness_score"; "hesitation_index"]);
    ("fatigue", ["performance_degradation_rate"; "velocity_decay"; "rest_pause_frequency"]);
    ("asymmetry", ["amplitude_asymmetry"; "velocity_asymmetry"; "coordination_lag"]);
    ("range_of_motion", ["rom_index_finger"; "rom_thumb"]) ].

(** [domain_weights] of [ClinicalScoringEngine.score_all] *)
Definition domain_weights : list (string * Q) :=
  [ ("smoothness", 3#2); ("tremor", 2); ("bradykinesia", 2);
    ("fatigue", 1); ("asymmetry", 3#2); ("range_of_motion", 1) ].

(** The domain-score loop of [score_all]. *)
Fixpoint domain_scores_of (scored : list ScoredBiomarker)
    (domains : list (string * list string)) : result (list (string * Q)) :=
  match domains with
  | [] => Ok []
  | (domain, markers) :: rest =>
      s <- compute_domain_score scored markers ;;
      r <- domain_scores_of scored rest ;;
      Ok ((domain, s) :: r)
  end.

(** [ClinicalScoringEngine.score_all], up to the overall severity: the
    scored biomarkers, the domain scores, the overall score and its
    severity (the narrative and the recommendations are text built from
    these). *)
Definition score_all (biomarkers : list (string * option pynumber))
  : result (list ScoredBiomarker * list (string * Q) * Q * SeverityLevel) :=
  let scored_biomarkers := score_biomarkers biomarkers in
  domain_scores <- domain_scores_of scored_biomarkers DOMAINS ;;
  let weights :=
    map (fun ds => match dict_get domain_weights (fst ds) with
                   | Some w => w | None => 1 end) domain_scores in
  let weighted_scores := map snd domain_scores in
  overall_score <-
    (match weights with
     | [] => Ok 100
     | _ => np_average weighted_scores weights
     end) ;;
  let overall_severity := classify_severity (Num overall_score) in
  Ok (scored_biomarkers, domain_scores, overall_score, overall_severity).

End SeverityScorer.

(** ** Event extraction (EVENT_DETECTOR section of protocol_system.py) *)

(** [a[i]] on a Python sequence: a negative index counts from the end, an
    index out of range raises. *)
Definition py_index {A : Type} (l : list A) (i : Z) : result A :=
  let n := Z.of_nat (List.length l) in
  let j := if (i <? 0)%Z then (n + i)%Z else i in
  if (j <? 0)%Z then Raise "IndexError"
  else match nth_error l (Z.to_nat j) with
       | Some a => Ok a
       | None => Raise "IndexError"
       end.

(** [np.arange(n)] *)
Definition np_arange (n : nat) : list Z := map Z.of_nat (seq 0 n).

(** [np.mean], [np.max] and [np.min] of a non-empty list. *)
Definition np_mean (l : list Q) : Q := Qsum l / inject_Z (Z.of_nat (List.length l)).

Definition Qmax' (a b : Q) : Q := if Qle_bool a b then b else a.
Definition Qmin' (a b : Q) : Q := if Qle_bool a b then a else b.

Definition np_max (l : list Q) : result Q :=
  match l with
  | [] => Raise "ValueError"
  | x :: xs => Ok (fold_left Qmax' xs x)
  end.

Definition np_min (l : list Q) : result Q :=
  match l with
  | [] => Raise "ValueError"
  | x :: xs => Ok (fold_left Qmin' xs x)
  end.

(** [EVENT_CATEGORIES] of config.py *)
Definition EVENT_CATEGORIES : list (string * list (string * string)) :=
  [ ("WRIST", [ ("Rotation-Out", "wrist_rotation_out");
                ("Rotation-In", "wrist_rotation_in") ]);
    ("FINGER", [ ("Thumb Tap", "thumb_tap"); ("Thumb Lift", "thumb_lift");
                 ("Index Tap", "index_tap"); ("Index Lift", "index_lift");
                 ("Middle Tap", "middle_tap"); ("Middle Lift", "middle_lift");
                 ("Ring Tap", "ring_tap"); ("Ring Lift", "ring_lift");
                 ("Pinky Tap", "pinky_tap"); ("Pinky Lift", "pinky_lift") ]);
    ("POSTURE", [ ("Pronation", "pronation"); ("Supination", "supination");
                  ("Neutral", "neutral") ]);
    ("STATE", [ ("Aperture", "aperture"); ("Closure", "closure") ]) ].

Record EventMetadata : Type := mkEventMetadata {
  confidence_std : Q;
  confidence_min : Q
}.

Record DetectedEvent : Type := mkDetectedEvent {
  category : string;
  event_type : string;
  label : string;
  start_frame : Z;
  end_frame : Z;
  duration_frames : Z;
  confidence : Q;
  peak_confidence : Q;
  metadata : EventMetadata
}.

(** The configuration fields of an [EventDetector]. *)
Record EventDetector : Type := mkEventDetector {
  min_event_duration : Z;
  merge_gap : Z;
  confidence_threshold : Q
}.

(** The variables of the loop of [_extract_events]. *)
Record loop_state : Type := mkLoopState {
  current_label : option string;
  current_start : option nat;
  current_confidences : list Q;
  events : list DetectedEvent
}.

Section EventDetector.

(** [float(np.mean(confidences))]: numpy adds and divides in binary
    floating point, so the result is the mean only up to rounding; the
    function is kept abstract. *)
Variable float_mean : list Q -> Q.

(** [np.std], a square root; it only fills the metadata. *)
Variable np_std : list Q -> Q.

Variable self : EventDetector.

(** [EventDetector._label_to_event_type] *)
Definition _label_to_event_type (category label : string) : string :=
  let generic := replace_char " "%char "_"%char (lower label) in
  match dict_get EVENT_CATEGORIES category with
  | Some category_map =>
      match dict_get category_map label with
      | Some t => t
      | None => generic
      end
  | None => generic
  end.

(** [EventDetector._create_event] *)
Definition _create_event (category label : string) (start_frame end_frame : Z)
    (confidences : list Q) : result DetectedEvent :=
  let event_type := _label_to_event_type category label in
  let mean := float_mean confidences in
  peak <- np_max confidences ;;
  let std := np_std confidences in
  low <- np_min confidences ;;
  Ok (mkDetectedEvent category event_type label start_frame end_frame
        (end_frame - start_frame + 1)%Z mean peak (mkEventMetadata std low)).

Definition is_none_label (label : string) : bool :=
  existsb (String.eqb label) ["None"; "none"; "NONE"].

(** [i - current_start] needs a number. *)
Definition started (s : option nat) : result nat :=
  match s with Some n => Ok n | None => Raise "TypeError" end.

Section Loop.

Variable category : string.
Variable confidences : list Q.
Variable frame_indices : list Z.

(** Closing the current event at iteration [i] (or after the loop,
    with [i = n]): the event runs to [frame_indices[i - 1]]. *)
Definition close_event (i : nat) (cl : string) (st : loop_state)
  : result DetectedEvent :=
  start <- started (current_start st) ;;
  sf <- py_index frame_indices (Z.of_nat start) ;;
  ef <- py_index frame_indices (Z.of_nat i - 1)%Z ;;
  _create_event category cl sf ef (current_confidences st).

(** One iteration of the [for i in range(n)] loop. *)
Definition extract_step (i : nat) (label : string) (st : loop_state)
  : result loop_state :=
  conf <- py_index confidences (Z.of_nat i) ;;
  frame <- py_index frame_indices (Z.of_nat i) ;;
  if is_none_label label || Qlt_bool conf (confidence_threshold self) then
    match current_label st with
    | Some cl =>
        start <- started (current_start st) ;;
        if (Z.of_nat i - Z.of_nat start <=? merge_gap self)%Z
        then Ok st
        else
          ev <- close_event i cl st ;;
          Ok (mkLoopState None (current_start st) [] (events st ++ [ev]))
    | None => Ok st
    end
  else
    match current_label st with
    | None => Ok (mkLoopState (Some label) (Some i) [conf] (events st))
    | Some cl =>
        if String.eqb label cl
        then Ok (mkLoopState (Some cl) (current_start st)
                   (current_confidences st ++ [conf]) (events st))
        else
          ev <- close_event i cl st ;;
          Ok (mkLoopState (Some label) (Some i) [conf] (events st ++ [ev]))
    end.

Fixpoint extract_loop (i : nat) (labels : list string) (st : loop_state)
  : result loop_state :=
  match labels with
  | [] => Ok st
  | label :: rest =>
      st' <- extract_step i label st ;;
      extract_loop (S i) rest st'
  end.

End Loop.

(** [EventDetector._extract_events] *)
Definition _extract_events (category : string) (labels : list string)
    (confidences : list Q) (frame_indices : list Z)
  : result (list DetectedEvent) :=
  let n := List.length labels in
  if (n =? 0)%nat then Ok []
  else
    st <- extract_loop category confidences frame_indices 0 labels
            (mkLoopState None None [] []) ;;
    evs <-
      match current_label st with
      | Some cl =>
          ev <- close_event category frame_indices n cl st ;;
          Ok (events st ++ [ev])
      | None => Ok (events st)
      end ;;
    Ok (filter (fun e => (min_event_duration self <=? duration_frames e)%Z) evs).

End EventDetector.

(** *** The mean in binary64

    What [float(np.mean(confidences))] computes on doubles, with Rocq's
    primitive binary64 floats: numpy adds the elements of a short array
    (up to eight) in order and divides the sum by their number.  A
    rational is read as the double nearest to it (exactly, when it is a
    double whose numerator and denominator are below 2^53 and 2^63), and
    the result is the rational the computed double stands for. *)





(** ** Hysteresis thresholding (data_handling.py) *)

Module HysteresisThreshold.

Record t : Type := mk {
  high_threshold : option Q;
  low_threshold : option Q;
  quantile_high : Q;
  quantile_low : Q
}.

(** One iteration of the loop of [apply]: the new [current_state]. *)
Definition step (low_thresh high_thresh : Q) (current_state : bool) (x : Q)
  : bool :=
  if current_state then
    if Qlt_bool x low_thresh then false else current_state
  else
    if Qlt_bool high_thresh x then true else current_state.

(** The loop of [apply]: the states written to [state[i]]. *)
Fixpoint run (low_thresh high_thresh : Q) (current_state : bool)
    (sig : list Q) : list bool :=
  match sig with
  | [] => []
  | x :: rest =>
      let current_state := step low_thresh high_thresh current_state x in
      current_state :: run low_thresh high_thresh current_state rest
  end.

Section Apply.

(** [np.quantile(sig, q)] *)
Variable np_quantile : list Q -> Q -> result Q.

(** [HysteresisThreshold.apply]: the state mask and the two thresholds
    (high, low). *)
Definition apply (self : t) (sig : list Q) : result (list bool * (Q * Q)) :=
  high_thresh <-
    match high_threshold self with
    | None => np_quantile sig (quantile_high self)
    | Some h => Ok h
    end ;;
  low_thresh <-
    match low_threshold self with
    | None => np_quantile sig (quantile_low self)
    | Some l => Ok l
    end ;;
  Ok (run low_thresh high_thresh false sig, (high_thresh, low_thresh)).

End Apply.

End HysteresisThreshold.

(** ** Filters with a minimum length (data_handling.py)

    A signal is a one-dimensional array; [len(data)] is its number of
    samples. *)

(** [len(data) < k] for an integer [k]. *)
Definition len_lt {A : Type} (data : list A) (k : Z) : bool :=
  (Z.of_nat (List.length data) <? k)%Z.


(** [data[lo:hi]] for [0 <= lo]. *)
Definition slice {A : Type} (l : list A) (lo hi : nat) : list A :=
  firstn (hi - lo) (skipn lo l).

Section Filters.

(** [scipy.signal.filtfilt(b, a, data, axis=0)] *)
Variable filtfilt : list Q -> list Q -> list Q -> result (list Q).

(** [scipy.signal.savgol_filter(data, window_length, polyorder, axis=0)] *)
Variable savgol_filter : list Q -> Z -> Z -> result (list Q).





(** [np.convolve(data, kernel, mode='same')] for [len(kernel) <= len(data)]:
    the centre of the full convolution. *)
Definition full_convolve_at (data kernel : list Q) (k : nat) : Q :=
  Qsum (map (fun j =>
               if (j <=? k)%nat
               then nth j data 0 * nth (k - j) kernel 0
               else 0)
            (seq 0 (List.length data))).

Definition np_convolve_same (data kernel : list Q) : list Q :=
  let m := List.length kernel in
  map (fun i => full_convolve_at data kernel (i + (m - 1) / 2))
      (seq 0 (List.length data)).

(** [MovingAverageFilter.apply] on a one-dimensional signal;
    [np.ones(window)] raises for a negative window and [np.convolve] for
    an empty kernel. *)
Definition MovingAverageFilter_apply (window : Z) (data : list Q)
  : result (list Q) :=
  if len_lt data window then Ok data
  else if (window <=? 0)%Z then Raise "ValueError"
  else
    let kernel := repeat (1 / inject_Z window) (Z.to_nat window) in
    Ok (np_convolve_same data kernel).












End Filters.

(** ** Biomarker calculator (BIOMARKERS section of protocol_system.py) *)

(** The fields of a [BiomarkerCalculator]; [fs] is not zero (the
    constructor computes [1.0 / fs]). *)
Record BiomarkerCalculator : Type := mkBiomarkerCalculator {
  fs : Q;
  movement_threshold : Q;
  min_movement_duration : Q
}.

Definition _dt (self : BiomarkerCalculator) : Q := 1 / fs self.

(** [int(x)]: truncation towards zero. *)
Definition py_int (x : Q) : Z := Z.quot (Qnum x) (Zpos (Qden x)).

(** [1e-10] and [1e-6] *)
Definition eps10 : Q := 1 # 10000000000.
Definition eps6 : Q := 1 # 1000000.

(** [a[-k:]] for [k >= 1]. *)
Definition last_n {A : Type} (l : list A) (k : nat) : list A :=
  skipn (List.length l - k) l.

(** The index of the first maximum ([np.argmax]); 0 on an empty list is
    never used. *)
Fixpoint argmax_from (l : list Q) (i best_i : nat) (best : Q) : nat :=
  match l with
  | [] => best_i
  | x :: rest =>
      if Qlt_bool best x then argmax_from rest (S i) i x
      else argmax_from rest (S i) best_i best
  end.

Definition np_argmax (l : list Q) : nat :=
  match l with
  | [] => O
  | x :: rest => argmax_from rest 1 0 x
  end.

(** The elements of [l] at the positions where [mask] holds ([l[mask]]). *)
Definition select {A : Type} (mask : list bool) (l : list A) : list A :=
  map snd (filter fst (combine mask l)).

(** The positions where [mask] holds ([np.where(mask)[0]]). *)
Definition np_where (mask : list bool) : list nat :=
  select mask (seq 0 (List.length mask)).

Definition count_true (mask : list bool) : nat := List.length (filter (fun x => x) mask).

(** The late-over-early ratio shared by [compute_amplitude_decrement] and
    [compute_velocity_reduction]. *)
Definition late_early_ratio (values : list Q) (early_fraction late_fraction : Q)
  : pyfloat :=
  if len_lt values 3 then NaN
  else
    let n := inject_Z (Z.of_nat (List.length values)) in
    let early_n := Z.max 1 (py_int (n * early_fraction)) in
    let late_n := Z.max 1 (py_int (n * late_fraction)) in
    let early_mean := np_mean (firstn (Z.to_nat early_n) values) in
    let late_mean := np_mean (last_n values (Z.to_nat late_n)) in
    if Qlt_bool early_mean eps10 then NaN
    else Num (late_mean / early_mean).

(** [BiomarkerCalculator.compute_amplitude_decrement] *)
Definition compute_amplitude_decrement (amplitudes : list Q)
    (early_fraction late_fraction : Q) : pyfloat :=
  late_early_ratio amplitudes early_fraction late_fraction.

(** [BiomarkerCalculator.compute_velocity_reduction] *)
Definition compute_velocity_reduction (peak_velocities : list Q)
    (early_fraction late_fraction : Q) : pyfloat :=
  late_early_ratio peak_velocities early_fraction late_fraction.

(** [BiomarkerCalculator.compute_hesitation_index] *)
Definition compute_hesitation_index (self : BiomarkerCalculator)
    (velocity : list Q) (threshold_fraction : Q) : pyfloat :=
  if len_lt velocity 2 then NaN
  else
    let speed := map Qabs velocity in
    let max_vel := match np_max speed with Ok m => m | Raise _ => 0 end in
    let threshold := max_vel * threshold_fraction in
    let above_threshold := np_where (map (fun s => Qlt_bool threshold s) speed) in
    match above_threshold with
    | [] => Num (inject_Z (Z.of_nat (List.length velocity)) * _dt self)
    | first :: _ => Num (inject_Z (Z.of_nat first) * _dt self)
    end.

(** [np.diff] of the movement mask read as 0/1. *)
Fixpoint mask_diff (m : list bool) : list Z :=
  match m with
  | x :: ((y :: _) as rest) =>
      ((if y then 1 else 0) - (if x then 1 else 0))%Z :: mask_diff rest
  | _ => []
  end.

(** The loop of [detect_movement_blocks] over [range(n_segments - 1)]. *)
Fixpoint pause_intervals (dt : Q) (min_samples : Z)
    (movement_starts movement_ends : list nat) (i count : nat) : list Q :=
  match count with
  | O => []
  | S count' =>
      let gap := (Z.of_nat (nth (S i) movement_starts O)
                  - Z.of_nat (nth i movement_ends O))%Z in
      let rest :=
        pause_intervals dt min_samples movement_starts movement_ends (S i) count' in
      if (min_samples <=? gap)%Z then (inject_Z gap * dt) :: rest else rest
  end.

(** [BiomarkerCalculator.detect_movement_blocks]: the number of blocks and
    the pauses between movements. *)
Definition detect_movement_blocks (self : BiomarkerCalculator)
    (velocity : list Q) (min_pause_duration : Q) : nat * list Q :=
  if len_lt velocity 2 then (O, [])
  else
    let is_moving :=
      map (fun v => Qlt_bool (movement_threshold self) (Qabs v)) velocity in
    let transitions := mask_diff is_moving in
    let movement_starts :=
      map S (np_where (map (fun d => (d =? 1)%Z) transitions)) in
    let movement_ends :=
      map S (np_where (map (fun d => (d =? -1)%Z) transitions)) in
    match movement_starts, movement_ends with
    | [], _ => (O, [])
    | _, [] => (O, [])
    | s0 :: _, e0 :: ends_tail =>
        let movement_ends :=
          if (e0 <? s0)%nat then ends_tail else movement_ends in
        let n_segments :=
          Nat.min (List.length movement_starts) (List.length movement_ends) in
        let min_samples := py_int (min_pause_duration * fs self) in
        let intervals :=
          pause_intervals (_dt self) min_samples movement_starts movement_ends
            0 (n_segments - 1) in
        (List.length intervals, intervals)
    end.

Section NumericalLibraries.

(** [np.polyfit(x, y, 1)[0]], the least-squares slope. *)
Variable polyfit_slope : list Q -> list Q -> result Q.

(** [np.std] *)
Variable np_std : list Q -> Q.

(** [scipy.signal.welch(x, fs=fs, nperseg=nperseg)]: frequencies and
    power spectral density. *)
Variable signal_welch : list Q -> Q -> Z -> result (list Q * list Q).

(** [scipy.signal.coherence(x, y, fs=fs, nperseg=nperseg)] *)
Variable signal_coherence :
  list Q -> list Q -> Q -> Z -> result (list Q * list Q).

(** [scipy.signal.correlate(x, y, mode='full')] *)
Variable signal_correlate : list Q -> list Q -> list Q.

(** [signal.butter(2, [low, high], btype='band')] followed by
    [signal.filtfilt(b, a, x)] *)
Variable bandpass_filtfilt : Q -> Q -> list Q -> result (list Q).

(** [np.abs(signal.hilbert(x))] *)
Variable hilbert_envelope : list Q -> list Q.

Variable self : BiomarkerCalculator.

(** [BiomarkerCalculator.compute_performance_degradation] *)
Definition compute_performance_degradation (metric_values : list Q)
    (timestamps : option (list Q)) : result pyfloat :=
  if len_lt metric_values 3 then Ok NaN
  else
    let timestamps :=
      match timestamps with
      | Some ts => ts
      | None => map inject_Z (np_arange (List.length metric_values))
      end in
    t0 <- py_index timestamps 0 ;;
    tl <- py_index timestamps (-1) ;;
    let t_norm := map (fun t => (t - t0) / (tl - t0 + eps10)) timestamps in
    slope <- polyfit_slope t_norm metric_values ;;
    v0 <- py_index metric_values 0 ;;
    let initial_value := if Qeq_bool v0 0 then 1 else v0 in
    Ok (Num (slope / initial_value)).

(** [BiomarkerCalculator.compute_consistency_decline]; [window_size] is a
    count. *)
Definition compute_consistency_decline (metric_values : list Q)
    (window_size : nat) : result pyfloat :=
  if len_lt metric_values (Z.of_nat window_size * 2) then Ok NaN
  else
    let n_windows := (List.length metric_values - window_size + 1)%nat in
    let local_cv :=
      map (fun i =>
             let window := slice metric_values i (i + window_size) in
             match window with
             | [] => 0
             | _ =>
                 let mean_val := np_mean window in
                 if Qlt_bool eps10 mean_val then np_std window / mean_val
                 else 0
             end)
          (seq 0 n_windows) in
    slope <- polyfit_slope (map inject_Z (np_arange n_windows)) local_cv ;;
    Ok (Num slope).

(** [valid_correlation] of [compute_coordination_lag]: [None] is the
    [-inf] written outside the allowed lags. *)
Definition opt_lt (x y : option Q) : bool :=
  match x, y with
  | None, Some _ => true
  | Some p, Some q => Qlt_bool p q
  | _, None => false
  end.

Fixpoint argmax_opt_from (l : list (option Q)) (i best_i : nat)
    (best : option Q) : nat :=
  match l with
  | [] => best_i
  | x :: rest =>
      if opt_lt best x then argmax_opt_from rest (S i) i x
      else argmax_opt_from rest (S i) best_i best
  end.

(** [BiomarkerCalculator.compute_coordination_lag] *)
Definition compute_coordination_lag (left_signal right_signal : list Q)
    (max_lag_samples : option Z) : result pyfloat :=
  if len_lt left_signal 10 || len_lt right_signal 10 then Ok NaN
  else
    let nl := Z.of_nat (List.length left_signal) in
    let nr := Z.of_nat (List.length right_signal) in
    let max_lag_samples :=
      match max_lag_samples with
      | Some m => m
      | None => Z.min (nl / 4) (py_int ((1#2) * fs self))
      end in
    let correlation := signal_correlate right_signal left_signal in
    let lags :=
      map (fun k => (Z.of_nat k - (nl - 1))%Z)
          (seq 0 (Z.to_nat (nr + nl - 1))) in
    let valid_correlation :=
      map (fun cl =>
             if (Z.abs (snd cl) <=? max_lag_samples)%Z
             then Some (fst cl) else None)
          (combine correlation lags) in
    let peak_idx :=
      match valid_correlation with
      | [] => O
      | x :: rest => argmax_opt_from rest 1 0 x
      end in
    lag_samples <- py_index lags (Z.of_nat peak_idx) ;;
    Ok (Num (inject_Z lag_samples * _dt self)).

(** [(f >= freq_band[0]) & (f <= freq_band[1])] *)
Definition band_mask (f : list Q) (lo hi : Q) : list bool :=
  map (fun x => Qle_bool lo x && Qle_bool x hi) f.

(** [BiomarkerCalculator.compute_phase_coherence] *)
Definition compute_phase_coherence (left_signal right_signal : list Q)
    (freq_band : Q * Q) : result pyfloat :=
  if len_lt left_signal 10 || len_lt right_signal 10 then Ok NaN
  else
    let min_len :=
      Nat.min (List.length left_signal) (List.length right_signal) in
    let left_signal := firstn min_len left_signal in
    let right_signal := firstn min_len right_signal in
    fc <- signal_coherence left_signal right_signal (fs self)
            (Z.min 256 (Z.of_nat min_len / 2)) ;;
    let mask := band_mask (fst fc) (fst freq_band) (snd freq_band) in
    if (count_true mask =? 0)%nat then Ok NaN
    else Ok (Num (np_mean (select mask (snd fc)))).

(** [BiomarkerCalculator.compute_q_factor] *)
Definition compute_q_factor (signal_data : list Q) (freq_band : Q * Q)
  : result pyfloat :=
  if len_lt signal_data 10 then Ok NaN
  else
    fp <- signal_welch signal_data (fs self)
            (Z.min 256 (Z.of_nat (List.length signal_data) / 2)) ;;
    let mask := band_mask (fst fp) (fst freq_band) (snd freq_band) in
    if (count_true mask <? 3)%nat then Ok NaN
    else
      let band_f := select mask (fst fp) in
      let band_psd := select mask (snd fp) in
      let peak_idx := np_argmax band_psd in
      peak_freq <- py_index band_f (Z.of_nat peak_idx) ;;
      peak_power <- py_index band_psd (Z.of_nat peak_idx) ;;
      let half_power := peak_power / 2 in
      let above_half := map (fun p => Qle_bool half_power p) band_psd in
      if (count_true above_half <? 2)%nat then Ok NaN
      else
        let above_indices := np_where above_half in
        hi_i <- py_index above_indices (-1) ;;
        lo_i <- py_index above_indices 0 ;;
        hi_f <- py_index band_f (Z.of_nat hi_i) ;;
        lo_f <- py_index band_f (Z.of_nat lo_i) ;;
        let bandwidth := hi_f - lo_f in
        if Qlt_bool bandwidth eps6 then Ok NaN
        else Ok (Num (peak_freq / bandwidth)).

(** The window loop shared by [compute_tremor_stability] and
    [compute_frequency_drift]: the dominant frequency of each window that
    has a bin in the band, with the window's start. *)
Fixpoint dominant_frequencies (signal_data : list Q) (window_samples : nat)
    (freq_band : Q * Q) (i count : nat) : result (list (nat * Q)) :=
  match count with
  | O => Ok []
  | S count' =>
      let start := (i * window_samples)%nat in
      let window := slice signal_data start (start + window_samples) in
      fp <- signal_welch window (fs self)
              (Z.min 64 (Z.of_nat (List.length window) / 2)) ;;
      let mask := band_mask (fst fp) (fst freq_band) (snd freq_band) in
      rest <- dominant_frequencies signal_data window_samples freq_band
                (S i) count' ;;
      if (0 <? count_true mask)%nat then
        let band_f := select mask (fst fp) in
        let band_psd := select mask (snd fp) in
        f0 <- py_index band_f (Z.of_nat (np_argmax band_psd)) ;;
        Ok ((start, f0) :: rest)
      else Ok rest
  end.

(** [BiomarkerCalculator.compute_tremor_stability]; [len // 0] raises. *)
Definition compute_tremor_stability (signal_data : list Q)
    (window_duration : Q) (freq_band : Q * Q) : result pyfloat :=
  let window_samples := py_int (window_duration * fs self) in
  if len_lt signal_data (window_samples * 2) then Ok NaN
  else if (window_samples =? 0)%Z then Raise "ZeroDivisionError"
  else
    let n_windows :=
      Z.to_nat (Z.of_nat (List.length signal_data) / window_samples) in
    doms <- dominant_frequencies signal_data (Z.to_nat window_samples)
              freq_band 0 n_windows ;;
    let dominant_freqs := map snd doms in
    if (List.length dominant_freqs <? 2)%nat then Ok NaN
    else
      let cv := np_std dominant_freqs / (np_mean dominant_freqs + eps10) in
      Ok (Num (Qmax' 0 (Qmin' 1 (1 - cv)))).

(** [BiomarkerCalculator.compute_amplitude_variability] *)
Definition compute_amplitude_variability (signal_data : list Q)
    (freq_band : Q * Q) : pyfloat :=
  if len_lt signal_data 10 then NaN
  else
    let nyq := fs self / 2 in
    let low := fst freq_band / nyq in
    let high := Qmin' (99#100) (snd freq_band / nyq) in
    if Qle_bool high low then NaN
    else
      match bandpass_filtfilt low high signal_data with
      | Raise _ => NaN
      | Ok filtered =>
          let envelope := hilbert_envelope filtered in
          let mean_amp := np_mean envelope in
          if Qlt_bool mean_amp eps10 then NaN
          else Num (np_std envelope / mean_amp)
      end.

(** [BiomarkerCalculator.compute_frequency_drift] *)
Definition compute_frequency_drift (signal_data : list Q)
    (window_duration : Q) (freq_band : Q * Q) : result pyfloat :=
  let window_samples := py_int (window_duration * fs self) in
  if len_lt signal_data (window_samples * 3) then Ok NaN
  else if (window_samples =? 0)%Z then Raise "ZeroDivisionError"
  else
    let n_windows :=
      Z.to_nat (Z.of_nat (List.length signal_data) / window_samples) in
    doms <- dominant_frequencies signal_data (Z.to_nat window_samples)
              freq_band 0 n_windows ;;
    let dominant_freqs := map snd doms in
    let timestamps :=
      map (fun d =>
             let start := inject_Z (Z.of_nat (fst d)) in
             (start + (start + inject_Z window_samples)) / 2 * _dt self)
          doms in
    if (List.length dominant_freqs <? 3)%nat then Ok NaN
    else
      slope <- polyfit_slope timestamps dominant_freqs ;;
      Ok (Num slope).

End NumericalLibraries.

(** ** Smoothness metrics, over the real numbers

    The spectral arc length and the jerk metrics take square roots,
    logarithms and a Fourier transform; they are modelled over [R].  The
    input is a one-dimensional array of numbers. *)

(** A float computed by the smoothness code: a real number or NaN. *)
Inductive pyreal : Type :=
  | RNaN : pyreal
  | RNum : R -> pyreal.

(** What the name [fft] stands for in protocol_system.py. Line 24,
    [from scipy import signal, fft], binds it to the module [scipy.fft];
    line 25, [from scipy.fft import fft, fftfreq], binds it again, to the
    function [scipy.fft.fft], and that is what [compute_sparc] finds. *)
Inductive fft_object : Type :=
  | scipy_fft_module : fft_object
  | scipy_fft_fft : fft_object.

Definition fft : fft_object := scipy_fft_fft.

(** [o.name] for one of the names [rfftfreq] and [rfft]: the module has
    them, the function [scipy.fft.fft] has no such attribute. *)
Definition getattr (o : fft_object) (name : string) : result fft_object :=
  match o with
  | scipy_fft_module => Ok o
  | scipy_fft_fft => Raise "AttributeError"
  end.

Section Smoothness.

Local Open Scope R_scope.

Definition Rsum (l : list R) : R := fold_right Rplus 0 l.

(** [np.fft.rfftfreq(n, d)] *)
Definition rfftfreq (n : nat) (d : R) : list R :=
  map (fun k => INR k / (INR n * d)) (seq 0 (n / 2 + 1)).

(** [np.abs(np.fft.rfft(x))]: the magnitude of the discrete Fourier
    transform at the bins [0 .. n/2]. *)
Definition rfft_abs (x : list R) : list R :=
  let n := List.length x in
  map (fun k =>
         let angle := fun j => 2 * PI * INR j * INR k / INR n in
         let re := Rsum (map (fun j => nth j x 0 * cos (angle j)) (seq 0 n)) in
         let im := Rsum (map (fun j => - (nth j x 0 * sin (angle j))) (seq 0 n)) in
         sqrt (re * re + im * im))
      (seq 0 (n / 2 + 1)).

(** [np.max] of a non-empty array. *)
Definition Rmax_list (l : list R) : R :=
  match l with
  | [] => 0
  | x :: xs => fold_left Rmax xs x
  end.

(** [np.searchsorted(freq, v)] on an ascending array: the first index
    whose element is not below [v]. *)
Fixpoint searchsorted (freq : list R) (v : R) : nat :=
  match freq with
  | [] => O
  | x :: rest => if Rlt_dec x v then S (searchsorted rest v) else O
  end.

(** [np.diff] *)
Fixpoint Rdiff (l : list R) : list R :=
  match l with
  | x :: ((y :: _) as rest) => (y - x) :: Rdiff rest
  | _ => []
  end.

(** [np.sum(np.sqrt(df**2 + ds**2))] *)
Definition arc_length (df ds : list R) : R :=
  Rsum (map (fun p => sqrt (fst p ^ 2 + snd p ^ 2)) (combine df ds)).

Definition Rgt_bool (x y : R) : bool := if Rlt_dec y x then true else false.

Variable self : BiomarkerCalculator.

Definition dt : R := Q2R (_dt self).

(** [BiomarkerCalculator.compute_sparc].  The lookups [fft.rfftfreq] and
    [fft.rfft] come first in their statements; what follows them is the
    code as it would run on a module. *)
Definition compute_sparc (velocity : list R)
    (freq_cutoff amplitude_threshold : R) : result pyreal :=
  if len_lt velocity 4 then Ok RNaN
  else
    let n := List.length velocity in
    _ <- getattr fft "rfftfreq" ;;
    let freq := rfftfreq n dt in
    _ <- getattr fft "rfft" ;;
    let spectrum := rfft_abs velocity in
    let spectrum_norm :=
      map (fun s => s / (Rmax_list spectrum + Q2R eps10)) spectrum in
    let cutoff_idx := searchsorted freq freq_cutoff in
    if (cutoff_idx <? 2)%nat then Ok RNaN
    else
      let valid_mask :=
        map (fun s => Rgt_bool s amplitude_threshold)
            (firstn cutoff_idx spectrum_norm) in
      let valid_mask :=
        if (count_true valid_mask <? 2)%nat
        then repeat true cutoff_idx
        else valid_mask in
      let freq_valid := select valid_mask (firstn cutoff_idx freq) in
      let spectrum_valid :=
        select valid_mask (firstn cutoff_idx spectrum_norm) in
      if (List.length freq_valid <? 2)%nat then Ok RNaN
      else
        let freq_norm := map (fun f => f / freq_cutoff) freq_valid in
        let df := Rdiff freq_norm in
        let ds := Rdiff spectrum_valid in
        let sparc := - arc_length df ds in
        Ok (RNum sparc).

(** [np.gradient(f, h)]: central differences inside, one-sided at the
    two ends; fewer than two samples raise. *)
Definition np_gradient (f : list R) (h : R) : result (list R) :=
  let n := List.length f in
  if (n <? 2)%nat then Raise "ValueError"
  else
    Ok (map (fun i =>
               if (i =? 0)%nat then (nth 1 f 0 - nth 0 f 0) / h
               else if (i =? n - 1)%nat
               then (nth (n - 1) f 0 - nth (n - 2) f 0) / h
               else (nth (i + 1) f 0 - nth (i - 1) f 0) / (2 * h))
            (seq 0 n)).

(** [scipy.integrate.trapezoid(y, dx=dx)] *)
Fixpoint trapezoid (y : list R) (dx : R) : R :=
  match y with
  | p :: ((q :: _) as rest) => (p + q) / 2 * dx + trapezoid rest dx
  | _ => 0
  end.

(** [-np.log(sqrt(T**5 / (L**2 + 1e-10) * integral) + 1e-10)] *)
Definition log_dimensionless_jerk (T L integral : R) : R :=
  - ln (sqrt (T ^ 5 / (L ^ 2 + Q2R eps10) * integral) + Q2R eps10).

Definition Rlt_bool (x y : R) : bool := if Rlt_dec x y then true else false.

(** [BiomarkerCalculator.compute_ldljv] *)
Definition compute_ldljv (velocity : list R)
    (movement_duration path_length : option R) : result pyreal :=
  if len_lt velocity 4 then Ok RNaN
  else
    let movement_duration :=
      match movement_duration with
      | Some d => d
      | None => INR (List.length velocity) * dt
      end in
    let path_length :=
      match path_length with
      | Some p => p
      | None => Rsum (map Rabs velocity) * dt
      end in
    if Rlt_bool movement_duration (Q2R eps6) || Rlt_bool path_length (Q2R eps6)
    then Ok RNaN
    else
      acceleration <- np_gradient velocity dt ;;
      jerk <- np_gradient acceleration dt ;;
      let jerk_squared_integral := trapezoid (map (fun j => j ^ 2) jerk) dt in
      Ok (RNum (log_dimensionless_jerk movement_duration path_length
                  jerk_squared_integral)).

(** [np.ptp]: maximum minus minimum of a non-empty array. *)
Definition np_ptp (l : list R) : R :=
  match l with
  | [] => 0
  | x :: xs => fold_left Rmax xs x - fold_left Rmin xs x
  end.

(** [BiomarkerCalculator.compute_ldlja] *)
Definition compute_ldlja (position : list R)
    (movement_duration amplitude : option R) : result pyreal :=
  if len_lt position 4 then Ok RNaN
  else
    let movement_duration :=
      match movement_duration with
      | Some d => d
      | None => INR (List.length position) * dt
      end in
    let amplitude :=
      match amplitude with
      | Some p => p
      | None => np_ptp position
      end in
    if Rlt_bool movement_duration (Q2R eps6) || Rlt_bool amplitude (Q2R eps6)
    then Ok RNaN
    else
      velocity <- np_gradient position dt ;;
      acceleration <- np_gradient velocity dt ;;
      jerk <- np_gradient acceleration dt ;;
      let jerk_squared_integral := trapezoid (map (fun j => j ^ 2) jerk) dt in
      Ok (RNum (log_dimensionless_jerk movement_duration amplitude
                  jerk_squared_integral)).

(** [np.sqrt(np.mean(x**2))] *)
Definition rms (x : list R) : R :=
  sqrt (Rsum (map (fun v => v ^ 2) x) / INR (List.length x)).

(** [BiomarkerCalculator.compute_normalized_jerk] *)
Definition compute_normalized_jerk (velocity : list R) : result pyreal :=
  if len_lt velocity 4 then Ok RNaN
  else
    acceleration <- np_gradient velocity dt ;;
    jerk <- np_gradient acceleration dt ;;
    let rms_jerk := rms jerk in
    let rms_velocity := rms velocity in
    if Rlt_bool rms_velocity (Q2R eps10) then Ok RNaN
    else Ok (RNum (rms_jerk / rms_velocity)).

End Smoothness.

(** ** Further functions of the clinical scoring *)

(** [ClinicalScoringEngine.get_severity_color] *)
Definition get_severity_color (severity : SeverityLevel) : string :=
  match severity with
  | NORMAL => "#2ECC71"
  | MILD => "#F1C40F"
  | MODERATE => "#E67E22"
  | SEVERE => "#E74C3C"
  end.

(** [ClinicalScoringEngine.get_score_color] *)
Definition get_score_color (score : pyfloat) : string :=
  if py_ge score 85 then "#2ECC71"
  else if py_ge score 65 then "#F1C40F"
  else if py_ge score 40 then "#E67E22"
  else "#E74C3C".

(** [ClinicalInterpreter._score_to_severity_text] *)
Definition _score_to_severity_text (score : pyfloat) : string :=
  if py_ge score 85 then "normal"
  else if py_ge score 65 then "mildly impaired"
  else if py_ge score 40 then "moderately impaired"
  else "severely impaired".

(** [domain_scores.get(domain, 100) < 65] *)
Definition domain_below_65 (domain_scores : list (string * Q)) (domain : string)
  : bool :=
  Qlt_bool (match dict_get domain_scores domain with
            | Some s => s
            | None => 100
            end) 65.

(** [ClinicalInterpreter.generate_recommendations] *)
Definition generate_recommendations (domain_scores : list (string * Q))
    (overall_severity : SeverityLevel) : list string :=
  let recommendations :=
    match overall_severity with
    | SEVERE =>
        [ "Urgent neurological consultation recommended";
          "Consider comprehensive movement disorder evaluation" ]
    | MODERATE =>
        [ "Neurological consultation advised within 2-4 weeks";
          "Follow-up assessment recommended to monitor progression" ]
    | MILD =>
        [ "Continue monitoring with periodic reassessment";
          "Consider referral if symptoms progress" ]
    | NORMAL => []
    end in
  let recommendations :=
    if domain_below_65 domain_scores "tremor"
    then recommendations ++
         [ "Consider tremor medication review if applicable";
           "Assess functional impact of tremor on daily activities" ]
    else recommendations in
  let recommendations :=
    if domain_below_65 domain_scores "bradykinesia"
    then recommendations ++
         [ "Physical therapy evaluation for movement optimization";
           "Consider occupational therapy for adaptive strategies" ]
    else recommendations in
  let recommendations :=
    if domain_below_65 domain_scores "fatigue"
    then recommendations ++
         [ "Evaluate sleep quality and medication timing";
           "Consider energy conservation strategies" ]
    else recommendations in
  let recommendations :=
    if domain_below_65 domain_scores "smoothness"
    then recommendations ++ [ "Movement quality training may be beneficial" ]
    else recommendations in
  let recommendations :=
    if domain_below_65 domain_scores "asymmetry"
    then recommendations ++
         [ "Lateralized findings warrant further investigation" ]
    else recommendations in
  match recommendations with
  | [] => [ "Continue standard care and monitoring" ]
  | _ => recommendations
  end.

(** ** Further functions of the event detector *)

(** Strictly increasing frame indices, as [np.arange(n)] gives them. *)
Definition strictly_ascending (l : list Z) : Prop :=
  forall i j x y, (i < j)%nat ->
    nth_error l i = Some x -> nth_error l j = Some y -> (x < y)%Z.

(** One event ends before the next one starts. *)
Definition ends_before (e1 e2 : DetectedEvent) : Prop :=
  (end_frame e1 < start_frame e2)%Z.

(** [type_counts[k] = type_counts.get(k, 0) + 1] on a dict in insertion
    order. *)
Fixpoint dict_increment (d : list (string * nat)) (k : string)
  : list (string * nat) :=
  match d with
  | [] => [(k, 1%nat)]
  | (k', n) :: d' =>
      if String.eqb k k' then (k', S n) :: d'
      else (k', n) :: dict_increment d' k
  end.

(** The entry of one category in the result of [get_event_summary]; the
    keys [avg_duration_seconds] and [type_counts] are only set for a
    category that has events. *)
Record CategorySummary : Type := mkCategorySummary {
  summary_count : nat;
  total_duration_frames : Z;
  total_duration_seconds : Q;
  avg_duration_frames : Q;
  avg_duration_seconds : option Q;
  avg_confidence : Q;
  type_counts : option (list (string * nat))
}.

Definition Zsum (l : list Z) : Z := fold_right Z.add 0%Z l.

(** The body of the loop of [EventDetector.get_event_summary] for one
    category. *)
Definition category_summary (event_list : list DetectedEvent)
  : CategorySummary :=
  match event_list with
  | [] => mkCategorySummary 0 0 0 0 None 0 None
  | _ =>
      let durations := map duration_frames event_list in
      let confidences := map confidence event_list in
      let type_counts :=
        fold_left (fun tc e => dict_increment tc (event_type e)) event_list [] in
      mkCategorySummary
        (List.length event_list)
        (Zsum durations)
        (inject_Z (Zsum durations) / 30)
        (np_mean (map inject_Z durations))
        (Some (np_mean (map inject_Z durations) / 30))
        (np_mean confidences)
        (Some type_counts)
  end.

(** [EventDetector.get_event_summary] *)
Definition get_event_summary (events : list (string * list DetectedEvent))
  : list (string * CategorySummary) :=
  map (fun ce => (fst ce, category_summary (snd ce))) events.

(** No space and no upper-case ASCII letter in a string. *)
Definition plain_ascii (c : ascii) : bool :=
  let n := nat_of_ascii c in
  negb (n =? 32)%nat && negb ((65 <=? n)%nat && (n <=? 90)%nat).

Fixpoint plain_string (s : string) : bool :=
  match s with
  | EmptyString => true
  | String c s' => plain_ascii c && plain_string s'
  end.

(** The index before which every finished event of [_extract_events] has
    ended: the start of the open event, or the current index. *)
Definition end_bound (i : nat) (st : loop_state) : nat :=
  match current_label st, current_start st with
  | Some _, Some s => s
  | _, _ => i
  end.

(** Where an event comes from: its category is the one asked for, its
    label is one of the input labels and no "None", and its type is the
    label's. *)
Definition event_provenance (cat : string) (all_labels : list string)
    (e : DetectedEvent) : Prop :=
  category e = cat /\ is_none_label (label e) = false /\
  In (label e) all_labels /\
  event_type e = _label_to_event_type cat (label e).

(** A second invariant of the loop of [_extract_events]: provenance and
    order of the finished events. *)
Definition order_inv (cat : string) (all_labels : list string)
    (frame_indices : list Z) (i : nat) (st : loop_state) : Prop :=
  Forall (event_provenance cat all_labels) (events st) /\
  StronglySorted ends_before (events st) /\
  (forall e, In e (events st) ->
     exists j, (j < end_bound i st)%nat /\
               nth_error frame_indices j = Some (end_frame e)) /\
  (forall cl, current_label st = Some cl ->
     is_none_label cl = false /\ In cl all_labels /\
     exists s, current_start st = Some s /\ (s < i)%nat).

(** A third invariant of the loop of [_extract_events]: every confidence
    kept is at least the threshold. *)
Definition confidence_inv (threshold : Q) (st : loop_state) : Prop :=
  Forall (fun e => threshold <= confidence_min (metadata e) /\
                   threshold <= peak_confidence e)
         (events st) /\
  Forall (fun c => threshold <= c) (current_confidences st).

(** [type_counts.get(t, 0)] and the number of events of type [t]. *)
Definition count_of (tc : list (string * nat)) (t : string) : nat :=
  match dict_get tc t with Some n => n | None => 0%nat end.

Definition events_of_type (t : string) (event_list : list DetectedEvent) : nat :=
  List.length (filter (fun e => String.eqb (event_type e) t) event_list).

(** ** Adaptive thresholds, change points and segments (data_handling.py) *)

(** [ThresholdConfig] of config.py *)
Record ThresholdConfig : Type := mkThresholdConfig {
  mad_scale : Q;
  mad_multiplier : Q;
  iqr_multiplier : Q;
  zscore_threshold : Q;
  lower_quantile : Q;
  upper_quantile : Q;
  hysteresis_high : Q;
  hysteresis_low : Q;
  cusum_h : Q;
  cusum_k : Q;
  peak_prominence : Q;
  peak_distance : Z;
  peak_width : Z;
  event_min_duration : Z;
  event_merge_gap : Z
}.

(** [ThresholdConfig()] *)
Definition default_ThresholdConfig : ThresholdConfig :=
  mkThresholdConfig (14826 # 10000) 3 (3 # 2) 3 (1 # 100) (99 # 100)
    (7 # 10) (3 # 10) 5 (1 # 2) (1 # 10) 10 3 5 3.

(** [x or default] for an optional float: [None] and [0.0] are falsy. *)
Definition py_or (x : option Q) (default : Q) : Q :=
  match x with
  | Some v => if Qeq_bool v 0 then default else v
  | None => default
  end.

(** [max(0, v)] *)
Definition max0 (v : Q) : Q := if Qlt_bool 0 v then v else 0.

Module AdaptiveThresholder.

(** The loop of [cusum_detect] from index [i] on: [s_high] and [s_low]
    are [s_high[i-1]] and [s_low[i-1]], the result is what is appended to
    [change_points]. *)
Fixpoint cusum_loop (mean k h : Q) (i : nat) (data : list Q)
    (s_high s_low : Q) : list nat :=
  match data with
  | [] => []
  | x :: rest =>
      let s_high := max0 (s_high + x - mean - k) in
      let s_low := max0 (s_low - x + mean - k) in
      if Qlt_bool h s_high || Qlt_bool h s_low
      then i :: cusum_loop mean k h (S i) rest s_high s_low
      else cusum_loop mean k h (S i) rest s_high s_low
  end.

(** The [ThresholdResult] of [cusum_detect]. *)
Record CusumResult : Type := mkCusumResult {
  threshold : Q;
  meta_h : Q;
  meta_k : Q;
  n_changes : nat;
  meta_mean : pyfloat
}.

(** [AdaptiveThresholder.cusum_detect]; the mean of an empty array is
    NaN. *)
Definition cusum_detect (config : ThresholdConfig) (data : list Q)
    (h k : option Q) : list nat * CusumResult :=
  let h := py_or h (cusum_h config) in
  let k := py_or k (cusum_k config) in
  let mean := np_mean data in
  let change_points := cusum_loop mean k h 1 (tl data) 0 0 in
  (change_points,
   mkCusumResult h h k (List.length change_points)
     (match data with [] => NaN | _ => Num mean end)).

(** The loop of [hysteresis_threshold]: the values written to
    [result]. *)
Fixpoint hysteresis_loop (high low : Q) (active : bool) (data_norm : list Q)
  : list bool :=
  match data_norm with
  | [] => []
  | x :: rest =>
      if negb active then
        if Qlt_bool high x
        then true :: hysteresis_loop high low true rest
        else false :: hysteresis_loop high low active rest
      else
        if Qlt_bool x low
        then false :: hysteresis_loop high low false rest
        else true :: hysteresis_loop high low active rest
  end.

(** [AdaptiveThresholder.hysteresis_threshold] *)
Definition hysteresis_threshold (config : ThresholdConfig) (data : list Q)
    (high_threshold low_threshold : option Q) : result (list bool) :=
  let high := py_or high_threshold (hysteresis_high config) in
  let low := py_or low_threshold (hysteresis_low config) in
  lo <- np_min data ;;
  hi <- np_max data ;;
  let data_norm := map (fun x => (x - lo) / (hi - lo + eps10)) data in
  Ok (hysteresis_loop high low false data_norm).

End AdaptiveThresholder.

Module CUSUMDetector.

Record t : Type := mk {
  threshold : Q;
  drift : Q;
  reset_after_detection : bool
}.

(** The loop of [detect_changes] from index [i] on: [cusum_pos] and
    [cusum_neg] are the entries at [i-1]; the result is what is appended to
    [change_points] and the entries of both arrays from [i] on. *)
Fixpoint detect_loop (self : t) (i : nat) (sig_norm : list Q)
    (cusum_pos cusum_neg : Q) : list nat * list (Q * Q) :=
  match sig_norm with
  | [] => ([], [])
  | x :: rest =>
      let p := max0 (cusum_pos + x - drift self) in
      let n := max0 (cusum_neg - x - drift self) in
      let detected :=
        Qlt_bool (threshold self) p || Qlt_bool (threshold self) n in
      let pn := if detected && reset_after_detection self then (0, 0)
                else (p, n) in
      let r := detect_loop self (S i) rest (fst pn) (snd pn) in
      (if detected then i :: fst r else fst r, pn :: snd r)
  end.

Section Detect.

(** [np.std] *)
Variable np_std : list Q -> Q.

(** [CUSUMDetector.detect_changes]: the change indices and the combined
    CUSUM. *)
Definition detect_changes (self : t) (sig : list Q) : list nat * list Q :=
  match sig with
  | [] => ([], [])
  | _ =>
      let mean := np_mean sig in
      let std := np_std sig in
      let sig_norm := map (fun x => (x - mean) / (std + eps10)) sig in
      let r := detect_loop self 1 (tl sig_norm) 0 0 in
      (fst r, map (fun pn => fst pn + snd pn) ((0, 0) :: snd r))
  end.

End Detect.

End CUSUMDetector.

Module DynamicThresholdEngine.

(** The variables of the loop of [_extract_segments]. *)
Record segment_state : Type := mkSegmentState {
  segments : list (Z * Z);
  in_segment : bool;
  start : Z
}.

(** One iteration of the loop. *)
Definition segment_step (i : nat) (state_i : bool) (st : segment_state)
  : segment_state :=
  if state_i && negb (in_segment st) then
    mkSegmentState (segments st) true (Z.of_nat i)
  else if negb state_i && in_segment st then
    mkSegmentState (segments st ++ [(start st, Z.of_nat i - 1)%Z]) false
      (start st)
  else st.

Fixpoint segment_loop (i : nat) (state : list bool) (st : segment_state)
  : segment_state :=
  match state with
  | [] => st
  | state_i :: rest => segment_loop (S i) rest (segment_step i state_i st)
  end.

(** [DynamicThresholdEngine._extract_segments] *)
Definition _extract_segments (state : list bool) : list (Z * Z) :=
  let st := segment_loop 0 state (mkSegmentState [] false 0) in
  if in_segment st
  then segments st ++ [(start st, Z.of_nat (List.length state) - 1)%Z]
  else segments st.

(** Frame [j] lies in one of the segments. *)
Definition covered (segs : list (Z * Z)) (j : Z) : Prop :=
  exists s e, In (s, e) segs /\ (s <= j <= e)%Z.

(** Two segments with at least one frame between them. *)
Definition apart (a b : Z * Z) : Prop := (snd a + 1 < fst b)%Z.

(** The invariant of the loop after the frames of [pre]. *)
Definition segment_inv (pre : list bool) (st : segment_state) : Prop :=
  let n := Z.of_nat (List.length pre) in
  (forall j : nat,
     nth j pre false = true <->
     covered (segments st) (Z.of_nat j) \/
     (in_segment st = true /\ (start st <= Z.of_nat j < n)%Z)) /\
  Forall (fun se => (0 <= fst se <= snd se)%Z /\
                    (snd se + 2 <= if in_segment st then start st else n)%Z)
         (segments st) /\
  (in_segment st = true -> (0 <= start st < n)%Z) /\
  StronglySorted apart (segments st).

End DynamicThresholdEngine.

(** ** Recursive smoothing filters (data_handling.py), on a
    one-dimensional array of floats *)

(** The loop of [DoubleExponentialFilter._smooth_1d]: [level] and [trend]
    are the entries at [i-1]. *)
Fixpoint double_exponential_loop (alpha beta : Q) (level trend : Q)
    (data : list Q) : list Q :=
  match data with
  | [] => []
  | x :: rest =>
      let level' := alpha * x + (1 - alpha) * (level + trend) in
      let trend' := beta * (level' - level) + (1 - beta) * trend in
      level' :: double_exponential_loop alpha beta level' trend' rest
  end.

(** [DoubleExponentialFilter._smooth_1d] *)
Definition DoubleExponentialFilter_smooth_1d (alpha beta : Q) (data : list Q)
  : result (list Q) :=
  match data with
  | [] => Raise "IndexError"
  | x0 :: rest =>
      let trend0 := match rest with x1 :: _ => x1 - x0 | [] => 0 end in
      Ok (x0 :: double_exponential_loop alpha beta x0 trend0 rest)
  end.

(** The loop of [KalmanFilter._filter_1d]; the gain is a quotient of
    Python floats, which raises when the divisor is zero. *)
Fixpoint kalman_loop (process_noise measurement_noise : Q) (x_est P : Q)
    (data : list Q) : result (list Q) :=
  match data with
  | [] => Ok []
  | x :: rest =>
      let x_pred := x_est in
      let P_pred := P + process_noise in
      if Qeq_bool (P_pred + measurement_noise) 0
      then Raise "ZeroDivisionError"
      else
        let K := P_pred / (P_pred + measurement_noise) in
        let x_est := x_pred + K * (x - x_pred) in
        let P := (1 - K) * P_pred in
        r <- kalman_loop process_noise measurement_noise x_est P rest ;;
        Ok (x_est :: r)
  end.

(** [KalmanFilter._filter_1d] *)
Definition KalmanFilter_filter_1d (process_noise measurement_noise : Q)
    (data : list Q) : result (list Q) :=
  match data with
  | [] => Raise "IndexError"
  | x0 :: rest =>
      r <- kalman_loop process_noise measurement_noise x0 1 rest ;;
      Ok (x0 :: r)
  end.

(** The loop of [ConfidenceWeightedFilter._apply_1d] from index [t] on:
    [prev] is [filtered[t-1]]. *)
Fixpoint confidence_weighted_loop (confidence_threshold prediction_weight : Q)
    (confidence : list Q) (t : nat) (sig : list Q) (prev velocity : Q)
  : result (list Q) :=
  match sig with
  | [] => Ok []
  | x :: rest =>
      let prediction := prev + velocity in
      c <- py_index confidence (Z.of_nat t) ;;
      let measurement_weight :=
        if Qlt_bool c confidence_threshold then 1 - prediction_weight else c in
      let f := measurement_weight * x + (1 - measurement_weight) * prediction in
      let velocity := f - prev in
      r <- confidence_weighted_loop confidence_threshold prediction_weight
             confidence (S t) rest f velocity ;;
      Ok (f :: r)
  end.

(** [ConfidenceWeightedFilter._apply_1d] *)
Definition ConfidenceWeightedFilter_apply_1d
    (confidence_threshold prediction_weight : Q) (sig confidence : list Q)
  : result (list Q) :=
  match sig with
  | [] => Ok []
  | x0 :: rest =>
      r <- confidence_weighted_loop confidence_threshold prediction_weight
             confidence 1 rest x0 0 ;;
      Ok (x0 :: r)
  end.

(** The filters above as [BaseFilter] objects, and their [apply] on a
    one-dimensional array. *)
Inductive BaseFilter : Type :=
  | MovingAverageFilter (window : Z)
  | DoubleExponentialFilter (alpha beta : Q)
  | KalmanFilter (process_noise measurement_noise : Q).

Definition BaseFilter_apply (f : BaseFilter) (data : list Q) : result (list Q) :=
  match f with
  | MovingAverageFilter window => MovingAverageFilter_apply window data
  | DoubleExponentialFilter alpha beta =>
      DoubleExponentialFilter_smooth_1d alpha beta data
  | KalmanFilter process_noise measurement_noise =>
      KalmanFilter_filter_1d process_noise measurement_noise data
  end.

(** [FilterChain.apply] *)
Fixpoint FilterChain_apply (filters : list BaseFilter) (data : list Q)
  : result (list Q) :=
  match filters with
  | [] => Ok data
  | f :: rest =>
      data <- BaseFilter_apply f data ;;
      FilterChain_apply rest data
  end.

(** A Kalman filter whose process noise is not negative and whose
    measurement noise is positive. *)
Definition kalman_with_noise (f : BaseFilter) : Prop :=
  match f with
  | KalmanFilter process_noise measurement_noise =>
      0 <= process_noise /\ 0 < measurement_noise
  | _ => False
  end.

(** [a + b * i] for [i = first, first + 1, ...] *)
Definition ramp (a b : Q) (first count : nat) : list Q :=
  map (fun i => a + b * inject_Z (Z.of_nat i)) (seq first count).

(** Every sample lies between [lo] and [hi]. *)
Definition within (lo hi : Q) (l : list Q) : Prop :=
  Forall (fun x => lo <= x <= hi) l.

(** ** Asymmetry index (BIOMARKERS section of protocol_system.py) *)

(** [np.mean] as a float: the mean of an empty array is NaN. *)
Definition np_mean_float (l : list Q) : pyfloat :=
  match l with
  | [] => NaN
  | _ => Num (np_mean l)
  end.

(** [BiomarkerCalculator.compute_asymmetry_index]; a NaN mean fails the
    comparison and makes the quotient NaN. *)
Definition compute_asymmetry_index (left_values right_values : list Q)
  : pyfloat :=
  let left_mean := np_mean_float left_values in
  let right_mean := np_mean_float right_values in
  match right_mean, left_mean with
  | Num r, Num l =>
      let denominator := r + l in
      if Qlt_bool (Qabs denominator) eps10 then Num 0
      else Num ((r - l) / denominator)
  | _, _ => NaN
  end.

(** ** Predicates used in the statements below *)

(** Non-decreasing frame indices; [np.arange(n)], the default, is one. *)
Definition ascending (l : list Z) : Prop :=
  forall i j x y, (i <= j)%nat ->
    nth_error l i = Some x -> nth_error l j = Some y -> (x <= y)%Z.

(** An event whose frames are ordered, whose duration counts its frames
    and whose confidences are the floating-point mean and the maximum of
    some of the input confidences. *)
Definition good_event (float_mean : list Q -> Q) (confidences : list Q)
    (e : DetectedEvent) : Prop :=
  (start_frame e <= end_frame e)%Z /\
  duration_frames e = (end_frame e - start_frame e + 1)%Z /\
  exists l, l <> [] /\ incl l confidences /\
            confidence e = float_mean l /\ np_max l = Ok (peak_confidence e).

(** The invariant of the loop of [_extract_events] before iteration [i]. *)
Definition loop_inv (float_mean : list Q -> Q) (confidences : list Q)
    (i : nat) (st : loop_state) : Prop :=
  Forall (good_event float_mean confidences) (events st) /\
  (current_label st <> None ->
   exists s, current_start st = Some s /\ (s < i)%nat /\
             current_confidences st <> [] /\
             incl (current_confidences st) confidences).

(** The biomarkers with the value of [k] gone missing (a float NaN). *)
Definition mark_missing (k : string)
    (biomarkers : list (string * option pynumber))
  : list (string * option pynumber) :=
  map (fun kv => if String.eqb (fst kv) k then (fst kv, Some (PyFloat NaN))
                 else kv)
      biomarkers.

(** What a biomarker method returns: a float, or the count and pauses of
    [detect_movement_blocks]. *)
Inductive biomarker_value : Type :=
  | FloatValue : pyfloat -> biomarker_value
  | RealValue : pyreal -> biomarker_value
  | BlocksValue : nat * list Q -> biomarker_value.

Definition is_nan (v : biomarker_value) : bool :=
  match v with
  | FloatValue NaN => true
  | RealValue RNaN => true
  | _ => false
  end.

(** * Properties *)

(** ** Rational arithmetic helpers *)

Lemma Qle_bool_false (x y : Q) : Qle_bool x y = false <-> y < x.
Proof.
  split; intro H.
  - apply Qnot_le_lt. intro C. apply Qle_bool_iff in C. congruence.
  - destruct (Qle_bool x y) eqn:E; [|reflexivity].
    apply Qle_bool_iff in E. exfalso. apply (Qlt_not_le _ _ H E).
Qed.

Lemma Qlt_bool_true (x y : Q) : Qlt_bool x y = true <-> x < y.
Proof.
  unfold Qlt_bool. rewrite negb_true_iff. apply Qle_bool_false.
Qed.

Lemma Qlt_bool_false (x y : Q) : Qlt_bool x y = false <-> y <= x.
Proof.
  unfold Qlt_bool. rewrite negb_false_iff. apply Qle_bool_iff.
Qed.

Ltac qlra := Lqa.lra.
Ltac rlra := Lra.lra.

Ltac qbool :=
  repeat match goal with
  | H : Qle_bool _ _ = true |- _ => apply Qle_bool_iff in H
  | H : Qle_bool _ _ = false |- _ => apply Qle_bool_false in H
  | H : Qlt_bool _ _ = true |- _ => apply Qlt_bool_true in H
  | H : Qlt_bool _ _ = false |- _ => apply Qlt_bool_false in H
  end.

(** ** Clinical scoring *)

(** C3: the overall severity is read off the composite score at the
    boundaries 85, 65 and 40: Normal exactly from 85 up, Mild exactly on
    [65, 85), Moderate exactly on [40, 65), Severe exactly below 40; so 85
    is Normal, 84.999 and 65 are Mild and 64.999 is Moderate. *)
Theorem classify_severity_buckets :
  (forall s : Q, classify_severity (Num s) = NORMAL <-> 85 <= s) /\
  (forall s : Q, classify_severity (Num s) = MILD <-> 65 <= s /\ s < 85) /\
  (forall s : Q, classify_severity (Num s) = MODERATE <-> 40 <= s /\ s < 65) /\
  (forall s : Q, classify_severity (Num s) = SEVERE <-> s < 40) /\
  classify_severity (Num 85) = NORMAL /\
  classify_severity (Num (84999 # 1000)) = MILD /\
  classify_severity (Num 65) = MILD /\
  classify_severity (Num (64999 # 1000)) = MODERATE.
Proof.
  assert (cases : forall (s : Q) (P : Prop),
            (85 <= s -> classify_severity (Num s) = NORMAL -> P) ->
            (65 <= s -> s < 85 -> classify_severity (Num s) = MILD -> P) ->
            (40 <= s -> s < 65 -> classify_severity (Num s) = MODERATE -> P) ->
            (s < 40 -> classify_severity (Num s) = SEVERE -> P) -> P).
  { intros s P H1 H2 H3 H4. unfold classify_severity, py_ge in *.
    destruct (Qle_bool 85 s) eqn:E1; [qbool; auto|].
    destruct (Qle_bool 65 s) eqn:E2; [qbool; auto|].
    destruct (Qle_bool 40 s) eqn:E3; qbool; auto. }
  repeat split; try reflexivity; intros;
    apply (cases s); intros;
    repeat match goal with H : _ /\ _ |- _ => destruct H end;
    try split;
    first [ assumption | congruence | qlra | exfalso; qlra ].
Qed.

Section PercentileScore.

Variable r : ReferenceRange.
Hypothesis worse : higher_is_worse r = true.
Hypothesis ordered : normal_max r < severe_threshold r.

Let interp (v : Q) : Q :=
  100 * (1 - (v - normal_max r) / (severe_threshold r - normal_max r)).

Lemma percentile_cases (v : Q) (P : Q -> Prop) :
  (v <= normal_max r -> P 100) ->
  (severe_threshold r <= v -> P 0) ->
  (normal_max r < v -> v < severe_threshold r -> P (interp v)) ->
  P (get_percentile_score r (Num v)).
Proof.
  intros H1 H2 H3. unfold get_percentile_score. rewrite worse.
  destruct (Qle_bool v (normal_max r)) eqn:E1; [qbool; auto|].
  destruct (Qle_bool (severe_threshold r) v) eqn:E2; qbool; auto.
Qed.

Lemma interp_fraction (v : Q) :
  normal_max r <= v -> v <= severe_threshold r ->
  0 <= (v - normal_max r) / (severe_threshold r - normal_max r) <= 1.
Proof.
  intros H1 H2.
  assert (span : 0 < severe_threshold r - normal_max r) by qlra.
  split.
  - apply Qle_shift_div_l; [exact span | qlra].
  - apply Qle_shift_div_r; [exact span | qlra].
Qed.

Lemma interp_bounds (v : Q) :
  normal_max r <= v -> v <= severe_threshold r -> 0 <= interp v <= 100.
Proof.
  intros H1 H2. destruct (interp_fraction v H1 H2) as [F1 F2].
  unfold interp.
  set (x := (v - normal_max r) / (severe_threshold r - normal_max r)) in *.
  split; qlra.
Qed.

Lemma interp_antitone (v1 v2 : Q) :
  v1 <= v2 -> interp v2 <= interp v1.
Proof.
  intro H. unfold interp.
  assert (span : 0 < severe_threshold r - normal_max r) by qlra.
  assert (F : (v1 - normal_max r) / (severe_threshold r - normal_max r)
              <= (v2 - normal_max r) / (severe_threshold r - normal_max r)).
  { unfold Qdiv. apply Qmult_le_compat_r; [qlra|].
    apply Qlt_le_weak, Qinv_lt_0_compat, span. }
  set (x1 := (v1 - normal_max r) / _) in *.
  set (x2 := (v2 - normal_max r) / _) in *.
  qlra.
Qed.

Lemma percentile_range (v : Q) :
  0 <= get_percentile_score r (Num v) <= 100.
Proof.
  apply percentile_cases; intros; try (split; qlra).
  apply interp_bounds; qlra.
Qed.

Lemma percentile_antitone (v1 v2 : Q) :
  v1 <= v2 ->
  get_percentile_score r (Num v2) <= get_percentile_score r (Num v1).
Proof.
  intro H.
  apply (percentile_cases v1); intros.
  - apply percentile_range.
  - apply (percentile_cases v2); intros; try qlra.
  - apply (percentile_cases v2); intros; try qlra.
    + apply interp_bounds; qlra.
    + apply interp_antitone, H.
Qed.

End PercentileScore.

(** C8: for a reference range where higher is worse and the normal maximum
    lies below the severe threshold, the percentile score never increases
    with the value, stays within 0 and 100, is exactly 100 up to the normal
    maximum and exactly 0 from the severe threshold on. *)
Theorem percentile_score_monotone (r : ReferenceRange) :
  higher_is_worse r = true ->
  normal_max r < severe_threshold r ->
  (forall v1 v2 : Q, v1 <= v2 ->
     get_percentile_score r (Num v2) <= get_percentile_score r (Num v1)) /\
  (forall v : Q, 0 <= get_percentile_score r (Num v) <= 100) /\
  (forall v : Q, v <= normal_max r -> get_percentile_score r (Num v) = 100) /\
  (forall v : Q, severe_threshold r <= v -> get_percentile_score r (Num v) = 0).
Proof.
  intros worse ordered. repeat split.
  - apply percentile_antitone; assumption.
  - apply percentile_range; assumption.
  - apply percentile_range; assumption.
  - intros v H. unfold get_percentile_score. rewrite worse.
    apply Qle_bool_iff in H. rewrite H. reflexivity.
  - intros v H. unfold get_percentile_score. rewrite worse.
    assert (E : Qle_bool v (normal_max r) = false) by (apply Qle_bool_false; qlra).
    rewrite E. apply Qle_bool_iff in H. rewrite H. reflexivity.
Qed.

Lemma percentile_score_monotone_witness :
  let r := rr 0 50 100 200 400 "1/s²" true in
  get_percentile_score r (Num 300) <= get_percentile_score r (Num 120) /\
  get_percentile_score r (Num 20) = 100 /\
  get_percentile_score r (Num 400) = 0.
Proof.
  intro r.
  assert (W : higher_is_worse r = true) by reflexivity.
  assert (O : normal_max r < severe_threshold r) by reflexivity.
  destruct (percentile_score_monotone r W O) as (M & _ & N & S).
  split; [apply M; discriminate | split; [apply N | apply S]]; discriminate.
Defined.

Lemma domain_weight_ge_1 (sb : ScoredBiomarker) : 1 <= domain_weight sb.
Proof.
  unfold domain_weight. destruct (sb_severity sb); simpl; discriminate.
Qed.

Lemma Qsum_ge_1 (l : list Q) :
  l <> [] -> (forall x, In x l -> 1 <= x) -> 1 <= Qsum l.
Proof.
  induction l as [|x l IH]; intros Hne Hall; [congruence|].
  simpl. assert (Hx : 1 <= x) by (apply Hall; left; reflexivity).
  destruct l as [|y l].
  - simpl. qlra.
  - assert (1 <= Qsum (y :: l)).
    { apply IH; [discriminate | intros z Hz; apply Hall; right; exact Hz]. }
    qlra.
Qed.

Lemma combine_map_same {A : Type} (f g : A -> Q) (l : list A) :
  map (fun sw => fst sw * snd sw) (combine (map f l) (map g l))
  = map (fun x => f x * g x) l.
Proof.
  induction l as [|x l IH]; simpl; [reflexivity | rewrite IH; reflexivity].
Qed.

Lemma np_average_weights (A : Type) (f g : A -> Q) (l : list A) :
  l <> [] -> (forall x, 1 <= g x) ->
  np_average (map f l) (map g l)
  = Ok (Qsum (map (fun x => f x * g x) l) / Qsum (map g l)).
Proof.
  intros Hne Hg. unfold np_average.
  assert (S1 : 1 <= Qsum (map g l)).
  { apply Qsum_ge_1.
    - destruct l; [congruence | discriminate].
    - intros x Hx. apply in_map_iff in Hx. destruct Hx as (y & <- & _). apply Hg. }
  destruct (Qeq_bool (Qsum (map g l)) 0) eqn:E.
  - apply Qeq_bool_iff in E. exfalso. qlra.
  - rewrite combine_map_same. reflexivity.
Qed.

(** C2: inside [compute_domain_score] the weight of every scored biomarker
    of the domain is 1 + (3 - severity rank) * 0.5 (rank 0 for Normal up to
    3 for Severe), so a Normal finding weighs 2.5 and a Severe one 1.0, and
    the domain score is the average of the percentile scores under those
    weights. *)
Theorem domain_score_weighting :
  (forall sb, sb_severity sb = NORMAL -> domain_weight sb == 5 # 2) /\
  (forall sb, sb_severity sb = SEVERE -> domain_weight sb == 1) /\
  (forall (scored : list ScoredBiomarker) (domain_biomarkers : list string),
     let relevant :=
       filter (fun sb => existsb (String.eqb (sb_name sb)) domain_biomarkers)
              scored in
     let weight := fun sb =>
       1 + (3 - inject_Z (severity_value (sb_severity sb))) * (1 # 2) in
     relevant <> [] ->
     compute_domain_score scored domain_biomarkers
     = Ok (Qsum (map (fun sb => sb_percentile_score sb * weight sb) relevant)
           / Qsum (map weight relevant))).
Proof.
  split; [|split].
  - intros sb H. unfold domain_weight. rewrite H. reflexivity.
  - intros sb H. unfold domain_weight. rewrite H. reflexivity.
  - intros scored domain_biomarkers relevant weight Hne.
    unfold compute_domain_score. fold relevant.
    destruct relevant as [|sb rest] eqn:E; [congruence|].
    apply (np_average_weights _ sb_percentile_score domain_weight (sb :: rest));
      [discriminate | apply domain_weight_ge_1].
Qed.

Lemma domain_score_weighting_witness :
  let good := mkScoredBiomarker "sparc" (Num (-2)) "" NORMAL 100 "" in
  let bad := mkScoredBiomarker "ldljv" (Num (-10)) "" SEVERE 0 "" in
  exists score,
    compute_domain_score [good; bad] ["sparc"; "ldljv"] = Ok score /\
    score == 250 / (7 # 2).
Proof.
  intros good bad.
  destruct domain_score_weighting as (_ & _ & W).
  specialize (W [good; bad] ["sparc"; "ldljv"]).
  cbv zeta in W. eexists. split.
  - apply W. simpl. discriminate.
  - reflexivity.
Defined.

(** ** Event extraction *)

Lemma py_index_nat {A : Type} (l : list A) (i : nat) (x : A) :
  nth_error l i = Some x -> py_index l (Z.of_nat i) = Ok x.
Proof.
  intro H. unfold py_index.
  assert (E : (Z.of_nat i <? 0)%Z = false) by (apply Z.ltb_ge; lia).
  rewrite E, E, Nat2Z.id, H. reflexivity.
Qed.

Lemma py_index_pred {A : Type} (l : list A) (i : nat) (x : A) :
  (1 <= i)%nat -> nth_error l (i - 1) = Some x ->
  py_index l (Z.of_nat i - 1) = Ok x.
Proof.
  intros Hi H. replace (Z.of_nat i - 1)%Z with (Z.of_nat (i - 1)) by lia.
  apply py_index_nat, H.
Qed.

Lemma nth_error_in_range {A : Type} (l : list A) (i : nat) :
  (i < List.length l)%nat -> exists x, nth_error l i = Some x.
Proof.
  intro H. destruct (nth_error l i) eqn:E; [eauto|].
  apply nth_error_None in E. lia.
Qed.

Lemma nth_error_np_arange (n i : nat) :
  (i < n)%nat -> nth_error (np_arange n) i = Some (Z.of_nat i).
Proof.
  intro H. unfold np_arange. rewrite nth_error_map, nth_error_seq.
  apply Nat.ltb_lt in H. rewrite H. reflexivity.
Qed.

Lemma np_arange_ascending (n : nat) : ascending (np_arange n).
Proof.
  intros i j x y Hij Hi Hj.
  assert (L : forall k z, nth_error (np_arange n) k = Some z -> z = Z.of_nat k).
  { intros k z Hk. unfold np_arange in Hk.
    rewrite nth_error_map, nth_error_seq in Hk.
    destruct (k <? n)%nat; simpl in Hk; congruence. }
  apply L in Hi, Hj. lia.
Qed.

Lemma length_np_arange (n : nat) : List.length (np_arange n) = n.
Proof. unfold np_arange. rewrite length_map, length_seq. reflexivity. Qed.

(** *** Mean and maximum of a non-empty list *)

Lemma fold_Qmax_bounds (xs : list Q) (x : Q) :
  In (fold_left Qmax' xs x) (x :: xs) /\
  forall y, In y (x :: xs) -> y <= fold_left Qmax' xs x.
Proof.
  revert x. induction xs as [|z xs IH]; intro x; simpl.
  - split; [left; reflexivity|]. intros y [<-|[]]. apply Qle_refl.
  - destruct (IH (Qmax' x z)) as [I B]. split.
    + destruct I as [I|I]; [|right; right; exact I].
      rewrite <- I. unfold Qmax'.
      destruct (Qle_bool x z); [right; left | left]; reflexivity.
    + assert (Hx : x <= Qmax' x z /\ z <= Qmax' x z).
      { unfold Qmax'. destruct (Qle_bool x z) eqn:E; qbool; split; qlra. }
      intros y [<-|[<-|Hy]].
      * eapply Qle_trans; [apply Hx | apply B; left; reflexivity].
      * eapply Qle_trans; [apply Hx | apply B; left; reflexivity].
      * apply B. right. exact Hy.
Qed.

Lemma np_max_spec (l : list Q) (m : Q) :
  np_max l = Ok m -> In m l /\ forall y, In y l -> y <= m.
Proof.
  destruct l as [|x xs]; simpl; [discriminate|].
  intro H. injection H as <-. apply fold_Qmax_bounds.
Qed.

Lemma np_max_ok (l : list Q) : l <> [] -> exists m, np_max l = Ok m.
Proof. destruct l; [congruence | simpl; eauto]. Qed.

Lemma np_min_ok (l : list Q) : l <> [] -> exists m, np_min l = Ok m.
Proof. destruct l; [congruence | simpl; eauto]. Qed.

Lemma inject_Z_S (n : nat) :
  inject_Z (Z.of_nat (S n)) == inject_Z (Z.of_nat n) + 1.
Proof. rewrite Nat2Z.inj_succ, <- Z.add_1_r, inject_Z_plus. reflexivity. Qed.

Lemma inject_Z_length_pos {A : Type} (l : list A) :
  l <> [] -> 0 < inject_Z (Z.of_nat (List.length l)).
Proof.
  destruct l; [congruence|]. intros _.
  replace 0 with (inject_Z 0) by reflexivity. rewrite <- Zlt_Qlt.
  simpl List.length. lia.
Qed.


Lemma Qsum_lower (l : list Q) (m : Q) :
  (forall y, In y l -> m <= y) ->
  m * inject_Z (Z.of_nat (List.length l)) <= Qsum l.
Proof.
  induction l as [|x l IH]; intro H.
  - change (Qsum []) with 0.
    change (inject_Z (Z.of_nat (List.length (@nil Q)))) with 0. qlra.
  - change (Qsum (x :: l)) with (x + Qsum l).
    change (List.length (x :: l)) with (S (List.length l)).
    rewrite inject_Z_S.
    assert (m <= x) by (apply H; left; reflexivity).
    assert (m * inject_Z (Z.of_nat (List.length l)) <= Qsum l)
      by (apply IH; intros; apply H; right; assumption).
    qlra.
Qed.


Lemma np_mean_ge (l : list Q) (m : Q) :
  l <> [] -> (forall y, In y l -> m <= y) -> m <= np_mean l.
Proof.
  intros Hne H. unfold np_mean.
  apply Qle_shift_div_l; [apply inject_Z_length_pos, Hne | apply Qsum_lower, H].
Qed.

(** *** The loop invariant of [_extract_events] *)

Section ExtractEvents.

Variable float_mean : list Q -> Q.
Variable np_std : list Q -> Q.
Variable self : EventDetector.
Variable category : string.
Variable confidences : list Q.
Variable frame_indices : list Z.

Hypothesis frames_ascending : ascending frame_indices.
Hypothesis same_length : List.length frame_indices = List.length confidences.

Let N := List.length confidences.

Lemma close_event_good (i s : nat) (cl : string) (st : loop_state) :
  current_start st = Some s -> (s < i)%nat -> (i <= N)%nat ->
  current_confidences st <> [] ->
  incl (current_confidences st) confidences ->
  exists ev, close_event float_mean np_std category frame_indices i cl st = Ok ev /\
             good_event float_mean confidences ev.
Proof.
  intros Hs Hsi HiN Hne Hincl. unfold N in *. pose proof same_length as SL.
  destruct (nth_error_in_range frame_indices s ltac:(lia)) as [sf Hsf].
  destruct (nth_error_in_range frame_indices (i - 1) ltac:(lia)) as [ef Hef].
  destruct (np_max_ok _ Hne) as [m Hm].
  destruct (np_min_ok _ Hne) as [lo Hlo].
  unfold close_event, started. rewrite Hs. cbn [bind].
  rewrite (py_index_nat _ _ _ Hsf). cbn [bind].
  rewrite (py_index_pred frame_indices i ef ltac:(lia) Hef). cbn [bind].
  unfold _create_event. rewrite Hm, Hlo. cbn [bind].
  eexists. split; [reflexivity|].
  unfold good_event. cbn.
  split; [|split; [reflexivity|]].
  - apply (frames_ascending s (i - 1)%nat); [lia | assumption | assumption].
  - exists (current_confidences st). auto.
Qed.

Lemma extract_step_inv (i : nat) (label : string) (st : loop_state) :
  (i < N)%nat -> loop_inv float_mean confidences i st ->
  exists st',
    extract_step float_mean np_std self category confidences frame_indices i label st
    = Ok st' /\ loop_inv float_mean confidences (S i) st'.
Proof.
  intros HiN [Hev Hcur]. unfold N in *. pose proof same_length as SL.
  destruct (nth_error_in_range confidences i HiN) as [conf Hconf].
  destruct (nth_error_in_range frame_indices i ltac:(lia)) as [frame Hframe].
  assert (Hin : In conf confidences) by (eapply nth_error_In; eauto).
  unfold extract_step.
  rewrite (py_index_nat _ _ _ Hconf). cbn [bind].
  rewrite (py_index_nat _ _ _ Hframe). cbn [bind].
  destruct (is_none_label label || Qlt_bool conf (confidence_threshold self)).
  - destruct (current_label st) as [cl|] eqn:Ecl.
    + destruct (Hcur ltac:(discriminate)) as (s & Hs & Hsi & Hne & Hincl).
      unfold started at 1. rewrite Hs. cbn [bind].
      destruct (Z.of_nat i - Z.of_nat s <=? merge_gap self)%Z.
      * exists st. split; [reflexivity|]. split; [exact Hev|].
        intros _. exists s. repeat split; auto; lia.
      * destruct (close_event_good i s cl st Hs Hsi ltac:(lia) Hne Hincl)
          as (ev & Hclose & Hgood).
        rewrite Hclose. cbn [bind]. eexists. split; [reflexivity|].
        split; cbn.
        -- apply Forall_app. split; [exact Hev | constructor; [exact Hgood | constructor]].
        -- congruence.
    + exists st. split; [reflexivity|]. split; [exact Hev|].
      intro C. congruence.
  - destruct (current_label st) as [cl|] eqn:Ecl.
    + destruct (Hcur ltac:(discriminate)) as (s & Hs & Hsi & Hne & Hincl).
      destruct (String.eqb label cl).
      * eexists. split; [reflexivity|]. split; cbn; [exact Hev|].
        intros _. exists s. repeat split; auto; try lia.
        -- destruct (current_confidences st); discriminate.
        -- apply incl_app; [exact Hincl|]. intros x [<-|[]]. exact Hin.
      * destruct (close_event_good i s cl st Hs Hsi ltac:(lia) Hne Hincl)
          as (ev & Hclose & Hgood).
        rewrite Hclose. cbn [bind]. eexists. split; [reflexivity|].
        split; cbn.
        -- apply Forall_app. split; [exact Hev | constructor; [exact Hgood | constructor]].
        -- intros _. exists i. repeat split; auto; try discriminate.
           intros x [<-|[]]. exact Hin.
    + eexists. split; [reflexivity|]. split; cbn; [exact Hev|].
      intros _. exists i. repeat split; auto; try discriminate.
      intros x [<-|[]]. exact Hin.
Qed.

Lemma extract_loop_inv (labels : list string) :
  forall (i : nat) (st : loop_state),
    (i + List.length labels = N)%nat -> loop_inv float_mean confidences i st ->
    exists st',
      extract_loop float_mean np_std self category confidences frame_indices i labels st
      = Ok st' /\ loop_inv float_mean confidences N st'.
Proof.
  unfold N in *. pose proof same_length as SL. induction labels as [|label rest IH]; intros i st Hlen Hinv.
  - simpl in Hlen. assert (E : List.length confidences = i) by lia.
    rewrite E. exists st. split; [reflexivity | exact Hinv].
  - simpl in Hlen.
    destruct (extract_step_inv i label st ltac:(lia) Hinv) as (st1 & Hstep & Hinv1).
    destruct (IH (S i) st1 ltac:(lia) Hinv1) as (st2 & Hloop & Hinv2).
    exists st2. split; [|exact Hinv2].
    cbn [extract_loop]. rewrite Hstep. cbn [bind]. exact Hloop.
Qed.

Lemma extract_events_good (labels : list string) :
  List.length labels = N ->
  exists evs,
    _extract_events float_mean np_std self category labels confidences frame_indices
    = Ok evs /\
    Forall (fun e => good_event float_mean confidences e /\
                     (min_event_duration self <= duration_frames e)%Z) evs.
Proof.
  intro Hlen. unfold N in *. pose proof same_length as SL. unfold _extract_events.
  destruct (List.length labels =? 0)%nat eqn:E0.
  - exists []. split; [reflexivity | constructor].
  - apply Nat.eqb_neq in E0.
    assert (Hinit : loop_inv float_mean confidences 0 (mkLoopState None None [] [])).
    { split; [constructor | intro C; exfalso; apply C; reflexivity]. }
    destruct (extract_loop_inv labels 0 (mkLoopState None None [] [])
                Hlen Hinit) as (st & Hloop & Hev & Hcur).
    + rewrite Hloop. cbn [bind].
      assert (Hall : exists evs,
                match current_label st with
                | Some cl =>
                    ev <- close_event float_mean np_std category frame_indices
                            (List.length labels) cl st ;;
                    Ok (events st ++ [ev])
                | None => Ok (events st)
                end = Ok evs /\ Forall (good_event float_mean confidences) evs).
      { destruct (current_label st) as [cl|].
        - destruct (Hcur ltac:(discriminate)) as (s & Hs & Hsi & Hne & Hincl).
          destruct (close_event_good (List.length labels) s cl st Hs
                      ltac:(lia) ltac:(lia) Hne Hincl)
            as (ev & Hclose & Hgood).
          rewrite Hclose. cbn [bind]. eexists. split; [reflexivity|].
          apply Forall_app. split; [exact Hev | constructor; [exact Hgood | constructor]].
        - eexists. split; [reflexivity | exact Hev]. }
      destruct Hall as (evs & Hevs & Hgood). rewrite Hevs. cbn [bind].
      eexists. split; [reflexivity|].
      apply Forall_forall. intros e He. apply filter_In in He.
      destruct He as [He Hd]. split.
      * eapply Forall_forall in Hgood; eauto.
      * apply Z.leb_le, Hd.
Qed.

End ExtractEvents.






(** C1: on the label stream A, A, None, A, A with every confidence above
    the threshold, merge_gap = 1 and min_event_duration = 3, the code
    closes the first run at the None frame (the frame lies 2 > merge_gap
    frames after the event's start), so both two-frame runs are dropped
    and no event is returned. *)
Theorem merge_gap_stream_yields_no_event :
  forall float_mean np_std : list Q -> Q,
    _extract_events float_mean np_std (mkEventDetector 3 1 (3 # 10)) "WRIST"
      ["A"; "A"; "None"; "A"; "A"]
      [9 # 10; 9 # 10; 9 # 10; 9 # 10; 9 # 10] (np_arange 5)
    = Ok [].
Proof.
  intros float_mean np_std. reflexivity.
Qed.

(** The two runs the loop produces on that stream, before the duration
    filter: frames 0-1 and frames 3-4. *)
Lemma merge_gap_stream_runs :
  map (fun e => (start_frame e, end_frame e))
    (match
       _extract_events np_mean (fun _ => 0) (mkEventDetector 1 1 (3 # 10)) "WRIST"
         ["A"; "A"; "None"; "A"; "A"]
         [9 # 10; 9 # 10; 9 # 10; 9 # 10; 9 # 10] (np_arange 5)
     with Ok evs => evs | Raise _ => [] end)
  = [(0, 1); (3, 4)]%Z.
Proof. reflexivity. Qed.

(** The same on any label that is not a "None" and any confidences at or
    above the threshold. *)
Lemma merge_gap_stream_general (float_mean np_std : list Q -> Q) (threshold : Q)
    (category A : string) (c0 c1 c2 c3 c4 : Q) :
  is_none_label A = false ->
  threshold <= c0 -> threshold <= c1 -> threshold <= c2 ->
  threshold <= c3 -> threshold <= c4 ->
  _extract_events float_mean np_std (mkEventDetector 3 1 threshold) category
    [A; A; "None"; A; A] [c0; c1; c2; c3; c4] (np_arange 5) = Ok [].
Proof.
  intros HA H0 H1 H2 H3 H4.
  apply Qlt_bool_false in H0, H1, H2, H3, H4.
  unfold _extract_events, extract_loop, extract_step, close_event,
    _create_event, started.
  change (is_none_label "None") with true.
  repeat (rewrite ?HA, ?H0, ?H1, ?H3, ?H4, ?String.eqb_refl;
          cbv -[is_none_label Qlt_bool String.eqb np_mean Qmax' Qmin'
                _label_to_event_type]).
  reflexivity.
Qed.

(** With merge_gap = 2 the None frame, two frames after the start, is
    bridged and the stream gives one event over frames 0 to 4. *)
Lemma merge_gap_two_bridges_stream :
  map (fun e => (start_frame e, end_frame e, duration_frames e))
    (match
       _extract_events np_mean (fun _ => 0) (mkEventDetector 3 2 (3 # 10)) "WRIST"
         ["A"; "A"; "None"; "A"; "A"]
         [9 # 10; 9 # 10; 9 # 10; 9 # 10; 9 # 10] (np_arange 5)
     with Ok evs => evs | Raise _ => [] end)
  = [(0, 4, 5)]%Z.
Proof. reflexivity. Qed.

(** ** Hysteresis *)

(** C7: [HysteresisThreshold.apply] starts OFF and is a two-state machine:
    from OFF a sample switches it ON exactly when it exceeds the high
    threshold, from ON a sample switches it OFF exactly when it is below
    the low threshold; on [0,0,8,9,2,1,9,0,0] with high 7 and low 3 the
    mask is [F,F,T,T,F,F,T,F,F]. *)
Theorem hysteresis_state_machine :
  (forall low high x, HysteresisThreshold.step low high false x = true
                      <-> high < x) /\
  (forall low high x, HysteresisThreshold.step low high true x = false
                      <-> x < low) /\
  (forall low high s x rest,
     HysteresisThreshold.run low high s (x :: rest)
     = HysteresisThreshold.step low high s x
       :: HysteresisThreshold.run low high
            (HysteresisThreshold.step low high s x) rest) /\
  (forall np_quantile high low qh ql sig,
     HysteresisThreshold.apply np_quantile
       (HysteresisThreshold.mk (Some high) (Some low) qh ql) sig
     = Ok (HysteresisThreshold.run low high false sig, (high, low))) /\
  (forall np_quantile qh ql,
     HysteresisThreshold.apply np_quantile
       (HysteresisThreshold.mk (Some 7) (Some 3) qh ql)
       [0; 0; 8; 9; 2; 1; 9; 0; 0]
     = Ok ([false; false; true; true; false; false; true; false; false],
           (7, 3))).
Proof.
  repeat split; try reflexivity; unfold HysteresisThreshold.step; intro H.
  - destruct (Qlt_bool high x) eqn:E; qbool; [exact E | discriminate].
  - apply Qlt_bool_true in H. rewrite H. reflexivity.
  - destruct (Qlt_bool x low) eqn:E; qbool; [exact E | discriminate].
  - apply Qlt_bool_true in H. rewrite H. reflexivity.
Qed.

(** ** Filters *)




(** ** Missing values in the clinical scoring *)

Section MissingValues.

Variable interpret : string -> pyfloat -> SeverityLevel -> ReferenceRange -> string.
Variable reference_ranges : list (string * ReferenceRange).

Let scored := score_biomarkers interpret reference_ranges.

Lemma score_biomarkers_app (b1 b2 : list (string * option pynumber)) :
  scored (b1 ++ b2) = scored b1 ++ scored b2.
Proof.
  unfold scored. induction b1 as [|[name [v|]] b1 IH]; simpl.
  - reflexivity.
  - destruct (negb (isinstance_float v && np_isnan (number_value v)));
      simpl; rewrite IH; reflexivity.
  - exact IH.
Qed.

Lemma score_biomarkers_skip (b1 b2 : list (string * option pynumber))
    (k : string) (v : option pynumber) :
  v = None \/ v = Some (PyFloat NaN) ->
  scored (b1 ++ (k, v) :: b2) = scored (b1 ++ b2).
Proof.
  intro H. rewrite !score_biomarkers_app. f_equal.
  unfold scored. destruct H as [-> | ->]; reflexivity.
Qed.

Lemma score_biomarkers_numeric (b : list (string * option pynumber))
    (sb : ScoredBiomarker) :
  In sb (scored b) ->
  exists x, In (sb_name sb, Some x) b /\ x <> PyFloat NaN.
Proof.
  unfold scored. induction b as [|[name [v|]] b IH]; simpl; intro H.
  - contradiction.
  - destruct (negb (isinstance_float v && np_isnan (number_value v))) eqn:E.
    + destruct H as [<- | H].
      * exists v. split.
        -- left. unfold score_biomarker.
           destruct (dict_get reference_ranges name); reflexivity.
        -- intro C. rewrite C in E. discriminate E.
      * destruct (IH H) as (x & Hx & Hn). exists x. split; [right|]; assumption.
    + destruct (IH H) as (x & Hx & Hn). exists x. split; [right|]; assumption.
  - destruct (IH H) as (x & Hx & Hn). exists x. split; [right|]; assumption.
Qed.

Lemma other_nan_is_scored (k : string) (r : ReferenceRange) :
  dict_get reference_ranges k = Some r ->
  exists sb, scored [(k, Some (OtherNumber NaN))] = [sb] /\
             sb_severity sb = NORMAL /\ sb_percentile_score sb = 100.
Proof.
  intro H. unfold scored. cbn [score_biomarkers isinstance_float andb negb].
  eexists. split; [reflexivity|].
  unfold score_biomarker. cbn [number_value]. rewrite H.
  destruct (contains "asymmetry" (lower k) || contains "lag" (lower k));
    split; reflexivity.
Qed.

End MissingValues.

(** C10, as the code has it: a NaN value classifies as Normal and scores
    100; [score_biomarkers] leaves out the entries whose value is None or
    a float NaN, so every scored biomarker has a value in the dict that is
    neither, and the domain scores, the overall score and the overall
    severity are exactly those of the dict without the entry; a NaN that
    is no Python float (a [numpy.float32], say) is not left out but scored
    Normal with 100; a domain none of whose biomarkers is scored gets
    100. *)
Theorem missing_values_are_omitted :
  forall (interpret : string -> pyfloat -> SeverityLevel -> ReferenceRange -> string)
         (reference_ranges : list (string * ReferenceRange)),
    (forall r, classify r NaN = NORMAL) /\
    (forall r, get_percentile_score r NaN = 100) /\
    (forall b1 b2 k v,
       v = None \/ v = Some (PyFloat NaN) ->
       score_biomarkers interpret reference_ranges (b1 ++ (k, v) :: b2)
       = score_biomarkers interpret reference_ranges (b1 ++ b2)) /\
    (forall b sb,
       In sb (score_biomarkers interpret reference_ranges b) ->
       exists x, In (sb_name sb, Some x) b /\ x <> PyFloat NaN) /\
    (forall k r,
       dict_get reference_ranges k = Some r ->
       exists sb,
         score_biomarkers interpret reference_ranges
           [(k, Some (OtherNumber NaN))] = [sb] /\
         sb_severity sb = NORMAL /\ sb_percentile_score sb = 100) /\
    (forall b1 b2 k v domain,
       v = None \/ v = Some (PyFloat NaN) ->
       compute_domain_score
         (score_biomarkers interpret reference_ranges (b1 ++ (k, v) :: b2)) domain
       = compute_domain_score
           (score_biomarkers interpret reference_ranges (b1 ++ b2)) domain) /\
    (forall b1 b2 k v,
       v = None \/ v = Some (PyFloat NaN) ->
       score_all interpret reference_ranges (b1 ++ (k, v) :: b2)
       = score_all interpret reference_ranges (b1 ++ b2)) /\
    (forall scored domain,
       (forall sb, In sb scored -> ~ In (sb_name sb) domain) ->
       compute_domain_score scored domain = Ok 100).
Proof.
  intros interpret reference_ranges.
  split; [reflexivity|]. split; [reflexivity|].
  split; [intros; apply score_biomarkers_skip; assumption|].
  split; [intros b sb; apply score_biomarkers_numeric|].
  split; [intros k r; apply other_nan_is_scored|].
  split; [intros; rewrite score_biomarkers_skip by assumption; reflexivity|].
  split.
  - intros. unfold score_all.
    rewrite score_biomarkers_skip by assumption. reflexivity.
  - intros scored domain H. unfold compute_domain_score.
    replace (filter _ scored) with (@nil ScoredBiomarker); [reflexivity|].
    symmetry. induction scored as [|sb rest IH]; [reflexivity|].
    simpl.
    destruct (existsb (String.eqb (sb_name sb)) domain) eqn:E.
    + exfalso. apply existsb_exists in E. destruct E as (x & Hx & Ex).
      apply String.eqb_eq in Ex. subst x.
      apply (H sb); [left; reflexivity | exact Hx].
    + apply IH. intros sb' Hsb'. apply H. right. exact Hsb'.
Qed.

Lemma missing_values_are_omitted_witness :
  let interpret := fun (_ : string) (_ : pyfloat) (_ : SeverityLevel)
                       (_ : ReferenceRange) => "" in
  score_all interpret CLINICAL_REFERENCE_RANGES
    [("sparc", Some (PyFloat NaN)); ("ldljv", Some (PyFloat (Num (-10))));
     ("ldlja", None)]
  = score_all interpret CLINICAL_REFERENCE_RANGES
      [("ldljv", Some (PyFloat (Num (-10))))].
Proof.
  intro interpret.
  destruct (missing_values_are_omitted interpret CLINICAL_REFERENCE_RANGES)
    as (_ & _ & _ & _ & _ & _ & A & _).
  etransitivity.
  - exact (A [] [("ldljv", Some (PyFloat (Num (-10)))); ("ldlja", None)] "sparc"
             (Some (PyFloat NaN)) (or_intror eq_refl)).
  - exact (A [("ldljv", Some (PyFloat (Num (-10))))] [] "ldlja" None
             (or_introl eq_refl)).
Defined.

(** C10 does not hold with "never lower": on the default reference ranges,
    the smoothness score of sparc = -2.0 with ldljv = -10 is 500/7, and
    with the sparc value missing it is 0; the overall score falls from
    2000/21 (Normal) to 250/3 (Mild). *)
Lemma missing_value_lowers_scores :
  let interpret := fun (_ : string) (_ : pyfloat) (_ : SeverityLevel)
                       (_ : ReferenceRange) => "" in
  let biomarkers := [("sparc", Some (PyFloat (Num (-2))));
                     ("ldljv", Some (PyFloat (Num (-10))))] in
  let smoothness := ["sparc"; "ldljv"; "ldlja"; "normalized_jerk"] in
  exists s s' o o' d d' sc sc',
    compute_domain_score
      (score_biomarkers interpret CLINICAL_REFERENCE_RANGES biomarkers)
      smoothness = Ok s /\
    compute_domain_score
      (score_biomarkers interpret CLINICAL_REFERENCE_RANGES
         (mark_missing "sparc" biomarkers))
      smoothness = Ok s' /\
    s' < s /\
    score_all interpret CLINICAL_REFERENCE_RANGES biomarkers
    = Ok (sc, d, o, NORMAL) /\
    score_all interpret CLINICAL_REFERENCE_RANGES
      (mark_missing "sparc" biomarkers)
    = Ok (sc', d', o', MILD) /\
    o' < o.
Proof.
  intros interpret biomarkers smoothness.
  do 8 eexists.
  split; [vm_compute; reflexivity|].
  split; [vm_compute; reflexivity|].
  split; [reflexivity|].
  split; [vm_compute; reflexivity|].
  split; [vm_compute; reflexivity|].
  reflexivity.
Defined.

(** ** Spectral arc length *)

Lemma len_lt_true {A : Type} (l : list A) (k : Z) :
  (Z.of_nat (List.length l) < k)%Z -> len_lt l k = true.
Proof. intro H. unfold len_lt. apply Z.ltb_lt, H. Qed.

Lemma len_lt_false {A : Type} (l : list A) (k : Z) :
  (k <= Z.of_nat (List.length l))%Z -> len_lt l k = false.
Proof. intro H. unfold len_lt. apply Z.ltb_ge, H. Qed.

(** C4: [compute_sparc] returns no value <= 0 for any signal.  On fewer
    than 4 samples it returns NaN; on every longer signal the lookup
    [fft.rfftfreq] raises AttributeError, because [fft] names the function
    [scipy.fft.fft] and not the module - for instance on the four samples
    1, 2, 3, 4 at 30 Hz. *)
Theorem sparc_raises_attribute_error :
  (forall (self : BiomarkerCalculator) (velocity : list R)
          (freq_cutoff amplitude_threshold : R),
     compute_sparc self velocity freq_cutoff amplitude_threshold
     = if len_lt velocity 4 then Ok RNaN else Raise "AttributeError") /\
  compute_sparc (mkBiomarkerCalculator 30 (1 # 100) (1 # 10))
    [1; 2; 3; 4]%R 10 (5 / 100) = Raise "AttributeError".
Proof.
  split.
  - intros self velocity freq_cutoff amplitude_threshold.
    unfold compute_sparc. destruct (len_lt velocity 4); reflexivity.
  - reflexivity.
Qed.

(** ** Short signals in the biomarker calculator *)

(** C5, as the code has it: below its minimum sample count every method
    that returns a float returns NaN without raising - 4 samples for
    SPARC, LDLJ-V, LDLJ-A and the normalized jerk, 3 for the amplitude
    decrement, the velocity reduction and the performance degradation, 2
    for the hesitation index, twice the window for the consistency decline
    and the tremor stability, three windows for the frequency drift, 10
    for the coordination lag, the phase coherence (either signal), the
    Q-factor and the amplitude variability; [detect_movement_blocks]
    returns the pair (0, []) below 2 samples. *)
Theorem short_signal_gives_nan :
  forall (polyfit_slope : list Q -> list Q -> result Q)
         (np_std : list Q -> Q)
         (signal_welch : list Q -> Q -> Z -> result (list Q * list Q))
         (signal_coherence : list Q -> list Q -> Q -> Z -> result (list Q * list Q))
         (signal_correlate : list Q -> list Q -> list Q)
         (bandpass_filtfilt : Q -> Q -> list Q -> result (list Q))
         (hilbert_envelope : list Q -> list Q)
         (self : BiomarkerCalculator),
    (forall velocity freq_cutoff amplitude_threshold,
       (List.length velocity < 4)%nat ->
       compute_sparc self velocity freq_cutoff amplitude_threshold = Ok RNaN) /\
    (forall velocity movement_duration path_length,
       (List.length velocity < 4)%nat ->
       compute_ldljv self velocity movement_duration path_length = Ok RNaN) /\
    (forall position movement_duration amplitude,
       (List.length position < 4)%nat ->
       compute_ldlja self position movement_duration amplitude = Ok RNaN) /\
    (forall velocity,
       (List.length velocity < 4)%nat ->
       compute_normalized_jerk self velocity = Ok RNaN) /\
    (forall amplitudes early_fraction late_fraction,
       (List.length amplitudes < 3)%nat ->
       compute_amplitude_decrement amplitudes early_fraction late_fraction
       = NaN) /\
    (forall peak_velocities early_fraction late_fraction,
       (List.length peak_velocities < 3)%nat ->
       compute_velocity_reduction peak_velocities early_fraction late_fraction
       = NaN) /\
    (forall velocity threshold_fraction,
       (List.length velocity < 2)%nat ->
       compute_hesitation_index self velocity threshold_fraction = NaN) /\
    (forall metric_values timestamps,
       (List.length metric_values < 3)%nat ->
       compute_performance_degradation polyfit_slope metric_values timestamps
       = Ok NaN) /\
    (forall metric_values window_size,
       (List.length metric_values < window_size * 2)%nat ->
       compute_consistency_decline polyfit_slope np_std metric_values
         window_size = Ok NaN) /\
    (forall left_signal right_signal max_lag_samples,
       (List.length left_signal < 10)%nat \/
       (List.length right_signal < 10)%nat ->
       compute_coordination_lag signal_correlate self left_signal right_signal
         max_lag_samples = Ok NaN) /\
    (forall left_signal right_signal freq_band,
       (List.length left_signal < 10)%nat \/
       (List.length right_signal < 10)%nat ->
       compute_phase_coherence signal_coherence self left_signal right_signal
         freq_band = Ok NaN) /\
    (forall signal_data freq_band,
       (List.length signal_data < 10)%nat ->
       compute_q_factor signal_welch self signal_data freq_band = Ok NaN) /\
    (forall signal_data window_duration freq_band,
       (Z.of_nat (List.length signal_data)
        < py_int (window_duration * fs self) * 2)%Z ->
       compute_tremor_stability np_std signal_welch self signal_data
         window_duration freq_band = Ok NaN) /\
    (forall signal_data freq_band,
       (List.length signal_data < 10)%nat ->
       compute_amplitude_variability np_std bandpass_filtfilt hilbert_envelope
         self signal_data freq_band = NaN) /\
    (forall signal_data window_duration freq_band,
       (Z.of_nat (List.length signal_data)
        < py_int (window_duration * fs self) * 3)%Z ->
       compute_frequency_drift polyfit_slope signal_welch self signal_data
         window_duration freq_band = Ok NaN) /\
    (forall velocity min_pause_duration,
       (List.length velocity < 2)%nat ->
       detect_movement_blocks self velocity min_pause_duration = (O, [])).
Proof.
  intros.
  repeat split; intros;
    unfold compute_sparc, compute_ldljv, compute_ldlja,
      compute_normalized_jerk, compute_amplitude_decrement,
      compute_velocity_reduction, late_early_ratio, compute_hesitation_index,
      compute_performance_degradation, compute_consistency_decline,
      compute_coordination_lag, compute_phase_coherence, compute_q_factor,
      compute_tremor_stability, compute_amplitude_variability,
      compute_frequency_drift, detect_movement_blocks;
    try (rewrite len_lt_true by lia; reflexivity).
  - destruct H as [H|H].
    + rewrite (len_lt_true left_signal) by lia. reflexivity.
    + rewrite (len_lt_true right_signal) by lia.
      rewrite orb_true_r. reflexivity.
  - destruct H as [H|H].
    + rewrite (len_lt_true left_signal) by lia. reflexivity.
    + rewrite (len_lt_true right_signal) by lia.
      rewrite orb_true_r. reflexivity.
Qed.

Lemma short_signal_gives_nan_witness :
  let self := mkBiomarkerCalculator 30 (1 # 100) (1 # 10) in
  let welch := fun (_ : list Q) (_ : Q) (_ : Z) =>
                 @Raise (list Q * list Q) "ValueError" in
  compute_sparc self [1; 2; 3]%R 10 (5 / 100) = Ok RNaN /\
  compute_amplitude_decrement [1; 2] (33 # 100) (33 # 100) = NaN /\
  compute_hesitation_index self [1] (1 # 10) = NaN /\
  compute_q_factor welch self [1; 2; 3; 4; 5; 6; 7; 8; 9] (3, 12) = Ok NaN /\
  compute_tremor_stability (fun _ => 0) welch self [1; 2; 3] 1 (3, 12) = Ok NaN /\
  detect_movement_blocks self [1] (1 # 10) = (O, []).
Proof.
  intros self welch.
  destruct (short_signal_gives_nan
              (fun _ _ => Raise "ValueError") (fun _ => 0) welch
              (fun _ _ _ _ => Raise "ValueError") (fun _ _ => [])
              (fun _ _ _ => Raise "ValueError") (fun l => l) self)
    as (S & _ & _ & _ & A & _ & H & _ & _ & _ & _ & QF & T & _ & _ & M).
  split; [apply S; simpl; lia|].
  split; [apply A; simpl; lia|].
  split; [apply H; simpl; lia|].
  split; [apply QF; simpl; lia|].
  split; [apply T; reflexivity | apply M; simpl; lia].
Defined.

(** C5 does not hold for the movement-block count: on one sample, below
    its minimum of 2, [detect_movement_blocks] returns the pair (0, []),
    not NaN. *)
Lemma movement_blocks_short_signal_not_nan :
  let self := mkBiomarkerCalculator 30 (1 # 100) (1 # 10) in
  detect_movement_blocks self [5] (1 # 10) = (O, []) /\
  is_nan (BlocksValue (detect_movement_blocks self [5] (1 # 10))) = false.
Proof.
  intro self. split; reflexivity.
Qed.

(** * Further properties *)

(** ** Clinical scoring *)

(** X3: the severity never improves as the value gets worse: where higher
    is worse the severity rank is non-decreasing in the value, where lower
    is worse it is non-increasing, whatever the order of the thresholds. *)
Theorem classify_monotone :
  forall (r : ReferenceRange) (v1 v2 : Q),
    v1 <= v2 ->
    (higher_is_worse r = true ->
     (severity_value (classify r (Num v1))
      <= severity_value (classify r (Num v2)))%Z) /\
    (higher_is_worse r = false ->
     (severity_value (classify r (Num v2))
      <= severity_value (classify r (Num v1)))%Z).
Proof.
  intros r v1 v2 H. unfold classify, np_isnan, py_le, py_ge.
  split; intro W; rewrite W.
  - destruct (Qle_bool v1 (normal_max r)) eqn:A1;
      destruct (Qle_bool v1 (mild_threshold r)) eqn:A2;
      destruct (Qle_bool v1 (moderate_threshold r)) eqn:A3;
      destruct (Qle_bool v2 (normal_max r)) eqn:B1;
      destruct (Qle_bool v2 (mild_threshold r)) eqn:B2;
      destruct (Qle_bool v2 (moderate_threshold r)) eqn:B3;
      qbool; simpl; try lia; exfalso; qlra.
  - destruct (Qle_bool (normal_min r) v1) eqn:A1;
      destruct (Qle_bool (mild_threshold r) v1) eqn:A2;
      destruct (Qle_bool (moderate_threshold r) v1) eqn:A3;
      destruct (Qle_bool (normal_min r) v2) eqn:B1;
      destruct (Qle_bool (mild_threshold r) v2) eqn:B2;
      destruct (Qle_bool (moderate_threshold r) v2) eqn:B3;
      qbool; simpl; try lia; exfalso; qlra.
Qed.

Lemma classify_monotone_witness :
  let r := rr 0 50 100 200 400 "1/s²" true in
  (severity_value (classify r (Num 120))
   <= severity_value (classify r (Num 300)))%Z.
Proof.
  intro r.
  apply (proj1 (classify_monotone r 120 300 ltac:(discriminate))).
  reflexivity.
Defined.

Lemma Qabs_opp_eq (v : Q) : Qabs (- v) = Qabs v.
Proof.
  destruct v as [n d]. unfold Qabs, Qopp. simpl. rewrite Z.abs_opp. reflexivity.
Qed.

(** X5: a biomarker whose name contains "asymmetry" or "lag" and that has a
    reference range is scored on its absolute value: a value and its
    negation get the same scored biomarker. *)
Theorem asymmetry_scored_on_absolute_value :
  forall (interpret : string -> pyfloat -> SeverityLevel -> ReferenceRange -> string)
         (reference_ranges : list (string * ReferenceRange))
         (name : string) (v : Q),
    contains "asymmetry" (lower name) || contains "lag" (lower name) = true ->
    dict_get reference_ranges name <> None ->
    score_biomarker interpret reference_ranges name (Num (- v))
    = score_biomarker interpret reference_ranges name (Num v) /\
    sb_value (score_biomarker interpret reference_ranges name (Num v))
    = Num (Qabs v).
Proof.
  intros interpret reference_ranges name v Hname Hknown.
  unfold score_biomarker.
  destruct (dict_get reference_ranges name) as [ref|]; [|congruence].
  rewrite Hname. unfold np_abs. rewrite Qabs_opp_eq. split; reflexivity.
Qed.

Lemma asymmetry_scored_on_absolute_value_witness :
  let interpret := fun (_ : string) (_ : pyfloat) (_ : SeverityLevel)
                       (_ : ReferenceRange) => "" in
  score_biomarker interpret CLINICAL_REFERENCE_RANGES "coordination_lag"
    (Num (- (3 # 10)))
  = score_biomarker interpret CLINICAL_REFERENCE_RANGES "coordination_lag"
      (Num (3 # 10)).
Proof.
  intro interpret.
  apply (asymmetry_scored_on_absolute_value interpret
           CLINICAL_REFERENCE_RANGES "coordination_lag" (3 # 10));
    [reflexivity | discriminate].
Defined.

Lemma weighted_sum_bounds {A : Type} (f g : A -> Q) (l : list A) (lo hi : Q) :
  (forall x, In x l -> lo <= f x <= hi) -> (forall x, 1 <= g x) ->
  lo * Qsum (map g l) <= Qsum (map (fun x => f x * g x) l)
  /\ Qsum (map (fun x => f x * g x) l) <= hi * Qsum (map g l).
Proof.
  intros Hf Hg. induction l as [|x l IH].
  - simpl. split; qlra.
  - destruct IH as [IH1 IH2]; [intros y Hy; apply Hf; right; exact Hy|].
    destruct (Hf x (or_introl eq_refl)) as [F1 F2].
    assert (G : 0 <= g x) by (pose proof (Hg x); qlra).
    pose proof (Qmult_le_compat_r _ _ _ F1 G) as M1.
    pose proof (Qmult_le_compat_r _ _ _ F2 G) as M2.
    change (Qsum (map g (x :: l))) with (g x + Qsum (map g l)).
    change (Qsum (map (fun x => f x * g x) (x :: l)))
      with (f x * g x + Qsum (map (fun x => f x * g x) l)).
    split; qlra.
Qed.

Lemma weighted_average_bounds {A : Type} (f g : A -> Q) (l : list A) (lo hi : Q) :
  l <> [] -> (forall x, In x l -> lo <= f x <= hi) -> (forall x, 1 <= g x) ->
  exists s, np_average (map f l) (map g l) = Ok s /\ lo <= s <= hi.
Proof.
  intros Hne Hf Hg. rewrite (np_average_weights A f g l Hne Hg).
  eexists. split; [reflexivity|].
  assert (S1 : 1 <= Qsum (map g l)).
  { apply Qsum_ge_1.
    - destruct l; [congruence | discriminate].
    - intros x Hx. apply in_map_iff in Hx. destruct Hx as (y & <- & _). apply Hg. }
  destruct (weighted_sum_bounds f g l lo hi Hf Hg) as [B1 B2].
  split.
  - apply Qle_shift_div_l; [qlra | exact B1].
  - apply Qle_shift_div_r; [qlra | exact B2].
Qed.

Lemma compute_domain_score_bounds (scored : list ScoredBiomarker)
    (domain_biomarkers : list string) :
  (forall sb, In sb scored -> 0 <= sb_percentile_score sb <= 100) ->
  exists s, compute_domain_score scored domain_biomarkers = Ok s /\
            0 <= s <= 100.
Proof.
  intros H. unfold compute_domain_score.
  set (relevant := filter _ scored).
  assert (Hrel : forall sb, In sb relevant -> 0 <= sb_percentile_score sb <= 100).
  { intros sb Hsb. apply H. unfold relevant in Hsb.
    apply filter_In in Hsb. apply Hsb. }
  clearbody relevant. destruct relevant as [|sb rest].
  - exists 100. split; [reflexivity | split; discriminate].
  - apply (weighted_average_bounds sb_percentile_score domain_weight (sb :: rest));
      [discriminate | exact Hrel | apply domain_weight_ge_1].
Qed.

(** X6: when every scored biomarker has a percentile score between 0 and
    100, [compute_domain_score] returns (its weights never sum to zero) and
    the domain score lies between 0 and 100. *)
Theorem domain_score_in_range :
  forall (scored : list ScoredBiomarker) (domain_biomarkers : list string),
    (forall sb, In sb scored -> 0 <= sb_percentile_score sb <= 100) ->
    exists s, compute_domain_score scored domain_biomarkers = Ok s /\
              0 <= s <= 100.
Proof.
  intros scored domain_biomarkers H.
  apply compute_domain_score_bounds, H.
Qed.

Lemma domain_score_in_range_witness :
  let good := mkScoredBiomarker "sparc" (Num (-2)) "" NORMAL 100 "" in
  let bad := mkScoredBiomarker "ldljv" (Num (-10)) "" SEVERE 0 "" in
  exists s, compute_domain_score [good; bad] ["sparc"; "ldljv"] = Ok s /\
            0 <= s <= 100.
Proof.
  intros good bad. apply domain_score_in_range.
  intros sb [<-|[<-|[]]]; split; discriminate.
Defined.

Lemma compute_domain_score_total (scored : list ScoredBiomarker)
    (domain_biomarkers : list string) :
  exists s, compute_domain_score scored domain_biomarkers = Ok s.
Proof.
  unfold compute_domain_score.
  destruct (filter _ scored) as [|sb rest] eqn:E; [eauto|].
  rewrite (np_average_weights _ sb_percentile_score domain_weight (sb :: rest));
    [eauto | discriminate | apply domain_weight_ge_1].
Qed.

Lemma domain_scores_of_total (scored : list ScoredBiomarker)
    (domains : list (string * list string)) :
  exists ds, domain_scores_of scored domains = Ok ds /\
             map fst ds = map fst domains.
Proof.
  induction domains as [|[domain markers] rest IH].
  - exists []. split; reflexivity.
  - destruct IH as (ds & E & Hn).
    destruct (compute_domain_score_total scored markers) as (s & Es).
    exists ((domain, s) :: ds). cbn [domain_scores_of]. rewrite Es. cbn [bind].
    rewrite E. cbn [bind]. split; [reflexivity|].
    simpl. rewrite Hn. reflexivity.
Qed.

Lemma domain_weight_of_ge_1 (k : string) :
  1 <= match dict_get domain_weights k with Some w => w | None => 1 end.
Proof.
  unfold domain_weights, dict_get.
  repeat match goal with
         | |- context [String.eqb ?x ?y] => destruct (String.eqb x y)
         end; discriminate.
Qed.

(** X7: [score_all] never raises, for any reference ranges and any
    biomarkers (the weights of both weighted averages never sum to zero):
    it yields the scored biomarkers of [score_biomarkers], one score per
    clinical domain, in the order of [DOMAINS], an overall score, and as
    overall severity the classification of that overall score. *)
Theorem score_all_never_raises :
  forall (interpret : string -> pyfloat -> SeverityLevel -> ReferenceRange -> string)
         (reference_ranges : list (string * ReferenceRange))
         (biomarkers : list (string * option pynumber)),
  exists domain_scores overall,
    score_all interpret reference_ranges biomarkers
    = Ok (score_biomarkers interpret reference_ranges biomarkers,
          domain_scores, overall, classify_severity (Num overall)) /\
    map fst domain_scores = map fst DOMAINS.
Proof.
  intros interpret reference_ranges biomarkers.
  destruct (domain_scores_of_total
              (score_biomarkers interpret reference_ranges biomarkers) DOMAINS)
    as (ds & E & Hn).
  unfold score_all. rewrite E. cbn [bind].
  destruct ds as [|d ds']; [discriminate Hn|].
  set (weight := fun p : string * Q =>
                   match dict_get domain_weights (fst p) with
                   | Some w => w | None => 1 end).
  change (map (fun ds0 : string * Q =>
                 match dict_get domain_weights (fst ds0) with
                 | Some w => w | None => 1 end) (d :: ds'))
    with (map weight (d :: ds')).
  cbn [map].
  pose proof (np_average_weights _ snd weight (d :: ds')
                ltac:(discriminate)
                (fun p => domain_weight_of_ge_1 (fst p))) as Eo.
  cbn [map] in Eo. rewrite Eo. cbn [bind].
  eexists _, _. split; [reflexivity | exact Hn].
Qed.

Lemma score_biomarkers_all_missing
    (interpret : string -> pyfloat -> SeverityLevel -> ReferenceRange -> string)
    (reference_ranges : list (string * ReferenceRange))
    (biomarkers : list (string * option pynumber)) :
  (forall k v, In (k, v) biomarkers -> v = None \/ v = Some (PyFloat NaN)) ->
  score_biomarkers interpret reference_ranges biomarkers = [].
Proof.
  induction biomarkers as [|[name v] rest IH]; intro H; [reflexivity|].
  simpl. destruct (H name v (or_introl eq_refl)) as [-> | ->]; simpl;
    apply IH; intros k w Hk; apply (H k w); right; exact Hk.
Qed.

(** X8: when no biomarker has a value (the dict is empty, or every value is
    None or a float NaN), [score_all] scores nothing, gives every domain
    100 and reports an overall score of 100 with severity Normal. *)
Theorem score_all_without_data :
  forall (interpret : string -> pyfloat -> SeverityLevel -> ReferenceRange -> string)
         (reference_ranges : list (string * ReferenceRange))
         (biomarkers : list (string * option pynumber)),
    (forall k v, In (k, v) biomarkers -> v = None \/ v = Some (PyFloat NaN)) ->
    exists overall,
      score_all interpret reference_ranges biomarkers
      = Ok ([], map (fun d => (fst d, 100)) DOMAINS, overall, NORMAL) /\
      overall == 100.
Proof.
  intros interpret reference_ranges biomarkers H.
  unfold score_all.
  rewrite (score_biomarkers_all_missing interpret reference_ranges biomarkers H).
  eexists. split; [vm_compute; reflexivity | reflexivity].
Qed.

Lemma score_all_without_data_witness :
  let interpret := fun (_ : string) (_ : pyfloat) (_ : SeverityLevel)
                       (_ : ReferenceRange) => "" in
  exists overall,
    score_all interpret CLINICAL_REFERENCE_RANGES
      [("sparc", Some (PyFloat NaN)); ("ldljv", None)]
    = Ok ([], map (fun d => (fst d, 100)) DOMAINS, overall, NORMAL) /\
    overall == 100.
Proof.
  intro interpret. apply score_all_without_data.
  intros k v [E|[E|[]]]; injection E as _ <-; [right | left]; reflexivity.
Defined.

(** X9: the colour and the wording chosen for a numeric score are those of
    its severity: [get_score_color] agrees with [get_severity_color] of
    [classify_severity], and [_score_to_severity_text] uses the same
    boundaries, for every score, NaN included. *)
Theorem score_color_matches_severity :
  forall score : pyfloat,
    get_score_color score = get_severity_color (classify_severity score) /\
    _score_to_severity_text score
    = match classify_severity score with
      | NORMAL => "normal"
      | MILD => "mildly impaired"
      | MODERATE => "moderately impaired"
      | SEVERE => "severely impaired"
      end.
Proof.
  intro score.
  unfold get_score_color, _score_to_severity_text, classify_severity.
  destruct (py_ge score 85); [split; reflexivity|].
  destruct (py_ge score 65); [split; reflexivity|].
  destruct (py_ge score 40); split; reflexivity.
Qed.

(** X10: [generate_recommendations] never returns an empty list, and it
    returns the single standard-care line exactly when the overall
    severity is Normal and none of the tremor, bradykinesia, fatigue,
    smoothness and asymmetry scores is below 65 (an absent score counts as
    100; the range-of-motion score is never looked at). *)
Theorem recommendations_never_empty :
  forall (domain_scores : list (string * Q)) (overall_severity : SeverityLevel),
    generate_recommendations domain_scores overall_severity <> [] /\
    (generate_recommendations domain_scores overall_severity
     = ["Continue standard care and monitoring"]
     <->
     overall_severity = NORMAL /\
     domain_below_65 domain_scores "tremor" = false /\
     domain_below_65 domain_scores "bradykinesia" = false /\
     domain_below_65 domain_scores "fatigue" = false /\
     domain_below_65 domain_scores "smoothness" = false /\
     domain_below_65 domain_scores "asymmetry" = false).
Proof.
  intros domain_scores overall_severity.
  unfold generate_recommendations.
  destruct overall_severity;
    destruct (domain_below_65 domain_scores "tremor");
    destruct (domain_below_65 domain_scores "bradykinesia");
    destruct (domain_below_65 domain_scores "fatigue");
    destruct (domain_below_65 domain_scores "smoothness");
    destruct (domain_below_65 domain_scores "asymmetry");
    cbn; (split; [discriminate|]); split; intro H;
    repeat match goal with H : _ /\ _ |- _ => destruct H end;
    try discriminate; repeat split; reflexivity.
Qed.

(** ** Event extraction, continued *)

Lemma py_index_nat_inv {A : Type} (l : list A) (i : nat) (x : A) :
  py_index l (Z.of_nat i) = Ok x -> nth_error l i = Some x.
Proof.
  unfold py_index.
  assert (E : (Z.of_nat i <? 0)%Z = false) by (apply Z.ltb_ge; lia).
  rewrite E, E, Nat2Z.id. destruct (nth_error l i); congruence.
Qed.

Lemma py_index_pred_inv {A : Type} (l : list A) (i : nat) (x : A) :
  (1 <= i)%nat -> py_index l (Z.of_nat i - 1) = Ok x ->
  nth_error l (i - 1) = Some x.
Proof.
  intros Hi H. replace (Z.of_nat i - 1)%Z with (Z.of_nat (i - 1)) in H by lia.
  apply py_index_nat_inv, H.
Qed.

Lemma bind_ok {A B : Type} (m : result A) (k : A -> result B) (b : B) :
  bind m k = Ok b -> exists a, m = Ok a /\ k a = Ok b.
Proof. destruct m; simpl; [eauto | discriminate]. Qed.

Lemma close_event_inv (float_mean np_std : list Q -> Q) (cat : string)
    (frame_indices : list Z) (i : nat) (cl : string) (st : loop_state)
    (ev : DetectedEvent) :
  close_event float_mean np_std cat frame_indices i cl st = Ok ev ->
  exists s,
    current_start st = Some s /\
    py_index frame_indices (Z.of_nat s) = Ok (start_frame ev) /\
    py_index frame_indices (Z.of_nat i - 1) = Ok (end_frame ev) /\
    category ev = cat /\ label ev = cl /\
    event_type ev = _label_to_event_type cat cl.
Proof.
  unfold close_event, started, _create_event. intro H.
  destruct (current_start st) as [s|]; [|discriminate H].
  cbn [bind] in H.
  apply bind_ok in H. destruct H as (sf & Hsf & H).
  apply bind_ok in H. destruct H as (ef & Hef & H).
  apply bind_ok in H. destruct H as (m & Hm & H).
  apply bind_ok in H. destruct H as (lo & Hlo & H).
  injection H as <-. exists s. cbn.
  repeat split; first [assumption | reflexivity].
Qed.

Lemma StronglySorted_snoc {A : Type} (R : A -> A -> Prop) (l : list A) (x : A) :
  StronglySorted R l -> (forall y, In y l -> R y x) ->
  StronglySorted R (l ++ [x]).
Proof.
  induction 1 as [|a l Hs IH Ha]; intro Hx; simpl.
  - constructor; constructor.
  - constructor.
    + apply IH. intros y Hy. apply Hx. right. exact Hy.
    + apply Forall_app. split; [exact Ha|].
      constructor; [apply Hx; left; reflexivity | constructor].
Qed.

Lemma StronglySorted_filter {A : Type} (R : A -> A -> Prop) (f : A -> bool)
    (l : list A) :
  StronglySorted R l -> StronglySorted R (filter f l).
Proof.
  induction 1 as [|a l Hs IH Ha]; simpl; [constructor|].
  destruct (f a); [|exact IH]. constructor; [exact IH|].
  apply Forall_forall. intros y Hy. apply filter_In in Hy.
  eapply Forall_forall in Ha; [exact Ha | apply Hy].
Qed.

Section ExtractEventsOrder.

Variable float_mean : list Q -> Q.
Variable np_std : list Q -> Q.
Variable self : EventDetector.
Variable cat : string.
Variable all_labels : list string.
Variable confidences : list Q.
Variable frame_indices : list Z.

Hypothesis frames_strict : strictly_ascending frame_indices.

Lemma order_inv_close (i s : nat) (cl : string) (st : loop_state)
    (ev : DetectedEvent) :
  order_inv cat all_labels frame_indices i st -> current_label st = Some cl ->
  current_start st = Some s -> (s < i)%nat ->
  close_event float_mean np_std cat frame_indices i cl st = Ok ev ->
  event_provenance cat all_labels ev /\
  StronglySorted ends_before (events st ++ [ev]) /\
  (forall e, In e (events st ++ [ev]) ->
     exists j, (j < i)%nat /\ nth_error frame_indices j = Some (end_frame e)).
Proof.
  intros (Hprov & Hsort & Hend & Hcur) Hcl Hs Hsi Hclose.
  destruct (Hcur cl Hcl) as (Hnone & Hin & _).
  destruct (close_event_inv _ _ _ _ _ _ _ _ Hclose)
    as (s' & Hs' & Hsf & Hef & Hc & Hl & Ht).
  rewrite Hs in Hs'. injection Hs' as <-.
  apply py_index_nat_inv in Hsf.
  apply py_index_pred_inv in Hef; [|lia].
  assert (Hb : end_bound i st = s) by (unfold end_bound; rewrite Hcl, Hs; reflexivity).
  split; [|split].
  - unfold event_provenance. rewrite Hl. auto.
  - apply StronglySorted_snoc; [exact Hsort|].
    intros e He. destruct (Hend e He) as (j & Hj & Hje).
    rewrite Hb in Hj. unfold ends_before.
    apply (frames_strict j s); assumption.
  - intros e He. apply in_app_iff in He. destruct He as [He|[<-|[]]].
    + destruct (Hend e He) as (j & Hj & Hje). rewrite Hb in Hj.
      exists j. split; [lia | exact Hje].
    + exists (i - 1)%nat. split; [lia | exact Hef].
Qed.

Lemma order_inv_step (i : nat) (lbl : string) (st st' : loop_state) :
  In lbl all_labels ->
  order_inv cat all_labels frame_indices i st ->
  extract_step float_mean np_std self cat confidences frame_indices i lbl st = Ok st' ->
  order_inv cat all_labels frame_indices (S i) st'.
Proof.
  intros Hlbl Hinv Hstep.
  pose proof Hinv as (Hprov & Hsort & Hend & Hcur).
  unfold extract_step in Hstep.
  apply bind_ok in Hstep. destruct Hstep as (conf & _ & Hstep).
  apply bind_ok in Hstep. destruct Hstep as (frame & _ & Hstep).
  destruct (is_none_label lbl || Qlt_bool conf (confidence_threshold self)) eqn:Eskip.
  - destruct (current_label st) as [cl|] eqn:Ecl.
    + destruct (Hcur cl eq_refl) as (Hnone & Hin & s & Hs & Hsi).
      unfold started at 1 in Hstep. rewrite Hs in Hstep. cbn [bind] in Hstep.
      destruct (Z.of_nat i - Z.of_nat s <=? merge_gap self)%Z.
      * injection Hstep as <-. repeat split; try assumption.
        -- intros e He. destruct (Hend e He) as (j & Hj & Hje).
           exists j. split; [|exact Hje].
           unfold end_bound in *. rewrite Ecl, Hs in *. exact Hj.
        -- rewrite Ecl in H. injection H as <-. exact Hnone.
        -- rewrite Ecl in H. injection H as <-. exact Hin.
        -- rewrite Ecl in H. exists s. split; [exact Hs | lia].
      * apply bind_ok in Hstep. destruct Hstep as (ev & Hclose & Hstep).
        injection Hstep as <-.
        destruct (order_inv_close i s cl st ev Hinv Ecl Hs Hsi Hclose)
          as (Pev & Sev & Eev).
        split; [|split; [|split]]; cbn.
        -- apply Forall_app. split; [exact Hprov | constructor; [exact Pev | constructor]].
        -- exact Sev.
        -- intros e He. destruct (Eev e He) as (j & Hj & Hje).
           exists j. split; [unfold end_bound; cbn; lia | exact Hje].
        -- intros cl' C. discriminate C.
    + injection Hstep as <-. repeat split; try assumption.
      * intros e He. destruct (Hend e He) as (j & Hj & Hje).
        exists j. split; [|exact Hje].
        unfold end_bound in *. rewrite Ecl in *. lia.
      * rewrite Ecl in H. discriminate H.
      * rewrite Ecl in H. discriminate H.
      * rewrite Ecl in H. discriminate H.
  - apply orb_false_iff in Eskip. destruct Eskip as [Enone _].
    destruct (current_label st) as [cl|] eqn:Ecl.
    + destruct (Hcur cl eq_refl) as (Hnone & Hin & s & Hs & Hsi).
      destruct (String.eqb lbl cl).
      * injection Hstep as <-. split; [|split; [|split]]; cbn; try assumption.
        -- intros e He. destruct (Hend e He) as (j & Hj & Hje).
           exists j. split; [|exact Hje].
           unfold end_bound in *. cbn. rewrite Ecl, Hs in *. exact Hj.
        -- intros cl' C. injection C as <-.
           split; [exact Hnone|]. split; [exact Hin|].
           exists s. split; [exact Hs | lia].
      * apply bind_ok in Hstep. destruct Hstep as (ev & Hclose & Hstep).
        injection Hstep as <-.
        destruct (order_inv_close i s cl st ev Hinv Ecl Hs Hsi Hclose)
          as (Pev & Sev & Eev).
        split; [|split; [|split]]; cbn.
        -- apply Forall_app. split; [exact Hprov | constructor; [exact Pev | constructor]].
        -- exact Sev.
        -- intros e He. destruct (Eev e He) as (j & Hj & Hje).
           exists j. split; [unfold end_bound; cbn; lia | exact Hje].
        -- intros cl' C. injection C as <-.
           split; [exact Enone|]. split; [exact Hlbl|].
           exists i. split; [reflexivity | lia].
    + injection Hstep as <-. split; [|split; [|split]]; cbn; try assumption.
      * intros e He. destruct (Hend e He) as (j & Hj & Hje).
        exists j. split; [|exact Hje].
        unfold end_bound in *. cbn. rewrite Ecl in *. exact Hj.
      * intros cl' C. injection C as <-.
        split; [exact Enone|]. split; [exact Hlbl|].
        exists i. split; [reflexivity | lia].
Qed.

Lemma order_inv_loop (labels : list string) :
  forall (i : nat) (st st' : loop_state),
    incl labels all_labels ->
    order_inv cat all_labels frame_indices i st ->
    extract_loop float_mean np_std self cat confidences frame_indices i labels st = Ok st' ->
    order_inv cat all_labels frame_indices (i + List.length labels) st'.
Proof.
  induction labels as [|lbl rest IH]; intros i st st' Hincl Hinv Hloop.
  - simpl in Hloop. injection Hloop as <-.
    simpl. rewrite Nat.add_0_r. exact Hinv.
  - cbn [extract_loop] in Hloop.
    apply bind_ok in Hloop. destruct Hloop as (st1 & Hstep & Hloop).
    assert (Hinv1 : order_inv cat all_labels frame_indices (S i) st1).
    { eapply order_inv_step; [|exact Hinv|exact Hstep].
      apply Hincl. left. reflexivity. }
    simpl List.length. rewrite Nat.add_succ_r.
    apply (IH (S i) st1 st'); [|exact Hinv1|exact Hloop].
    intros x Hx. apply Hincl. right. exact Hx.
Qed.

End ExtractEventsOrder.

Lemma strictly_ascending_ascending (l : list Z) :
  strictly_ascending l -> ascending l.
Proof.
  intros H i j x y Hij Hi Hj.
  destruct (Nat.eq_dec i j) as [->|Hne].
  - rewrite Hi in Hj. injection Hj as <-. lia.
  - apply Z.lt_le_incl. apply (H i j); [lia | assumption | assumption].
Qed.

Lemma np_arange_strictly_ascending (n : nat) : strictly_ascending (np_arange n).
Proof.
  intros i j x y Hij Hi Hj.
  assert (L : forall k z, nth_error (np_arange n) k = Some z -> z = Z.of_nat k).
  { intros k z Hk. unfold np_arange in Hk.
    rewrite nth_error_map, nth_error_seq in Hk.
    destruct (k <? n)%nat; simpl in Hk; congruence. }
  apply L in Hi, Hj. lia.
Qed.

Lemma extract_events_order (float_mean np_std : list Q -> Q) (self : EventDetector)
    (cat : string) (labels : list string) (confidences : list Q)
    (frame_indices : list Z) (evs : list DetectedEvent) :
  strictly_ascending frame_indices ->
  _extract_events float_mean np_std self cat labels confidences frame_indices = Ok evs ->
  Forall (event_provenance cat labels) evs /\ StronglySorted ends_before evs.
Proof.
  intros Hstrict H. unfold _extract_events in H.
  destruct (List.length labels =? 0)%nat.
  { injection H as <-. split; constructor. }
  apply bind_ok in H. destruct H as (st & Hloop & H).
  apply bind_ok in H. destruct H as (all & Hall & H).
  injection H as <-.
  assert (Hinit : order_inv cat labels frame_indices 0
                    (mkLoopState None None [] [])).
  { repeat split; try constructor; try contradiction; discriminate. }
  pose proof (order_inv_loop float_mean np_std self cat labels confidences frame_indices
                Hstrict labels 0 _ st (incl_refl _) Hinit Hloop) as Hinv.
  simpl in Hinv.
  assert (Hgood : Forall (event_provenance cat labels) all /\
                  StronglySorted ends_before all).
  { destruct (current_label st) as [cl|] eqn:Ecl.
    - apply bind_ok in Hall. destruct Hall as (ev & Hclose & Hall).
      injection Hall as <-.
      pose proof Hinv as (Hprov & _ & _ & Hcur).
      destruct (Hcur cl Ecl) as (_ & _ & s & Hs & Hsn).
      destruct (order_inv_close float_mean np_std cat labels frame_indices Hstrict
                  (List.length labels) s cl st ev Hinv Ecl Hs Hsn Hclose)
        as (Pev & Sev & _).
      split; [|exact Sev].
      apply Forall_app. split; [exact Hprov | constructor; [exact Pev | constructor]].
    - injection Hall as <-. destruct Hinv as (Hprov & Hsort & _). split; assumption. }
  destruct Hgood as [Hprov Hsort]. split.
  - apply Forall_forall. intros e He. apply filter_In in He.
    eapply Forall_forall in Hprov; [exact Hprov | apply He].
  - apply StronglySorted_filter, Hsort.
Qed.

(** X11: with strictly increasing frame indices (the default) and one
    confidence and one frame index per label, [_extract_events] returns its
    events in order and without overlap: each event ends before every later
    one starts. *)
Theorem extracted_events_do_not_overlap :
  forall (float_mean np_std : list Q -> Q) (self : EventDetector) (cat : string)
         (labels : list string) (confidences : list Q)
         (frame_indices : list Z),
    List.length confidences = List.length labels ->
    List.length frame_indices = List.length labels ->
    strictly_ascending frame_indices ->
    exists evs,
      _extract_events float_mean np_std self cat labels confidences frame_indices = Ok evs /\
      StronglySorted (fun e1 e2 => (end_frame e1 < start_frame e2)%Z) evs.
Proof.
  intros float_mean np_std self cat labels confidences frame_indices Hc Hf Hstrict.
  destruct (extract_events_good float_mean np_std self cat confidences frame_indices
              (strictly_ascending_ascending _ Hstrict)
              ltac:(congruence) labels ltac:(congruence)) as (evs & Hrun & _).
  exists evs. split; [exact Hrun|].
  apply (extract_events_order _ _ _ _ _ _ _ _ Hstrict Hrun).
Qed.

Lemma extracted_events_do_not_overlap_witness :
  exists evs,
    _extract_events np_mean (fun _ => 0) (mkEventDetector 1 0 (3 # 10)) "FINGER"
      ["Index Tap"; "Index Tap"; "None"; "Thumb Tap"]
      [9 # 10; 8 # 10; 9 # 10; 7 # 10] (np_arange 4) = Ok evs /\
    StronglySorted (fun e1 e2 => (end_frame e1 < start_frame e2)%Z) evs.
Proof.
  apply extracted_events_do_not_overlap;
    [reflexivity | reflexivity | apply np_arange_strictly_ascending].
Defined.

(** X12: under the same conditions every returned event carries the
    category it was extracted for, a label that occurs in the input and is
    none of "None", "none", "NONE", and the event type
    [_label_to_event_type] gives that label. *)
Theorem extracted_events_provenance :
  forall (float_mean np_std : list Q -> Q) (self : EventDetector) (cat : string)
         (labels : list string) (confidences : list Q)
         (frame_indices : list Z),
    List.length confidences = List.length labels ->
    List.length frame_indices = List.length labels ->
    strictly_ascending frame_indices ->
    exists evs,
      _extract_events float_mean np_std self cat labels confidences frame_indices = Ok evs /\
      forall e, In e evs ->
        category e = cat /\
        In (label e) labels /\
        ~ In (label e) ["None"; "none"; "NONE"] /\
        event_type e = _label_to_event_type cat (label e).
Proof.
  intros float_mean np_std self cat labels confidences frame_indices Hc Hf Hstrict.
  destruct (extract_events_good float_mean np_std self cat confidences frame_indices
              (strictly_ascending_ascending _ Hstrict)
              ltac:(congruence) labels ltac:(congruence)) as (evs & Hrun & _).
  exists evs. split; [exact Hrun|].
  destruct (extract_events_order _ _ _ _ _ _ _ _ Hstrict Hrun) as [Hprov _].
  intros e He. eapply Forall_forall in Hprov; [|exact He].
  destruct Hprov as (C & N & I & T).
  repeat split; try assumption.
  intro Hnone. unfold is_none_label in N.
  assert (E : existsb (String.eqb (label e)) ["None"; "none"; "NONE"] = true).
  { apply existsb_exists. exists (label e). split; [exact Hnone|].
    apply String.eqb_refl. }
  congruence.
Qed.

Lemma extracted_events_provenance_witness :
  exists evs,
    _extract_events np_mean (fun _ => 0) (mkEventDetector 1 0 (3 # 10)) "FINGER"
      ["Index Tap"; "Index Tap"; "None"; "Thumb Tap"]
      [9 # 10; 8 # 10; 9 # 10; 7 # 10] (np_arange 4) = Ok evs /\
    forall e, In e evs ->
      category e = "FINGER" /\
      In (label e) ["Index Tap"; "Index Tap"; "None"; "Thumb Tap"] /\
      ~ In (label e) ["None"; "none"; "NONE"] /\
      event_type e = _label_to_event_type "FINGER" (label e).
Proof.
  apply extracted_events_provenance;
    [reflexivity | reflexivity | apply np_arange_strictly_ascending].
Defined.

Lemma fold_Qmin_bounds (xs : list Q) (x : Q) :
  In (fold_left Qmin' xs x) (x :: xs) /\
  forall y, In y (x :: xs) -> fold_left Qmin' xs x <= y.
Proof.
  revert x. induction xs as [|z xs IH]; intro x; simpl.
  - split; [left; reflexivity|]. intros y [<-|[]]. apply Qle_refl.
  - destruct (IH (Qmin' x z)) as [I B]. split.
    + destruct I as [I|I]; [|right; right; exact I].
      rewrite <- I. unfold Qmin'.
      destruct (Qle_bool x z); [left | right; left]; reflexivity.
    + assert (Hx : Qmin' x z <= x /\ Qmin' x z <= z).
      { unfold Qmin'. destruct (Qle_bool x z) eqn:E; qbool; split; qlra. }
      intros y [<-|[<-|Hy]].
      * eapply Qle_trans; [apply B; left; reflexivity | apply Hx].
      * eapply Qle_trans; [apply B; left; reflexivity | apply Hx].
      * apply B. right. exact Hy.
Qed.

Lemma np_min_spec (l : list Q) (m : Q) :
  np_min l = Ok m -> In m l /\ forall y, In y l -> m <= y.
Proof.
  destruct l as [|x xs]; simpl; [discriminate|].
  intro H. injection H as <-. apply fold_Qmin_bounds.
Qed.

Lemma close_event_confidence (float_mean np_std : list Q -> Q) (cat : string)
    (frame_indices : list Z) (i : nat) (cl : string) (st : loop_state)
    (ev : DetectedEvent) (threshold : Q) :
  close_event float_mean np_std cat frame_indices i cl st = Ok ev ->
  Forall (fun c => threshold <= c) (current_confidences st) ->
  threshold <= confidence_min (metadata ev) /\ threshold <= peak_confidence ev.
Proof.
  unfold close_event, started, _create_event. intros H Hall.
  destruct (current_start st) as [s|]; [|discriminate H].
  cbn [bind] in H.
  apply bind_ok in H. destruct H as (sf & Hsf & H).
  apply bind_ok in H. destruct H as (ef & Hef & H).
  apply bind_ok in H. destruct H as (m & Hm & H).
  apply bind_ok in H. destruct H as (lo & Hlo & H).
  injection H as <-. cbn.
  destruct (np_max_spec _ _ Hm) as [Hin _].
  destruct (np_min_spec _ _ Hlo) as [Hin' _].
  rewrite Forall_forall in Hall. split; apply Hall; assumption.
Qed.

Lemma confidence_inv_step (float_mean np_std : list Q -> Q) (self : EventDetector)
    (cat : string) (confidences : list Q) (frame_indices : list Z)
    (i : nat) (lbl : string) (st st' : loop_state) :
  confidence_inv (confidence_threshold self) st ->
  extract_step float_mean np_std self cat confidences frame_indices i lbl st = Ok st' ->
  confidence_inv (confidence_threshold self) st'.
Proof.
  intros [Hev Hcur] Hstep. unfold extract_step in Hstep.
  apply bind_ok in Hstep. destruct Hstep as (conf & _ & Hstep).
  apply bind_ok in Hstep. destruct Hstep as (frame & _ & Hstep).
  destruct (is_none_label lbl || Qlt_bool conf (confidence_threshold self)) eqn:Eskip.
  - destruct (current_label st) as [cl|].
    + apply bind_ok in Hstep. destruct Hstep as (s & _ & Hstep).
      destruct (Z.of_nat i - Z.of_nat s <=? merge_gap self)%Z.
      * injection Hstep as <-. split; assumption.
      * apply bind_ok in Hstep. destruct Hstep as (ev & Hclose & Hstep).
        injection Hstep as <-. split; cbn; [|constructor].
        apply Forall_app. split; [exact Hev|].
        constructor; [|constructor].
        apply (close_event_confidence _ _ _ _ _ _ _ _ _ Hclose Hcur).
    + injection Hstep as <-. split; assumption.
  - apply orb_false_iff in Eskip. destruct Eskip as [_ Econf].
    apply Qlt_bool_false in Econf.
    destruct (current_label st) as [cl|].
    + destruct (String.eqb lbl cl).
      * injection Hstep as <-. split; cbn; [exact Hev|].
        apply Forall_app. split; [exact Hcur | constructor; [exact Econf | constructor]].
      * apply bind_ok in Hstep. destruct Hstep as (ev & Hclose & Hstep).
        injection Hstep as <-. split; cbn.
        -- apply Forall_app. split; [exact Hev|].
           constructor; [|constructor].
           apply (close_event_confidence _ _ _ _ _ _ _ _ _ Hclose Hcur).
        -- constructor; [exact Econf | constructor].
    + injection Hstep as <-. split; cbn; [exact Hev|].
      constructor; [exact Econf | constructor].
Qed.

Lemma confidence_inv_loop (float_mean np_std : list Q -> Q) (self : EventDetector)
    (cat : string) (confidences : list Q) (frame_indices : list Z)
    (labels : list string) :
  forall (i : nat) (st st' : loop_state),
    confidence_inv (confidence_threshold self) st ->
    extract_loop float_mean np_std self cat confidences frame_indices i labels st = Ok st' ->
    confidence_inv (confidence_threshold self) st'.
Proof.
  induction labels as [|lbl rest IH]; intros i st st' Hinv H; simpl in H.
  - injection H as <-. exact Hinv.
  - apply bind_ok in H. destruct H as (st1 & Hstep & H).
    apply (IH (S i) st1 st'); [|exact H].
    apply (confidence_inv_step _ _ _ _ _ _ _ _ _ _ Hinv Hstep).
Qed.

(** X13: with one confidence and one ascending frame index per label,
    every event returned by [_extract_events] has a peak confidence and a
    minimum confidence (metadata [confidence_min]) of at least
    [confidence_threshold]: frames below the threshold never enter an
    event's statistics. *)
Theorem extracted_events_meet_threshold :
  forall (float_mean np_std : list Q -> Q) (self : EventDetector)
         (cat : string) (labels : list string) (confidences : list Q)
         (frame_indices : list Z),
    List.length confidences = List.length labels ->
    List.length frame_indices = List.length labels ->
    ascending frame_indices ->
    exists evs,
      _extract_events float_mean np_std self cat labels confidences
        frame_indices = Ok evs /\
      forall e, In e evs ->
        confidence_threshold self <= confidence_min (metadata e) /\
        confidence_threshold self <= peak_confidence e.
Proof.
  intros float_mean np_std self cat labels confidences frame_indices Hc Hf Hasc.
  destruct (extract_events_good float_mean np_std self cat confidences
              frame_indices Hasc ltac:(congruence) labels ltac:(congruence))
    as (evs & Hrun & _).
  exists evs. split; [exact Hrun|].
  unfold _extract_events in Hrun.
  destruct (List.length labels =? 0)%nat.
  { injection Hrun as <-. intros e []. }
  apply bind_ok in Hrun. destruct Hrun as (st & Hloop & H).
  apply bind_ok in H. destruct H as (all & Hall & H).
  injection H as <-.
  assert (Hinit : confidence_inv (confidence_threshold self)
                    (mkLoopState None None [] [])).
  { split; constructor. }
  pose proof (confidence_inv_loop _ _ _ _ _ _ _ _ _ _ Hinit Hloop) as [Hev Hcur].
  assert (Hgood : Forall (fun e =>
                    confidence_threshold self <= confidence_min (metadata e) /\
                    confidence_threshold self <= peak_confidence e) all).
  { destruct (current_label st) as [cl|].
    - apply bind_ok in Hall. destruct Hall as (ev & Hclose & Hall).
      injection Hall as <-. apply Forall_app. split; [exact Hev|].
      constructor; [|constructor].
      apply (close_event_confidence _ _ _ _ _ _ _ _ _ Hclose Hcur).
    - injection Hall as <-. exact Hev. }
  intros e He. apply filter_In in He.
  rewrite Forall_forall in Hgood. apply Hgood, He.
Qed.

Lemma extracted_events_meet_threshold_witness :
  exists evs,
    _extract_events np_mean (fun _ => 0) (mkEventDetector 1 0 (3 # 10)) "FINGER"
      ["Index Tap"; "Index Tap"; "None"; "Thumb Tap"]
      [9 # 10; 2 # 10; 9 # 10; 7 # 10] (np_arange 4) = Ok evs /\
    forall e, In e evs ->
      confidence_threshold (mkEventDetector 1 0 (3 # 10))
      <= confidence_min (metadata e) /\
      confidence_threshold (mkEventDetector 1 0 (3 # 10)) <= peak_confidence e.
Proof.
  apply extracted_events_meet_threshold;
    [reflexivity | reflexivity | apply np_arange_ascending].
Defined.

Lemma extract_loop_idle (float_mean np_std : list Q -> Q) (self : EventDetector)
    (cat : string) (confidences : list Q) (frame_indices : list Z)
    (labels : list string) :
  forall (i : nat),
    (i + List.length labels <= List.length confidences)%nat ->
    (i + List.length labels <= List.length frame_indices)%nat ->
    (forall k l c, nth_error labels k = Some l ->
                   nth_error confidences (i + k) = Some c ->
                   is_none_label l = true \/ c < confidence_threshold self) ->
    extract_loop float_mean np_std self cat confidences frame_indices i labels
      (mkLoopState None None [] []) = Ok (mkLoopState None None [] []).
Proof.
  induction labels as [|lbl rest IH]; intros i Hc Hf Hidle; simpl; [reflexivity|].
  simpl in Hc, Hf.
  destruct (nth_error_in_range confidences i ltac:(lia)) as [c Hci].
  destruct (nth_error_in_range frame_indices i ltac:(lia)) as [f Hfi].
  unfold extract_step.
  rewrite (py_index_nat confidences i c Hci), (py_index_nat frame_indices i f Hfi).
  cbn [bind].
  assert (E : is_none_label lbl || Qlt_bool c (confidence_threshold self) = true).
  { destruct (Hidle 0%nat lbl c eq_refl) as [H|H].
    - rewrite Nat.add_0_r. exact Hci.
    - rewrite H. reflexivity.
    - apply Qlt_bool_true in H. rewrite H. apply orb_true_r. }
  rewrite E. cbn.
  apply IH; [lia | lia |].
  intros k l c' Hl Hc'. apply (Hidle (S k) l c'); [exact Hl|].
  rewrite <- Hc'. f_equal. lia.
Qed.

(** X14: when every frame either has a "None" label or a confidence below
    the threshold, [_extract_events] returns no event (and does not
    raise). *)
Theorem no_qualifying_frame_no_event :
  forall (float_mean np_std : list Q -> Q) (self : EventDetector) (cat : string)
         (labels : list string) (confidences : list Q)
         (frame_indices : list Z),
    List.length confidences = List.length labels ->
    List.length frame_indices = List.length labels ->
    (forall k l c, nth_error labels k = Some l ->
                   nth_error confidences k = Some c ->
                   In l ["None"; "none"; "NONE"] \/
                   c < confidence_threshold self) ->
    _extract_events float_mean np_std self cat labels confidences frame_indices = Ok [].
Proof.
  intros float_mean np_std self cat labels confidences frame_indices Hc Hf Hidle.
  unfold _extract_events.
  destruct (List.length labels =? 0)%nat; [reflexivity|].
  rewrite extract_loop_idle; [reflexivity | simpl; lia | simpl; lia |].
  intros k l c Hl Hk. simpl in Hk.
  destruct (Hidle k l c Hl Hk) as [H|H]; [left | right; exact H].
  unfold is_none_label. apply existsb_exists.
  exists l. split; [exact H | apply String.eqb_refl].
Qed.

Lemma no_qualifying_frame_no_event_witness :
  _extract_events np_mean (fun _ => 0) (mkEventDetector 1 0 (3 # 10)) "WRIST"
    ["None"; "Rotation-In"; "none"] [9 # 10; 2 # 10; 1] (np_arange 3) = Ok [].
Proof.
  apply no_qualifying_frame_no_event; [reflexivity | reflexivity |].
  intros [|[|[|k]]] l c Hl Hc; simpl in Hl, Hc;
    try (destruct k; discriminate Hl);
    injection Hl as <-; injection Hc as <-.
  - left. left. reflexivity.
  - right. reflexivity.
  - left. right. left. reflexivity.
Defined.

(** ** Event types and the event summary *)

Lemma lower_ascii_plain (c : ascii) :
  plain_ascii (if Ascii.eqb (lower_ascii c) " "%char then "_"%char
               else lower_ascii c) = true.
Proof.
  destruct c as [[] [] [] [] [] [] [] []]; reflexivity.
Qed.

Lemma generic_event_type_plain (label : string) :
  plain_string (replace_char " "%char "_"%char (lower label)) = true.
Proof.
  induction label as [|c s IH]; [reflexivity|].
  cbn [lower replace_char plain_string].
  rewrite lower_ascii_plain, IH. reflexivity.
Qed.

(** X15: whatever the category and the label, the event type that
    [_label_to_event_type] returns contains no space and no upper-case
    ASCII letter: it is either an identifier of [EVENT_CATEGORIES] or the
    label in lower case with its spaces replaced by underscores. *)
Theorem event_type_is_identifier :
  forall category label : string,
    plain_string (_label_to_event_type category label) = true.
Proof.
  intros category label. unfold _label_to_event_type.
  pose proof (generic_event_type_plain label) as G.
  unfold EVENT_CATEGORIES. cbn [dict_get].
  repeat match goal with
         | |- context [if String.eqb ?a ?b then _ else _] =>
             destruct (String.eqb a b); cbn [dict_get]
         end;
    first [exact G | reflexivity].
Qed.

Lemma count_of_increment (d : list (string * nat)) (k t : string) :
  count_of (dict_increment d k) t =
  (count_of d t + if String.eqb k t then 1 else 0)%nat.
Proof.
  unfold count_of. induction d as [|[k' n] d IH]; simpl.
  - rewrite (String.eqb_sym t k). destruct (String.eqb k t); reflexivity.
  - destruct (String.eqb k k') eqn:Ek; simpl.
    + apply String.eqb_eq in Ek. subst k'.
      rewrite (String.eqb_sym t k). destruct (String.eqb k t); lia.
    + destruct (String.eqb t k') eqn:Et.
      * apply String.eqb_eq in Et. subst k'. rewrite Ek. lia.
      * exact IH.
Qed.

Lemma count_of_fold (event_list : list DetectedEvent) :
  forall (d : list (string * nat)) (t : string),
    count_of (fold_left (fun tc e => dict_increment tc (event_type e))
                event_list d) t =
    (count_of d t + events_of_type t event_list)%nat.
Proof.
  unfold events_of_type.
  induction event_list as [|e l IH]; intros d t; simpl; [lia|].
  rewrite IH, count_of_increment.
  destruct (String.eqb (event_type e) t); simpl; lia.
Qed.

(** X16: in the summary of one category, [count] is the number of events
    and, for every event type, [type_counts] holds the number of events of
    that type (absent types, and an absent [type_counts], count 0); the
    keys [type_counts] and [avg_duration_seconds] are absent exactly when
    the category has no event. *)
Theorem event_summary_counts :
  forall event_list : list DetectedEvent,
    summary_count (category_summary event_list) = List.length event_list /\
    (event_list = [] <-> type_counts (category_summary event_list) = None) /\
    (event_list = [] <-> avg_duration_seconds (category_summary event_list) = None) /\
    forall t,
      count_of (match type_counts (category_summary event_list) with
                | Some tc => tc
                | None => []
                end) t
      = events_of_type t event_list.
Proof.
  intros [|e l].
  - repeat split; reflexivity.
  - split; [reflexivity|]. split; [split; discriminate|].
    split; [split; discriminate|].
    intro t. cbn [category_summary type_counts].
    apply (count_of_fold (e :: l) [] t).
Qed.

(** ** Segments of a state mask *)

Module SegmentProofs.
Import DynamicThresholdEngine.

Lemma covered_app (segs : list (Z * Z)) (s e j : Z) :
  covered (segs ++ [(s, e)]) j <-> covered segs j \/ (s <= j <= e)%Z.
Proof.
  unfold covered. split.
  - intros (s' & e' & Hin & Hj). apply in_app_iff in Hin.
    destruct Hin as [Hin|[Heq|[]]].
    + left. exists s', e'. split; assumption.
    + injection Heq as <- <-. right. exact Hj.
  - intros [(s' & e' & Hin & Hj)|Hj].
    + exists s', e'. split; [apply in_app_iff; left; exact Hin | exact Hj].
    + exists s, e. split; [apply in_app_iff; right; left; reflexivity | exact Hj].
Qed.

Lemma covered_below (segs : list (Z * Z)) (bound j : Z) :
  Forall (fun se => (0 <= fst se <= snd se)%Z /\ (snd se + 2 <= bound)%Z) segs ->
  covered segs j -> (j + 2 <= bound)%Z.
Proof.
  intros Hall (s & e & Hin & Hj). rewrite Forall_forall in Hall.
  destruct (Hall _ Hin) as [_ Hb]. simpl in Hb. lia.
Qed.

Lemma nth_snoc (pre : list bool) (b : bool) (j : nat) :
  nth j (pre ++ [b]) false =
  if (j <? List.length pre)%nat then nth j pre false
  else if (j =? List.length pre)%nat then b else false.
Proof.
  destruct (j <? List.length pre)%nat eqn:E1.
  - apply Nat.ltb_lt in E1. apply app_nth1, E1.
  - apply Nat.ltb_ge in E1. rewrite app_nth2 by exact E1.
    destruct (j =? List.length pre)%nat eqn:E2.
    + apply Nat.eqb_eq in E2. rewrite E2, Nat.sub_diag. reflexivity.
    + apply Nat.eqb_neq in E2.
      destruct (j - List.length pre)%nat as [|m] eqn:E3; [lia|].
      simpl. destruct m; reflexivity.
Qed.

Lemma nth_beyond (pre : list bool) (j : nat) :
  (List.length pre <= j)%nat -> nth j pre false = false.
Proof. intro H. apply nth_overflow, H. Qed.

Lemma segment_step_inv (pre : list bool) (b : bool) (st : segment_state) :
  segment_inv pre st ->
  segment_inv (pre ++ [b]) (segment_step (List.length pre) b st).
Proof.
  intros (HA & HB & HC & HD). unfold segment_inv, segment_step.
  rewrite length_app. cbn [List.length].
  destruct b, (in_segment st) eqn:Ein; cbn [andb negb in_segment segments start];
    try rewrite Ein.
  - (* inside a segment, still ON *)
    specialize (HC eq_refl).
    split; [|split; [|split]]; [| exact HB | intros _; lia | exact HD].
    intro j. rewrite nth_snoc.
    destruct (j <? List.length pre)%nat eqn:E1;
      [apply Nat.ltb_lt in E1 | apply Nat.ltb_ge in E1].
    + rewrite HA. split; (intros [H|[H1 H2]]; [left; exact H | right; split; [exact H1 | lia]]).
    + destruct (j =? List.length pre)%nat eqn:E2;
        [apply Nat.eqb_eq in E2 | apply Nat.eqb_neq in E2].
      * split; [intros _; right; split; [reflexivity | lia] | reflexivity].
      * split; [discriminate|]. intros [H|[_ H]]; [|lia].
        pose proof (covered_below _ _ _ HB H). lia.
  - (* a segment starts *)
    split; [|split; [|split]]; [| | intros _; lia | exact HD].
    + intro j. rewrite nth_snoc.
      destruct (j <? List.length pre)%nat eqn:E1;
        [apply Nat.ltb_lt in E1 | apply Nat.ltb_ge in E1].
      * rewrite HA. split; (intros [H|[H1 H2]]; [left; exact H | ]);
          [discriminate H1 | lia].
      * destruct (j =? List.length pre)%nat eqn:E2;
          [apply Nat.eqb_eq in E2 | apply Nat.eqb_neq in E2].
        -- split; [intros _; right; split; [reflexivity | lia] | reflexivity].
        -- split; [discriminate|]. intros [H|[_ H]]; [|lia].
           pose proof (covered_below _ _ _ HB H). lia.
    + exact HB.
  - (* the segment ends *)
    specialize (HC eq_refl).
    split; [|split; [|split]]; [| | discriminate |].
    + intro j. rewrite nth_snoc, covered_app.
      destruct (j <? List.length pre)%nat eqn:E1;
        [apply Nat.ltb_lt in E1 | apply Nat.ltb_ge in E1].
      * rewrite HA. split.
        -- intros [H|[_ H]]; [left; left; exact H | left; right; lia].
        -- intros [[H|H]|[H _]]; [left; exact H | right; split; [reflexivity | lia] |
                                  discriminate H].
      * assert (F : (if (j =? List.length pre)%nat then false else false) = false)
          by (destruct (j =? List.length pre)%nat; reflexivity).
        rewrite F. split; [discriminate|].
        intros [[H|H]|[H _]]; [| lia | discriminate H].
        pose proof (covered_below _ _ _ HB H). lia.
    + apply Forall_app. split.
      * eapply Forall_impl; [|exact HB]. cbn beta. intros se [H1 H2]. split; [exact H1 | lia].
      * constructor; [|constructor]. cbn. lia.
    + apply StronglySorted_snoc; [exact HD|].
      intros [s e] Hin. rewrite Forall_forall in HB.
      destruct (HB _ Hin) as [_ Hb]. unfold apart. cbn in *. lia.
  - (* outside, still OFF *)
    split; [|split; [|split]]; [| | discriminate | exact HD].
    + intro j. rewrite nth_snoc.
      destruct (j <? List.length pre)%nat eqn:E1;
        [apply Nat.ltb_lt in E1 | apply Nat.ltb_ge in E1].
      * rewrite HA. split; (intros [H|[H1 H2]]; [left; exact H | discriminate H1]).
      * assert (F : (if (j =? List.length pre)%nat then false else false) = false)
          by (destruct (j =? List.length pre)%nat; reflexivity).
        rewrite F. split; [discriminate|].
        intros [H|[H _]]; [|discriminate H].
        pose proof (covered_below _ _ _ HB H). lia.
    + eapply Forall_impl; [|exact HB]. cbn beta. intros se [H1 H2]. split; [exact H1 | lia].
Qed.

Lemma segment_loop_inv (rest : list bool) :
  forall (pre : list bool) (st : segment_state),
    segment_inv pre st ->
    segment_inv (pre ++ rest) (segment_loop (List.length pre) rest st).
Proof.
  induction rest as [|b rest IH]; intros pre st Hinv; simpl.
  - rewrite app_nil_r. exact Hinv.
  - replace (pre ++ b :: rest) with ((pre ++ [b]) ++ rest)
      by (rewrite <- app_assoc; reflexivity).
    replace (S (List.length pre)) with (List.length (pre ++ [b]))
      by (rewrite length_app; simpl; lia).
    apply IH, segment_step_inv, Hinv.
Qed.

End SegmentProofs.

(** X17: the segments that [_extract_segments] returns describe the mask
    exactly: frame [j] is ON if and only if it lies in one of the returned
    (start, end) pairs; every pair satisfies 0 <= start <= end < len(state),
    and the pairs come in increasing order with at least one OFF frame
    between two of them. *)
Theorem extract_segments_describe_mask :
  forall state : list bool,
    let segs := DynamicThresholdEngine._extract_segments state in
    (forall j : nat,
       nth j state false = true <->
       exists s e, In (s, e) segs /\ (s <= Z.of_nat j <= e)%Z) /\
    Forall (fun se => (0 <= fst se <= snd se)%Z /\
                      (snd se < Z.of_nat (List.length state))%Z) segs /\
    StronglySorted (fun a b => (snd a + 1 < fst b)%Z) segs.
Proof.
  intro state. cbv zeta. unfold DynamicThresholdEngine._extract_segments.
  assert (Hinit : DynamicThresholdEngine.segment_inv []
                    (DynamicThresholdEngine.mkSegmentState [] false 0)).
  { split; [|split; [|split]]; cbn.
    - intro j. destruct j; split; try discriminate;
        intros [(s & e & [] & _)|[H _]]; discriminate H.
    - constructor.
    - discriminate.
    - constructor. }
  pose proof (SegmentProofs.segment_loop_inv state [] _ Hinit) as Hinv.
  cbn [List.length app] in Hinv.
  set (st := DynamicThresholdEngine.segment_loop 0 state
               (DynamicThresholdEngine.mkSegmentState [] false 0)) in *.
  destruct Hinv as (HA & HB & HC & HD).
  destruct (DynamicThresholdEngine.in_segment st) eqn:Ein.
  - specialize (HC eq_refl). split; [|split].
    + intro j. rewrite HA.
      change (exists s e, In (s, e) (DynamicThresholdEngine.segments st ++
                [(DynamicThresholdEngine.start st,
                  (Z.of_nat (List.length state) - 1)%Z)]) /\
              (s <= Z.of_nat j <= e)%Z)
        with (DynamicThresholdEngine.covered
                (DynamicThresholdEngine.segments st ++
                 [(DynamicThresholdEngine.start st,
                   (Z.of_nat (List.length state) - 1)%Z)]) (Z.of_nat j)).
      rewrite SegmentProofs.covered_app. split.
      * intros [H|[_ H]]; [left; exact H | right; lia].
      * intros [H|H]; [left; exact H | right; split; [reflexivity | lia]].
    + apply Forall_app. split.
      * eapply Forall_impl; [|exact HB]. cbn beta. intros se [H1 H2].
        split; [exact H1 | lia].
      * constructor; [|constructor]. cbn. lia.
    + apply StronglySorted_snoc; [exact HD|].
      intros [s e] Hin. rewrite Forall_forall in HB.
      destruct (HB _ Hin) as [_ Hb]. cbn in *. lia.
  - split; [|split].
    + intro j. rewrite HA. split.
      * intros [H|[H _]]; [exact H | discriminate H].
      * intro H. left. exact H.
    + eapply Forall_impl; [|exact HB]. cbn beta. intros se [H1 H2].
      split; [exact H1 | lia].
    + exact HD.
Qed.

(** ** Hysteresis and CUSUM *)

Lemma run_length (low high : Q) (sig : list Q) :
  forall s, List.length (HysteresisThreshold.run low high s sig) = List.length sig.
Proof. induction sig as [|x rest IH]; intro s; simpl; [reflexivity | rewrite IH; reflexivity]. Qed.

Lemma run_outside_band (low high : Q) (sig : list Q) :
  low <= high ->
  forall (s : bool) (i : nat) (x : Q),
    nth_error sig i = Some x ->
    (high < x -> nth_error (HysteresisThreshold.run low high s sig) i = Some true) /\
    (x < low -> nth_error (HysteresisThreshold.run low high s sig) i = Some false).
Proof.
  intro Hlh. induction sig as [|y rest IH]; intros s i x Hi.
  - destruct i; discriminate Hi.
  - destruct i as [|i]; simpl in Hi |- *.
    + injection Hi as ->. unfold HysteresisThreshold.step.
      split; intro Hx.
      * destruct s.
        -- destruct (Qlt_bool x low) eqn:E; qbool; [exfalso; qlra | reflexivity].
        -- apply Qlt_bool_true in Hx. rewrite Hx. reflexivity.
      * destruct s.
        -- apply Qlt_bool_true in Hx. rewrite Hx. reflexivity.
        -- destruct (Qlt_bool high x) eqn:E; qbool; [exfalso; qlra | reflexivity].
    + apply IH, Hi.
Qed.

(** X18: when [HysteresisThreshold.apply] returns a mask with thresholds
    low <= high, the mask has one entry per sample, is ON at every sample
    above the high threshold and OFF at every sample below the low
    threshold; only samples inside the band depend on the history. *)
Theorem hysteresis_mask_between_thresholds :
  forall (np_quantile : list Q -> Q -> result Q)
         (self : HysteresisThreshold.t) (sig : list Q)
         (mask : list bool) (high low : Q),
    HysteresisThreshold.apply np_quantile self sig = Ok (mask, (high, low)) ->
    low <= high ->
    List.length mask = List.length sig /\
    forall (i : nat) (x : Q), nth_error sig i = Some x ->
      (high < x -> nth_error mask i = Some true) /\
      (x < low -> nth_error mask i = Some false).
Proof.
  intros np_quantile self sig mask high low H Hlh.
  unfold HysteresisThreshold.apply in H.
  apply bind_ok in H. destruct H as (h & _ & H).
  apply bind_ok in H. destruct H as (l & _ & H).
  injection H as <- <- <-. split; [apply run_length|].
  intros i x Hi. apply run_outside_band; assumption.
Qed.

Lemma hysteresis_mask_between_thresholds_witness :
  List.length [false; true; true; false] = List.length [1; 9; 5; 2] /\
  forall (i : nat) (x : Q), nth_error [1; 9; 5; 2] i = Some x ->
    (7 < x -> nth_error [false; true; true; false] i = Some true) /\
    (x < 3 -> nth_error [false; true; true; false] i = Some false).
Proof.
  apply (hysteresis_mask_between_thresholds (fun _ _ => Raise "unused")
           (HysteresisThreshold.mk (Some 7) (Some 3) (7 # 10) (3 # 10))).
  - reflexivity.
  - unfold Qle. simpl. lia.
Defined.

Lemma hysteresis_loop_run (high low : Q) (data_norm : list Q) :
  forall active,
    AdaptiveThresholder.hysteresis_loop high low active data_norm =
    HysteresisThreshold.run low high active data_norm.
Proof.
  induction data_norm as [|x rest IH]; intro active; simpl; [reflexivity|].
  unfold HysteresisThreshold.step.
  destruct active; simpl.
  - destruct (Qlt_bool x low); rewrite IH; reflexivity.
  - destruct (Qlt_bool high x); rewrite IH; reflexivity.
Qed.

(** X19: [AdaptiveThresholder.hysteresis_threshold] raises ValueError on an
    empty array and otherwise returns the mask that
    [HysteresisThreshold.apply] computes, with the same two fixed
    thresholds, on the data rescaled by its minimum and maximum. *)
Theorem adaptive_hysteresis_agrees :
  forall (config : ThresholdConfig) (data : list Q)
         (high_threshold low_threshold : option Q)
         (np_quantile : list Q -> Q -> result Q) (qh ql : Q),
    AdaptiveThresholder.hysteresis_threshold config [] high_threshold
      low_threshold = Raise "ValueError" /\
    AdaptiveThresholder.hysteresis_threshold config data high_threshold
      low_threshold =
    (lo <- np_min data ;;
     hi <- np_max data ;;
     r <- HysteresisThreshold.apply np_quantile
            (HysteresisThreshold.mk
               (Some (py_or high_threshold (hysteresis_high config)))
               (Some (py_or low_threshold (hysteresis_low config))) qh ql)
            (map (fun x => (x - lo) / (hi - lo + eps10)) data) ;;
     Ok (fst r)).
Proof.
  intros. split; [reflexivity|].
  unfold AdaptiveThresholder.hysteresis_threshold, HysteresisThreshold.apply.
  destruct (np_min data) as [lo|]; [|reflexivity].
  destruct (np_max data) as [hi|]; [|reflexivity].
  cbn. rewrite hysteresis_loop_run. reflexivity.
Qed.

Lemma hysteresis_loop_idle (high low : Q) (data_norm : list Q) :
  Forall (fun x => x <= high) data_norm ->
  AdaptiveThresholder.hysteresis_loop high low false data_norm =
  repeat false (List.length data_norm).
Proof.
  induction 1 as [|x rest Hx _ IH]; simpl; [reflexivity|].
  apply Qlt_bool_false in Hx. rewrite Hx, IH. reflexivity.
Qed.

(** X20: the rescaled data of [AdaptiveThresholder.hysteresis_threshold]
    stays below 1, so with a high threshold of 1 or more the mask of a
    non-empty array is False everywhere. *)
Theorem hysteresis_high_of_one_never_fires :
  forall (config : ThresholdConfig) (data : list Q)
         (high_threshold low_threshold : option Q),
    data <> [] ->
    1 <= py_or high_threshold (hysteresis_high config) ->
    AdaptiveThresholder.hysteresis_threshold config data high_threshold
      low_threshold = Ok (repeat false (List.length data)).
Proof.
  intros config data ht lt Hne Hhigh.
  unfold AdaptiveThresholder.hysteresis_threshold.
  destruct (np_min_ok data Hne) as [lo Hlo]. destruct (np_max_ok data Hne) as [hi Hhi].
  rewrite Hlo, Hhi. cbn [bind]. f_equal.
  destruct (np_min_spec _ _ Hlo) as [_ Bl]. destruct (np_max_spec _ _ Hhi) as [_ Bh].
  rewrite hysteresis_loop_idle; [rewrite length_map; reflexivity|].
  apply Forall_forall. intros xn Hxn. apply in_map_iff in Hxn.
  destruct Hxn as (x & <- & Hx).
  specialize (Bl x Hx). specialize (Bh x Hx).
  assert (He : 0 < eps10) by reflexivity.
  eapply Qle_trans; [|exact Hhigh].
  apply Qle_shift_div_r; qlra.
Qed.

Lemma hysteresis_high_of_one_never_fires_witness :
  AdaptiveThresholder.hysteresis_threshold default_ThresholdConfig
    [0; 5; 10; 2] (Some 1) None = Ok (repeat false (List.length [0; 5; 10; 2])).
Proof.
  apply hysteresis_high_of_one_never_fires.
  - discriminate.
  - unfold Qle. simpl. lia.
Defined.

Lemma cusum_loop_range (mean k h : Q) (data : list Q) :
  forall (i : nat) (s_high s_low : Q),
    StronglySorted lt (AdaptiveThresholder.cusum_loop mean k h i data s_high s_low) /\
    Forall (fun j => (i <= j < i + List.length data)%nat)
           (AdaptiveThresholder.cusum_loop mean k h i data s_high s_low).
Proof.
  induction data as [|x rest IH]; intros i s_high s_low; simpl.
  - split; constructor.
  - set (sh := max0 (s_high + x - mean - k)).
    set (sl := max0 (s_low - x + mean - k)).
    destruct (IH (S i) sh sl) as [Hs Hr].
    assert (Hr' : Forall (fun j => (i <= j < i + S (List.length rest))%nat)
                    (AdaptiveThresholder.cusum_loop mean k h (S i) rest sh sl)).
    { eapply Forall_impl; [|exact Hr]. cbn beta. intros j Hj. lia. }
    destruct (Qlt_bool h sh || Qlt_bool h sl).
    + split.
      * constructor; [exact Hs|].
        eapply Forall_impl; [|exact Hr]. cbn beta. intros j Hj. lia.
      * constructor; [lia | exact Hr'].
    + split; [exact Hs | exact Hr'].
Qed.

(** X21: the change points of [AdaptiveThresholder.cusum_detect] are
    strictly increasing indices of the data, and index 0 is never one of
    them. *)
Theorem cusum_change_points_ordered :
  forall (config : ThresholdConfig) (data : list Q) (h k : option Q),
    let change_points := fst (AdaptiveThresholder.cusum_detect config data h k) in
    StronglySorted lt change_points /\
    Forall (fun i => (1 <= i < List.length data)%nat) change_points.
Proof.
  intros config data h k. cbv zeta.
  unfold AdaptiveThresholder.cusum_detect. cbn [fst].
  destruct (cusum_loop_range (np_mean data) (py_or k (cusum_k config))
              (py_or h (cusum_h config)) (tl data) 1 0 0) as [Hs Hr].
  split; [exact Hs|].
  eapply Forall_impl; [|exact Hr]. cbn beta. intros j Hj.
  destruct data; simpl in *; lia.
Qed.

Lemma cusum_loop_monotone (mean k h1 h2 : Q) (data : list Q) :
  h1 <= h2 ->
  forall (i : nat) (s_high s_low : Q),
    incl (AdaptiveThresholder.cusum_loop mean k h2 i data s_high s_low)
         (AdaptiveThresholder.cusum_loop mean k h1 i data s_high s_low).
Proof.
  intro Hh. induction data as [|x rest IH]; intros i s_high s_low; simpl.
  - apply incl_refl.
  - set (sh := max0 (s_high + x - mean - k)).
    set (sl := max0 (s_low - x + mean - k)).
    specialize (IH (S i) sh sl).
    destruct (Qlt_bool h2 sh || Qlt_bool h2 sl) eqn:E2.
    + assert (E1 : Qlt_bool h1 sh || Qlt_bool h1 sl = true).
      { apply orb_true_iff in E2. apply orb_true_iff.
        destruct E2 as [E|E]; [left | right];
          apply Qlt_bool_true in E; apply Qlt_bool_true; qlra. }
      rewrite E1. intros j [<-|Hj]; [left; reflexivity | right; apply IH, Hj].
    + destruct (Qlt_bool h1 sh || Qlt_bool h1 sl).
      * apply incl_tl, IH.
      * exact IH.
Qed.

(** X22: raising the decision threshold of [cusum_detect] never adds a
    change point: with thresholds h1 <= h2 (after the defaults are filled
    in) every change point found with h2 is also found with h1. *)
Theorem cusum_threshold_monotone :
  forall (config : ThresholdConfig) (data : list Q) (h1 h2 k : option Q),
    py_or h1 (cusum_h config) <= py_or h2 (cusum_h config) ->
    incl (fst (AdaptiveThresholder.cusum_detect config data h2 k))
         (fst (AdaptiveThresholder.cusum_detect config data h1 k)).
Proof.
  intros config data h1 h2 k Hh.
  unfold AdaptiveThresholder.cusum_detect. cbn [fst].
  apply cusum_loop_monotone, Hh.
Qed.

Lemma cusum_threshold_monotone_witness :
  incl (fst (AdaptiveThresholder.cusum_detect default_ThresholdConfig
               [0; 0; 0; 9; 9; 9; 9] (Some 8) None))
       (fst (AdaptiveThresholder.cusum_detect default_ThresholdConfig
               [0; 0; 0; 9; 9; 9; 9] (Some 2) None)).
Proof.
  apply cusum_threshold_monotone. unfold Qle. simpl. lia.
Defined.

Lemma cusum_loop_quiet (mean k h : Q) (data : list Q) :
  0 <= h ->
  Forall (fun x => Qabs (x - mean) <= k) data ->
  forall i, AdaptiveThresholder.cusum_loop mean k h i data 0 0 = [].
Proof.
  intros Hh. induction 1 as [|x rest Hx _ IH]; intro i; simpl; [reflexivity|].
  apply Qabs_Qle_condition in Hx. destruct Hx as [Hx1 Hx2].
  assert (E1 : max0 (0 + x - mean - k) = 0).
  { unfold max0. destruct (Qlt_bool 0 (0 + x - mean - k)) eqn:E; [|reflexivity].
    qbool. exfalso. qlra. }
  assert (E2 : max0 (0 - x + mean - k) = 0).
  { unfold max0. destruct (Qlt_bool 0 (0 - x + mean - k)) eqn:E; [|reflexivity].
    qbool. exfalso. qlra. }
  rewrite E1, E2.
  assert (E3 : Qlt_bool h 0 = false) by (apply Qlt_bool_false; exact Hh).
  rewrite E3. simpl. apply IH.
Qed.

(** X23: [cusum_detect] reports no change point when every sample lies
    within the allowance k of the mean and the decision threshold h is not
    negative (k and h after the defaults are filled in); in particular a
    constant signal has none. *)
Theorem cusum_quiet_within_allowance :
  forall (config : ThresholdConfig) (data : list Q) (h k : option Q),
    0 <= py_or h (cusum_h config) ->
    Forall (fun x => Qabs (x - np_mean data) <= py_or k (cusum_k config)) data ->
    fst (AdaptiveThresholder.cusum_detect config data h k) = [].
Proof.
  intros config data h k Hh Hall.
  unfold AdaptiveThresholder.cusum_detect. cbn [fst].
  apply cusum_loop_quiet; [exact Hh|].
  destruct data as [|x rest]; [constructor|].
  simpl. inversion Hall. assumption.
Qed.

Lemma cusum_quiet_within_allowance_witness :
  fst (AdaptiveThresholder.cusum_detect default_ThresholdConfig
         [4; 4; 4; 4] None None) = [].
Proof.
  apply cusum_quiet_within_allowance.
  - unfold Qle. simpl. lia.
  - repeat constructor; unfold Qle; simpl; lia.
Defined.

Lemma max0_nonneg (v : Q) : 0 <= max0 v.
Proof.
  unfold max0. destruct (Qlt_bool 0 v) eqn:E; qbool; qlra.
Qed.

Lemma detect_loop_length (self : CUSUMDetector.t) (sig_norm : list Q) :
  forall i p n,
    List.length (snd (CUSUMDetector.detect_loop self i sig_norm p n)) =
    List.length sig_norm.
Proof.
  induction sig_norm as [|x rest IH]; intros i p n; simpl; [reflexivity|].
  rewrite IH. reflexivity.
Qed.

Lemma detect_loop_reset (self : CUSUMDetector.t) (sig_norm : list Q) :
  CUSUMDetector.reset_after_detection self = true ->
  0 <= CUSUMDetector.threshold self ->
  forall i p n,
    Forall (fun pn => (0 <= fst pn <= CUSUMDetector.threshold self) /\
                      (0 <= snd pn <= CUSUMDetector.threshold self))
           (snd (CUSUMDetector.detect_loop self i sig_norm p n)) /\
    forall j, In j (fst (CUSUMDetector.detect_loop self i sig_norm p n)) ->
      (i <= j)%nat /\
      nth_error (snd (CUSUMDetector.detect_loop self i sig_norm p n)) (j - i)
      = Some (0, 0).
Proof.
  intros Hreset Hthr.
  induction sig_norm as [|x rest IH]; intros i p n; simpl.
  - split; [constructor | intros j []].
  - rewrite Hreset, andb_true_r.
    set (p' := max0 (p + x - CUSUMDetector.drift self)).
    set (n' := max0 (n - x - CUSUMDetector.drift self)).
    pose proof (max0_nonneg (p + x - CUSUMDetector.drift self)) as Hp.
    pose proof (max0_nonneg (n - x - CUSUMDetector.drift self)) as Hn.
    fold p' in Hp. fold n' in Hn.
    destruct (Qlt_bool (CUSUMDetector.threshold self) p' ||
              Qlt_bool (CUSUMDetector.threshold self) n') eqn:E.
    + cbn [fst snd]. destruct (IH (S i) 0 0) as [Hall Hcp]. split.
      * constructor; [cbn; split; split; qlra | exact Hall].
      * intros j [<-|Hj].
        -- split; [lia|]. rewrite Nat.sub_diag. reflexivity.
        -- destruct (Hcp j Hj) as [Hij Hnth]. split; [lia|].
           replace (j - i)%nat with (S (j - S i)) by lia. exact Hnth.
    + cbn [fst snd]. destruct (IH (S i) p' n') as [Hall Hcp].
      apply orb_false_iff in E. destruct E as [E1 E2]. qbool. split.
      * constructor; [cbn; split; split; assumption | exact Hall].
      * intros j Hj. destruct (Hcp j Hj) as [Hij Hnth]. split; [lia|].
        replace (j - i)%nat with (S (j - S i)) by lia. exact Hnth.
Qed.

(** X24: with [reset_after_detection] and a threshold that is not
    negative, [CUSUMDetector.detect_changes] returns one combined CUSUM
    value per sample, each between 0 and twice the threshold, and the
    value at every reported change point is 0; index 0 is never
    reported. *)
Theorem cusum_detector_reset_bounds :
  forall (np_std : list Q -> Q) (self : CUSUMDetector.t) (sig : list Q),
    CUSUMDetector.reset_after_detection self = true ->
    0 <= CUSUMDetector.threshold self ->
    let r := CUSUMDetector.detect_changes np_std self sig in
    List.length (snd r) = List.length sig /\
    Forall (fun v => 0 <= v <= 2 * CUSUMDetector.threshold self) (snd r) /\
    forall i, In i (fst r) ->
      (1 <= i)%nat /\ exists v, nth_error (snd r) i = Some v /\ v == 0.
Proof.
  intros np_std self sig Hreset Hthr. cbv zeta.
  unfold CUSUMDetector.detect_changes.
  destruct sig as [|x0 rest]; [repeat split; [constructor | destruct H | destruct H]|].
  set (sig_norm := map _ (x0 :: rest)).
  destruct (detect_loop_reset self (tl sig_norm) Hreset Hthr 1 0 0) as [Hall Hcp].
  cbn [fst snd]. split; [|split].
  - rewrite length_map. cbn [List.length]. rewrite detect_loop_length.
    unfold sig_norm. cbn [map tl]. rewrite length_map. reflexivity.
  - cbn [map]. constructor; [cbn; split; qlra|].
    apply Forall_forall. intros v Hv. apply in_map_iff in Hv.
    destruct Hv as (pn & <- & Hpn). rewrite Forall_forall in Hall.
    destruct (Hall pn Hpn) as [[H1 H2] [H3 H4]]. split; qlra.
  - intros i Hi. destruct (Hcp i Hi) as [Hi1 Hnth]. split; [exact Hi1|].
    exists (0 + 0). split; [|reflexivity].
    replace i with (S (i - 1)) by lia. cbn [map nth_error].
    rewrite nth_error_map, Hnth. reflexivity.
Qed.

Lemma cusum_detector_reset_bounds_witness :
  let r := CUSUMDetector.detect_changes (fun _ => 1)
             (CUSUMDetector.mk 5 (1 # 2) true) [0; 0; 0; 9; 9; 9] in
  List.length (snd r) = List.length [0; 0; 0; 9; 9; 9] /\
  Forall (fun v => 0 <= v <= 2 * CUSUMDetector.threshold
                                 (CUSUMDetector.mk 5 (1 # 2) true)) (snd r) /\
  forall i, In i (fst r) ->
    (1 <= i)%nat /\ exists v, nth_error (snd r) i = Some v /\ v == 0.
Proof.
  apply cusum_detector_reset_bounds.
  - reflexivity.
  - unfold Qle. simpl. lia.
Defined.

(** ** Recursive smoothing filters *)

Lemma weighted_mean_bounds (w x p lo hi : Q) :
  0 <= w <= 1 -> lo <= x <= hi -> lo <= p <= hi ->
  lo <= w * x + (1 - w) * p <= hi.
Proof.
  intros [Hw0 Hw1] [Hx0 Hx1] [Hp0 Hp1].
  assert (A : 0 <= w * (x - lo)) by (apply Qmult_le_0_compat; qlra).
  assert (B : 0 <= (1 - w) * (p - lo)) by (apply Qmult_le_0_compat; qlra).
  assert (C : 0 <= w * (hi - x)) by (apply Qmult_le_0_compat; qlra).
  assert (D : 0 <= (1 - w) * (hi - p)) by (apply Qmult_le_0_compat; qlra).
  split; qlra.
Qed.

Lemma double_exponential_loop_ramp (alpha beta a b : Q) (count : nat) :
  forall (i : nat) (level trend : Q),
    level == a + b * inject_Z (Z.of_nat i) -> trend == b ->
    Forall2 Qeq (double_exponential_loop alpha beta level trend
                   (ramp a b (S i) count))
            (ramp a b (S i) count).
Proof.
  induction count as [|count IH]; intros i level trend Hl Ht; simpl.
  - constructor.
  - assert (E : alpha * (a + b * inject_Z (Z.of_nat (S i))) +
                (1 - alpha) * (level + trend)
                == a + b * inject_Z (Z.of_nat (S i))).
    { rewrite Hl, Ht, inject_Z_S. ring. }
    constructor; [exact E|].
    apply (IH (S i)); [exact E|].
    rewrite E, Hl, Ht, inject_Z_S. ring.
Qed.

(** X26: [DoubleExponentialFilter._smooth_1d] (Holt's method) reproduces a
    linear trend: on the samples a + b*i, i = 0 .. n, it returns, for every
    alpha and beta, a signal equal to its input. *)
Theorem double_exponential_keeps_linear_trend :
  forall (alpha beta a b : Q) (n : nat),
    exists out,
      DoubleExponentialFilter_smooth_1d alpha beta (ramp a b 0 (S n)) = Ok out /\
      Forall2 Qeq out (ramp a b 0 (S n)).
Proof.
  intros alpha beta a b n. unfold ramp. cbn [seq map].
  unfold DoubleExponentialFilter_smooth_1d. eexists. split; [reflexivity|].
  constructor; [reflexivity|].
  destruct n as [|n]; [constructor|].
  apply (double_exponential_loop_ramp alpha beta a b (S n) 0).
  - reflexivity.
  - cbn [seq map]. unfold inject_Z. simpl. ring.
Qed.

Lemma kalman_gain (P_pred R : Q) :
  0 < P_pred -> 0 < R ->
  Qeq_bool (P_pred + R) 0 = false /\
  0 <= P_pred / (P_pred + R) <= 1 /\
  0 < (1 - P_pred / (P_pred + R)) * P_pred.
Proof.
  intros HP HR.
  assert (Hs : 0 < P_pred + R) by qlra.
  assert (Hk1 : 0 < P_pred / (P_pred + R)).
  { apply Qlt_shift_div_l; [exact Hs | qlra]. }
  assert (Hk2 : P_pred / (P_pred + R) < 1).
  { apply Qlt_shift_div_r; [exact Hs | qlra]. }
  split; [|split].
  - destruct (Qeq_bool (P_pred + R) 0) eqn:E; [|reflexivity].
    apply Qeq_bool_eq in E. exfalso. qlra.
  - split; qlra.
  - apply Qmult_lt_0_compat; qlra.
Qed.

Lemma kalman_loop_bounds (process_noise measurement_noise lo hi : Q)
    (data : list Q) :
  0 <= process_noise -> 0 < measurement_noise -> within lo hi data ->
  forall x_est P, lo <= x_est <= hi -> 0 < P ->
    exists out,
      kalman_loop process_noise measurement_noise x_est P data = Ok out /\
      List.length out = List.length data /\ within lo hi out.
Proof.
  intros Hq Hr. induction 1 as [|x rest Hx _ IH]; intros x_est P Hest HP; simpl.
  - exists []. repeat split. constructor.
  - destruct (kalman_gain (P + process_noise) measurement_noise
                ltac:(qlra) Hr) as (E & HK & HP').
    rewrite E.
    set (K := (P + process_noise) / (P + process_noise + measurement_noise)) in *.
    assert (Hest' : lo <= x_est + K * (x - x_est) <= hi).
    { pose proof (weighted_mean_bounds K x x_est lo hi HK Hx Hest) as B.
      assert (Eq : x_est + K * (x - x_est) == K * x + (1 - K) * x_est) by ring.
      rewrite Eq. exact B. }
    destruct (IH _ _ Hest' HP') as (out & Hout & L & W).
    rewrite Hout. cbn [bind]. eexists. split; [reflexivity|].
    split; [simpl; rewrite L; reflexivity | constructor; assumption].
Qed.

Lemma kalman_filter_ok (process_noise measurement_noise lo hi : Q)
    (data : list Q) :
  0 <= process_noise -> 0 < measurement_noise -> data <> [] ->
  within lo hi data ->
  exists out,
    KalmanFilter_filter_1d process_noise measurement_noise data = Ok out /\
    List.length out = List.length data /\ within lo hi out /\
    nth_error out 0 = nth_error data 0.
Proof.
  intros Hq Hr Hne Hw. destruct data as [|x0 rest]; [congruence|].
  inversion Hw as [|? ? Hx0 Hrest]; subst.
  destruct (kalman_loop_bounds process_noise measurement_noise lo hi rest
              Hq Hr Hrest x0 1 Hx0 ltac:(reflexivity)) as (out & Hout & L & W).
  unfold KalmanFilter_filter_1d. rewrite Hout. cbn [bind].
  eexists. split; [reflexivity|].
  repeat split; [simpl; rewrite L; reflexivity | constructor; assumption].
Qed.

(** X27: with a process noise that is not negative and a positive
    measurement noise, [KalmanFilter._filter_1d] never divides by zero: on
    a non-empty signal it returns a signal of the same length that starts
    with the first sample and stays within any bounds [lo], [hi] that hold
    for the input. *)
Theorem kalman_filter_stays_in_range :
  forall (process_noise measurement_noise lo hi : Q) (data : list Q),
    0 <= process_noise -> 0 < measurement_noise -> data <> [] ->
    Forall (fun x => lo <= x <= hi) data ->
    exists out,
      KalmanFilter_filter_1d process_noise measurement_noise data = Ok out /\
      List.length out = List.length data /\
      Forall (fun x => lo <= x <= hi) out /\
      nth_error out 0 = nth_error data 0.
Proof.
  intros. apply kalman_filter_ok; assumption.
Qed.

Lemma kalman_filter_stays_in_range_witness :
  exists out,
    KalmanFilter_filter_1d (1 # 100) (1 # 10) [1; 5; 2] = Ok out /\
    List.length out = List.length [1; 5; 2] /\
    Forall (fun x => 1 <= x <= 5) out /\
    nth_error out 0 = nth_error [1; 5; 2] 0.
Proof.
  apply kalman_filter_stays_in_range.
  - unfold Qle; simpl; lia.
  - reflexivity.
  - discriminate.
  - repeat constructor; unfold Qle; simpl; lia.
Defined.

Lemma filter_chain_bounds (lo hi : Q) (filters : list BaseFilter) :
  Forall kalman_with_noise filters ->
  forall data, data <> [] -> within lo hi data ->
    exists out,
      FilterChain_apply filters data = Ok out /\
      List.length out = List.length data /\ within lo hi out.
Proof.
  induction 1 as [|f rest Hf _ IH]; intros data Hne Hw; simpl.
  - exists data. repeat split. exact Hw.
  - assert (Hstep : exists mid, BaseFilter_apply f data = Ok mid /\
                      List.length mid = List.length data /\ within lo hi mid).
    { destruct f as [w|alpha beta|q r]; simpl in Hf; try contradiction.
      destruct Hf as [Hq Hr].
      destruct (kalman_filter_ok q r lo hi data Hq Hr Hne Hw)
        as (mid & H1 & H2 & H3 & _). exists mid. auto. }
    destruct Hstep as (mid & Hmid & Lmid & Wmid).
    rewrite Hmid. cbn [bind].
    assert (Hne' : mid <> []).
    { intro E. rewrite E in Lmid. destruct data; [congruence | discriminate Lmid]. }
    destruct (IH mid Hne' Wmid) as (out & Hout & L & W).
    exists out. split; [exact Hout|]. split; [congruence | exact W].
Qed.

(** X28: a [FilterChain] built only from Kalman filters with process
    noise >= 0 and measurement noise > 0 applies to every non-empty signal
    without raising, keeps its length and keeps it within any bounds [lo],
    [hi] that hold for the input, however many filters are chained. *)
Theorem kalman_chain_stays_in_range :
  forall (filters : list BaseFilter) (lo hi : Q) (data : list Q),
    Forall kalman_with_noise filters ->
    data <> [] ->
    Forall (fun x => lo <= x <= hi) data ->
    exists out,
      FilterChain_apply filters data = Ok out /\
      List.length out = List.length data /\
      Forall (fun x => lo <= x <= hi) out.
Proof.
  intros filters lo hi data Hf Hne Hw.
  apply filter_chain_bounds; assumption.
Qed.

Lemma kalman_chain_stays_in_range_witness :
  exists out,
    FilterChain_apply
      [KalmanFilter (1 # 100) (1 # 10); KalmanFilter 0 1] [1; 5; 2] = Ok out /\
    List.length out = List.length [1; 5; 2] /\
    Forall (fun x => 1 <= x <= 5) out.
Proof.
  apply kalman_chain_stays_in_range.
  - repeat constructor; unfold Qle; simpl; lia.
  - discriminate.
  - repeat constructor; unfold Qle; simpl; lia.
Defined.

Lemma confidence_weighted_loop_spec (threshold pw : Q) (confidence : list Q)
    (sig : list Q) :
  threshold <= 1 ->
  forall (t : nat) (prev velocity : Q) (out : list Q),
    confidence_weighted_loop threshold pw confidence t sig prev velocity = Ok out ->
    List.length out = List.length sig /\
    forall (j : nat) (x c : Q),
      nth_error sig j = Some x -> nth_error confidence (t + j) = Some c ->
      c == 1 -> exists y, nth_error out j = Some y /\ y == x.
Proof.
  intro Hthr. induction sig as [|x0 rest IH]; intros t prev velocity out H; simpl in H.
  - injection H as <-. split; [reflexivity|]. intros [|j] x c Hx; discriminate Hx.
  - apply bind_ok in H. destruct H as (c0 & Hc0 & H).
    apply bind_ok in H. destruct H as (r & Hr & H).
    injection H as <-. destruct (IH _ _ _ _ Hr) as [L Hspec].
    split; [simpl; rewrite L; reflexivity|].
    intros [|j] x c Hx Hc Hc1; simpl in Hx.
    + injection Hx as ->. rewrite Nat.add_0_r in Hc.
      apply py_index_nat_inv in Hc0. rewrite Hc0 in Hc. injection Hc as ->.
      eexists. split; [reflexivity|].
      destruct (Qlt_bool c threshold) eqn:E.
      * apply Qlt_bool_true in E. exfalso. qlra.
      * rewrite Hc1. ring.
    + apply (Hspec j x c Hx); [|exact Hc1].
      rewrite <- Hc. f_equal. lia.
Qed.

(** X29: when [ConfidenceWeightedFilter._apply_1d] returns (the confidence
    array is long enough) and the confidence threshold is at most 1, the
    result has the length of the signal, its first sample is the signal's,
    and every sample whose confidence is 1 is passed through unchanged,
    whatever happened before it. *)
Theorem full_confidence_samples_pass_through :
  forall (confidence_threshold prediction_weight : Q)
         (sig confidence out : list Q),
    ConfidenceWeightedFilter_apply_1d confidence_threshold prediction_weight
      sig confidence = Ok out ->
    confidence_threshold <= 1 ->
    List.length out = List.length sig /\
    nth_error out 0 = nth_error sig 0 /\
    forall (t : nat) (x c : Q),
      (1 <= t)%nat -> nth_error sig t = Some x ->
      nth_error confidence t = Some c -> c == 1 ->
      exists y, nth_error out t = Some y /\ y == x.
Proof.
  intros thr pw sig confidence out H Hthr.
  unfold ConfidenceWeightedFilter_apply_1d in H.
  destruct sig as [|x0 rest].
  - injection H as <-. repeat split. intros [|t] x c _ Hx; discriminate Hx.
  - apply bind_ok in H. destruct H as (r & Hr & H). injection H as <-.
    destruct (confidence_weighted_loop_spec thr pw confidence rest Hthr
                1 x0 0 r Hr) as [L Hspec].
    split; [simpl; rewrite L; reflexivity|]. split; [reflexivity|].
    intros [|t] x c Ht Hx Hc Hc1; [lia|]. simpl in Hx |- *.
    apply (Hspec t x c Hx Hc Hc1).
Qed.

Lemma full_confidence_samples_pass_through_witness :
  exists out,
    ConfidenceWeightedFilter_apply_1d (1 # 2) (1 # 2) [1; 5; 4] [1; 0; 1]
    = Ok out /\
    List.length out = List.length [1; 5; 4] /\
    nth_error out 0 = nth_error [1; 5; 4] 0 /\
    forall (t : nat) (x c : Q),
      (1 <= t)%nat -> nth_error [1; 5; 4] t = Some x ->
      nth_error [1; 0; 1] t = Some c -> c == 1 ->
      exists y, nth_error out t = Some y /\ y == x.
Proof.
  eexists. split; [vm_compute; reflexivity|].
  apply (full_confidence_samples_pass_through (1 # 2) (1 # 2)
           [1; 5; 4] [1; 0; 1]).
  - vm_compute. reflexivity.
  - unfold Qle; simpl; lia.
Defined.

(** ** Asymmetry index *)

Lemma asymmetry_quotient (l r : Q) :
  0 <= l -> 0 <= r ->
  exists v w,
    (if Qlt_bool (Qabs (r + l)) eps10 then Num 0 else Num ((r - l) / (r + l)))
    = Num v /\
    (if Qlt_bool (Qabs (l + r)) eps10 then Num 0 else Num ((l - r) / (l + r)))
    = Num w /\
    -1 <= v <= 1 /\ w == - v.
Proof.
  intros Hl Hr.
  assert (He : 0 < eps10) by reflexivity.
  assert (A1 : Qabs (r + l) == r + l) by (apply Qabs_pos; qlra).
  assert (A2 : Qabs (l + r) == r + l) by (rewrite Qabs_pos; [ring | qlra]).
  destruct (Qlt_bool (Qabs (r + l)) eps10) eqn:E1;
    destruct (Qlt_bool (Qabs (l + r)) eps10) eqn:E2; qbool;
    try (exfalso; qlra).
  - exists 0, 0. repeat split; try reflexivity; unfold Qle; simpl; lia.
  - rewrite A1 in E1.
    exists ((r - l) / (r + l)), ((l - r) / (l + r)).
    split; [reflexivity|]. split; [reflexivity|]. split; [split|].
    + apply Qle_shift_div_l; qlra.
    + apply Qle_shift_div_r; qlra.
    + field. repeat split; intro Z0; qlra.
Qed.

(** X30: for two non-empty sides of non-negative values,
    [compute_asymmetry_index] returns a number between -1 and 1 (never
    NaN), and exchanging the sides negates it. *)
Theorem asymmetry_index_bounded_and_antisymmetric :
  forall left_values right_values : list Q,
    left_values <> [] -> right_values <> [] ->
    Forall (fun x => 0 <= x) left_values ->
    Forall (fun x => 0 <= x) right_values ->
    exists v w,
      compute_asymmetry_index left_values right_values = Num v /\
      compute_asymmetry_index right_values left_values = Num w /\
      -1 <= v <= 1 /\ w == - v.
Proof.
  intros left_values right_values Hl Hr Fl Fr.
  assert (Ml : 0 <= np_mean left_values).
  { apply np_mean_ge; [exact Hl|]. apply Forall_forall, Fl. }
  assert (Mr : 0 <= np_mean right_values).
  { apply np_mean_ge; [exact Hr|]. apply Forall_forall, Fr. }
  unfold compute_asymmetry_index, np_mean_float.
  destruct left_values as [|l0 ls]; [congruence|].
  destruct right_values as [|r0 rs]; [congruence|].
  apply asymmetry_quotient; assumption.
Qed.

Lemma asymmetry_index_bounded_and_antisymmetric_witness :
  exists v w,
    compute_asymmetry_index [1; 3] [4; 6] = Num v /\
    compute_asymmetry_index [4; 6] [1; 3] = Num w /\
    -1 <= v <= 1 /\ w == - v.
Proof.
  apply asymmetry_index_bounded_and_antisymmetric;
    try discriminate; repeat constructor; unfold Qle; simpl; lia.
Defined.
